(** * Honeypot API: scam classifier, intelligence extractor, strategy
    engine and session coordinator.

    A shallow embedding of [core/models.py], [core/config.py],
    [core/detector.py], [core/extractor.py], [core/agent.py],
    [core/database.py], [core/callback.py] and the handlers of [app/main.py];
    then the definitions in which the specification is stated;
    then its properties, and worked scenarios on a concrete platform.

    Conventions.
    - Python [str] is [string]; text is handled byte-wise, which agrees with
      Python on ASCII text.
    - Python [float] scores are exact rationals ([Q]); every score constant of
      the detector is a multiple of 0.05, so the sums are whole hundredths and
      [round(x, 2)] returns them unchanged. The comparison with the detection
      threshold is made on the exact sum. A sum of doubles can differ from the
      exact sum in the last place (0.55 is computed as 0.5499999999999999), so
      the two comparisons agree for a threshold that does not separate them;
      the default 0.6 is such a threshold, and what depends on the comparison
      of the hand-off is stated for it.
    - A [dict] whose insertion order is observable is an association list;
      dictionaries used as maps are [gmap].
    - Library code that is not part of the repository enters through the
      class [Platform] (the [re] engine, [urllib.parse.urlparse], the
      iteration order of a [set], the settings read from the environment) or
      as an input of a turn (the clock, [random.choice], the answer of the
      HTTP endpoint). The properties hold for every platform, under the
      hypotheses they state; module [Re]
      gives a concrete engine for the regular expressions of
      [core/config.py], used in the worked scenarios. *)

From Stdlib Require Import Ascii String List Bool Arith ZArith QArith Qround Qminmax Lia Lqa.
From stdpp Require Import base option list gmap strings.

Import ListNotations.
#[local] Open Scope string_scope.
#[local] Open Scope list_scope.

(** ** Python string primitives *)

Module Py.

Definition chars (s : string) : list ascii := list_ascii_of_string s.
Definition str (l : list ascii) : string := string_of_list_ascii l.

Definition dquote : string := String (ascii_of_nat 34) EmptyString.

Definition in_range (lo hi : nat) (c : ascii) : bool :=
  let n := nat_of_ascii c in (lo <=? n)%nat && (n <=? hi)%nat.

(** [c.isdigit()], on ASCII. *)
Definition isdigit (c : ascii) : bool := in_range 48 57 c.
Definition isupper (c : ascii) : bool := in_range 65 90 c.
Definition islower (c : ascii) : bool := in_range 97 122 c.
Definition isalpha (c : ascii) : bool := isupper c || islower c.
Definition isspace (c : ascii) : bool :=
  in_range 9 13 c || in_range 28 32 c.

Definition lower_char (c : ascii) : ascii :=
  if isupper c then ascii_of_nat (nat_of_ascii c + 32) else c.
Definition upper_char (c : ascii) : ascii :=
  if islower c then ascii_of_nat (nat_of_ascii c - 32) else c.

Fixpoint map_string (f : ascii -> ascii) (s : string) : string :=
  match s with
  | EmptyString => EmptyString
  | String c r => String (f c) (map_string f r)
  end.

(** [s.lower()] and [s.upper()]. *)
Definition lower (s : string) : string := map_string lower_char s.
Definition upper (s : string) : string := map_string upper_char s.

Fixpoint filter_string (p : ascii -> bool) (s : string) : string :=
  match s with
  | EmptyString => EmptyString
  | String c r => if p c then String c (filter_string p r) else filter_string p r
  end.

(** [''.join(c for c in s if c.isdigit())]. *)
Definition digits_of (s : string) : string := filter_string isdigit s.

(** [s.startswith(p)]. *)
Definition startswith (s p : string) : bool := String.prefix p s.

(** [s.endswith(p)]. *)
Definition endswith (s p : string) : bool :=
  let n := String.length s in
  let k := String.length p in
  (k <=? n)%nat && String.eqb (String.substring (n - k) k s) p.

(** [sub in s]. *)
Fixpoint contains (sub s : string) : bool :=
  String.prefix sub s ||
  match s with
  | EmptyString => false
  | String _ r => contains sub r
  end.

(** [sep.join(parts)]. *)
Definition join (sep : string) (parts : list string) : string :=
  String.concat sep parts.

(** [s[n:]]. *)
Fixpoint drop_string (n : nat) (s : string) : string :=
  match n, s with
  | O, _ => s
  | S k, EmptyString => EmptyString
  | S k, String _ r => drop_string k r
  end.

(** [s.replace(old, new)] for a non-empty [old] (the only use in the
    repository): occurrences are replaced from the left, without overlap.
    [skip] counts the characters of a replaced occurrence still to drop. *)
Fixpoint replace_go (old new : string) (skip : nat) (s : string) : string :=
  match s with
  | EmptyString => EmptyString
  | String c r =>
      match skip with
      | S k => replace_go old new k r
      | O =>
          if String.prefix old s
          then new +:+ replace_go old new (String.length old - 1) r
          else String c (replace_go old new 0 r)
      end
  end.

Definition replace (old new s : string) : string :=
  match old with
  | EmptyString => s
  | _ => replace_go old new 0 s
  end.

(** [s.strip()]. *)
Fixpoint lstrip (s : string) : string :=
  match s with
  | String c r => if isspace c then lstrip r else s
  | EmptyString => EmptyString
  end.

Fixpoint rstrip (s : string) : string :=
  match s with
  | EmptyString => EmptyString
  | String c r =>
      match rstrip r with
      | EmptyString => if isspace c then EmptyString else String c EmptyString
      | r' => String c r'
      end
  end.

Definition strip (s : string) : string := rstrip (lstrip s).

(** [s.split(sep)[0]] for a one-character [sep]. *)
Fixpoint before (sep : ascii) (s : string) : string :=
  match s with
  | EmptyString => EmptyString
  | String c r => if Ascii.eqb c sep then EmptyString else String c (before sep r)
  end.

(** [x in xs] on lists of strings. *)
Definition mem (x : string) (xs : list string) : bool :=
  existsb (String.eqb x) xs.

End Py.

(** ** The regular expressions of [core/config.py]

    [re.compile(p, re.IGNORECASE)] for the constructs that occur in the
    pattern tables: literals, escapes, classes, groups, alternation and greedy
    quantifiers, with Python's backtracking order (leftmost start, greedy
    repetition, alternatives tried left to right). *)

Module Re.

Inductive cls_item : Type :=
| CChar (c : ascii)
| CRange (lo hi : ascii)
| CDigit
| CSpace
| CWord.

Inductive re : Type :=
| Eps
| Chr (c : ascii)
| Dot
| Cls (neg : bool) (items : list cls_item)
| Cat (a b : re)
| Alt (a b : re)
| Rep (r : re) (lo : nat) (hi : option nat)
| Wb
| Grp (n : nat) (r : re).

(** *** Parsing the pattern source *)

Definition digit_val (c : ascii) : nat := nat_of_ascii c - 48.

Fixpoint parse_nat (acc : nat) (s : list ascii) : nat * list ascii :=
  match s with
  | c :: r => if Py.isdigit c then parse_nat (10 * acc + digit_val c) r else (acc, s)
  | [] => (acc, s)
  end.

Definition escape_item (c : ascii) : cls_item :=
  match c with
  | "d"%char => CDigit
  | "s"%char => CSpace
  | "w"%char => CWord
  | _ => CChar c
  end.

(** The items of a character class, up to the closing bracket. *)
Fixpoint parse_items (s : list ascii) : option (list cls_item * list ascii) :=
  match s with
  | [] => None
  | "]"%char :: r => Some ([], r)
  | "\"%char :: c :: r =>
      match parse_items r with
      | Some (its, r') => Some (escape_item c :: its, r')
      | None => None
      end
  | c :: r =>
      match r with
      | "-"%char :: d :: r2 =>
          if Ascii.eqb d "]"%char
          then match parse_items r with
               | Some (its, r') => Some (CChar c :: its, r')
               | None => None
               end
          else match parse_items r2 with
               | Some (its, r') => Some (CRange c d :: its, r')
               | None => None
               end
      | _ => match parse_items r with
             | Some (its, r') => Some (CChar c :: its, r')
             | None => None
             end
      end
  end.

Definition parse_class (s : list ascii) : option (re * list ascii) :=
  match s with
  | "^"%char :: r =>
      match parse_items r with
      | Some (its, r') => Some (Cls true its, r')
      | None => None
      end
  | _ =>
      match parse_items s with
      | Some (its, r') => Some (Cls false its, r')
      | None => None
      end
  end.

(** A quantifier after an atom, if any. *)
Definition parse_quant (a : re) (s : list ascii) : re * list ascii :=
  match s with
  | "*"%char :: r => (Rep a 0 None, r)
  | "+"%char :: r => (Rep a 1 None, r)
  | "?"%char :: r => (Rep a 0 (Some 1), r)
  | "{"%char :: r =>
      let '(lo, r1) := parse_nat 0 r in
      match r1 with
      | "}"%char :: r2 => (Rep a lo (Some lo), r2)
      | ","%char :: "}"%char :: r2 => (Rep a lo None, r2)
      | ","%char :: r2 =>
          let '(hi, r3) := parse_nat 0 r2 in
          match r3 with
          | "}"%char :: r4 => (Rep a lo (Some hi), r4)
          | _ => (a, s)
          end
      | _ => (a, s)
      end
  | _ => (a, s)
  end.

Definition escape_atom (c : ascii) : re :=
  match c with
  | "b"%char => Wb
  | "d"%char => Cls false [CDigit]
  | "s"%char => Cls false [CSpace]
  | "w"%char => Cls false [CWord]
  | _ => Chr c
  end.

(** [g] is the number of the next capturing group. *)
Fixpoint parse_alt (fuel : nat) (s : list ascii) (g : nat)
  : option (re * list ascii * nat) :=
  match fuel with
  | O => None
  | S f =>
      match parse_seq f s g with
      | Some (a, "|"%char :: s1, g1) =>
          match parse_alt f s1 g1 with
          | Some (b, s2, g2) => Some (Alt a b, s2, g2)
          | None => None
          end
      | other => other
      end
  end
with parse_seq (fuel : nat) (s : list ascii) (g : nat)
  : option (re * list ascii * nat) :=
  match fuel with
  | O => None
  | S f =>
      match s with
      | [] => Some (Eps, s, g)
      | "|"%char :: _ => Some (Eps, s, g)
      | ")"%char :: _ => Some (Eps, s, g)
      | _ =>
          match parse_atom f s g with
          | Some (a, s1, g1) =>
              let '(a', s2) := parse_quant a s1 in
              match parse_seq f s2 g1 with
              | Some (Eps, s3, g3) => Some (a', s3, g3)
              | Some (b, s3, g3) => Some (Cat a' b, s3, g3)
              | None => None
              end
          | None => None
          end
      end
  end
with parse_atom (fuel : nat) (s : list ascii) (g : nat)
  : option (re * list ascii * nat) :=
  match fuel with
  | O => None
  | S f =>
      match s with
      | [] => None
      | "("%char :: "?"%char :: ":"%char :: s1 =>
          match parse_alt f s1 g with
          | Some (r, ")"%char :: s2, g2) => Some (r, s2, g2)
          | _ => None
          end
      | "("%char :: s1 =>
          match parse_alt f s1 (S g) with
          | Some (r, ")"%char :: s2, g2) => Some (Grp g r, s2, g2)
          | _ => None
          end
      | "["%char :: s1 =>
          match parse_class s1 with
          | Some (r, s2) => Some (r, s2, g)
          | None => None
          end
      | "\"%char :: c :: s1 => Some (escape_atom c, s1, g)
      | "."%char :: s1 => Some (Dot, s1, g)
      | c :: s1 => Some (Chr c, s1, g)
      end
  end.

(** [re.compile(p)]: the syntax tree and the number of capturing groups. *)
Definition compile (p : string) : option (re * nat) :=
  let s := Py.chars p in
  match parse_alt (3 * List.length s + 3) s 1 with
  | Some (r, [], g) => Some (r, g - 1)
  | _ => None
  end.

(** *** Matching *)

Definition is_word (c : ascii) : bool :=
  Py.isalpha c || Py.isdigit c || Ascii.eqb c "_"%char.

Definition item_matches1 (i : cls_item) (c : ascii) : bool :=
  match i with
  | CChar x => Ascii.eqb x c
  | CRange lo hi => Py.in_range (nat_of_ascii lo) (nat_of_ascii hi) c
  | CDigit => Py.isdigit c
  | CSpace => Py.isspace c
  | CWord => is_word c
  end.

(** Under [re.IGNORECASE] a class item matches a character when it matches
    one of its cases. *)
Definition item_matches (i : cls_item) (c : ascii) : bool :=
  item_matches1 i c || item_matches1 i (Py.lower_char c)
  || item_matches1 i (Py.upper_char c).

(** Matcher state: the character before the position, the text from the
    position on, and the text of capturing group 1 when it has been closed. *)
Record mst : Type := MSt {
  prev : option ascii;
  rest : list ascii;
  g1 : option (list ascii)
}.

Definition step (p : ascii -> bool) (st : mst) (k : mst -> option mst)
  : option mst :=
  match rest st with
  | x :: xs => if p x then k (MSt (Some x) xs (g1 st)) else None
  | [] => None
  end.

Definition at_boundary (st : mst) : bool :=
  let before := match prev st with Some c => is_word c | None => false end in
  let after := match rest st with c :: _ => is_word c | [] => false end in
  xorb before after.

Definition consumed (st st' : mst) : list ascii :=
  firstn (List.length (rest st) - List.length (rest st')) (rest st).

Definition under (hi : option nat) (cnt : nat) : bool :=
  match hi with
  | Some h => (cnt <? h)%nat
  | None => true
  end.

(** [run r st k]: match [r] at [st] and continue with [k]; the first
    success in backtracking order is returned. *)
Fixpoint run (r : re) (st : mst) (k : mst -> option mst) {struct r}
  : option mst :=
  match r with
  | Eps => k st
  | Chr c => step (fun x => Ascii.eqb (Py.lower_char x) (Py.lower_char c)) st k
  | Dot => step (fun x => negb (Ascii.eqb x (ascii_of_nat 10))) st k
  | Cls neg items =>
      step (fun x => xorb neg (existsb (fun i => item_matches i x) items)) st k
  | Cat a b => run a st (fun st' => run b st' k)
  | Alt a b =>
      match run a st k with
      | Some x => Some x
      | None => run b st k
      end
  | Rep body lo hi =>
      (fix loop (fuel cnt : nat) (st0 : mst) {struct fuel} : option mst :=
         let stop := if (lo <=? cnt)%nat then k st0 else None in
         match fuel with
         | O => stop
         | S f =>
             if under hi cnt
             then
               match
                 run body st0
                   (fun st' =>
                      if (List.length (rest st') <? List.length (rest st0))%nat
                      then loop f (S cnt) st'
                      else None)
               with
               | Some x => Some x
               | None => stop
               end
             else stop
         end) (S (List.length (rest st))) 0%nat st
  | Wb => if at_boundary st then k st else None
  | Grp n body =>
      run body st
        (fun st' =>
           k (if (n =? 1)%nat
              then MSt (prev st') (rest st') (Some (consumed st st'))
              else st'))
  end.

(** A match object: [group(0)] and the capturing groups ([groups()]); only
    the first group is ever read by the repository. *)
Record Match : Type := MkMatch {
  group0 : string;
  groups : list string
}.

Definition match_at (r : re) (ngroups : nat) (pv : option ascii) (s : list ascii)
  : option (Match * mst) :=
  let st := MSt pv s None in
  match run r st (fun st' => Some st') with
  | Some st' =>
      let grp :=
        match ngroups, g1 st' with
        | O, _ => []
        | S _, Some g => [Py.str g]
        | S _, None => [EmptyString]
        end in
      Some (MkMatch (Py.str (consumed st st')) grp, st')
  | None => None
  end.

(** Scan for the leftmost match from the current position. *)
Fixpoint scan (r : re) (ngroups : nat) (pv : option ascii) (s : list ascii)
  : option (Match * mst) :=
  match match_at r ngroups pv s with
  | Some m => Some m
  | None =>
      match s with
      | [] => None
      | c :: s' => scan r ngroups (Some c) s'
      end
  end.

(** Successive non-overlapping matches; [fuel] bounds their number by the
    length of the text. *)
Fixpoint scan_all (fuel : nat) (r : re) (ngroups : nat) (pv : option ascii)
  (s : list ascii) : list Match :=
  match fuel with
  | O => []
  | S f =>
      match scan r ngroups pv s with
      | None => []
      | Some (m, st') =>
          m :: match group0 m, rest st' with
               | EmptyString, c :: s' => scan_all f r ngroups (Some c) s'
               | EmptyString, [] => []
               | _, s' => scan_all f r ngroups (prev st') s'
               end
      end
  end.

(** [re.compile(p, re.IGNORECASE).search(text) is not None]. A pattern
    outside the supported syntax matches nothing. *)
Definition search (p text : string) : bool :=
  match compile p with
  | Some (r, n) =>
      match scan r n None (Py.chars text) with
      | Some _ => true
      | None => false
      end
  | None => false
  end.

(** [list(re.compile(p, re.IGNORECASE).finditer(text))]. *)
Definition finditer (p text : string) : list Match :=
  match compile p with
  | Some (r, n) =>
      let s := Py.chars text in
      scan_all (S (List.length s)) r n None s
  | None => []
  end.

End Re.

(** ** Data models ([core/models.py]) *)

Inductive Sender : Type := scammer | user | agent.

Definition Sender_eqb (a b : Sender) : bool :=
  match a, b with
  | scammer, scammer | user, user | agent, agent => true
  | _, _ => false
  end.

Record Message : Type := MkMessage {
  sender : Sender;
  text : string;
  timestamp : option Z
}.

Record Metadata : Type := MkMetadata {
  channel : option string;
  language : option string;
  locale : option string
}.

Record IncomingRequest : Type := MkIncomingRequest {
  req_sessionId : string;
  req_message : Message;
  req_conversationHistory : list Message;
  req_metadata : option Metadata
}.

Inductive Status : Type := success | error.

Record AgentResponse : Type := MkAgentResponse {
  status : Status;
  reply : string
}.

Inductive ScamType : Type :=
| BANK_FRAUD | UPI_FRAUD | PHISHING | FAKE_OFFER | OTP_HARVESTING | UNKNOWN.

(** [scam_type.value]. *)
Definition ScamType_value (t : ScamType) : string :=
  match t with
  | BANK_FRAUD => "bank_fraud"
  | UPI_FRAUD => "upi_fraud"
  | PHISHING => "phishing"
  | FAKE_OFFER => "fake_offer"
  | OTP_HARVESTING => "otp_harvesting"
  | UNKNOWN => "unknown"
  end.

Record ScamDetectionResult : Type := MkScamDetectionResult {
  scamDetected : bool;
  confidenceScore : Q;
  scamType : ScamType;
  indicators : list string;
  reasoning : string
}.

Record ExtractedIntelligence : Type := MkExtractedIntelligence {
  bankAccounts : list string;
  ifscCodes : list string;
  upiIds : list string;
  phishingLinks : list string;
  phoneNumbers : list string;
  suspiciousKeywords : list string
}.

(** [ExtractedIntelligence()]. *)
Definition empty_intelligence : ExtractedIntelligence :=
  MkExtractedIntelligence [] [] [] [] [] [].

(** Truth value of a Python list. *)
Definition truthy {A : Type} (l : list A) : bool :=
  match l with
  | [] => false
  | _ :: _ => true
  end.

(** [any(xs)]. *)
Definition any (xs : list bool) : bool := existsb (fun b => b) xs.

(** [ExtractedIntelligence.has_intelligence]. *)
Definition has_intelligence (self : ExtractedIntelligence) : bool :=
  any [ truthy (bankAccounts self);
        truthy (ifscCodes self);
        truthy (upiIds self);
        truthy (phishingLinks self);
        truthy (phoneNumbers self) ].

(** Decimal text of a natural number, [str(n)]. *)
Definition digit_char (n : nat) : ascii := ascii_of_nat (48 + n mod 10).

Fixpoint str_of_nat_go (fuel n : nat) (acc : string) : string :=
  match fuel with
  | O => acc
  | S f =>
      let acc' := String (digit_char n) acc in
      if (n <? 10)%nat then acc' else str_of_nat_go f (n / 10) acc'
  end.

Definition str_of_nat (n : nat) : string := str_of_nat_go (S n) n EmptyString.

(** [ExtractedIntelligence.get_summary]. *)
Definition get_summary (self : ExtractedIntelligence) : string :=
  let item (l : list string) (label : string) : list string :=
    if truthy l then [str_of_nat (List.length l) +:+ label] else [] in
  let items :=
    item (bankAccounts self) " bank account(s)"
    ++ item (upiIds self) " UPI ID(s)"
    ++ item (phishingLinks self) " phishing link(s)"
    ++ item (phoneNumbers self) " phone number(s)" in
  if truthy items then Py.join ", " items else "No actionable intelligence".

Record EngagementMetrics : Type := MkEngagementMetrics {
  totalMessagesExchanged : nat;
  numberOfTurns : nat;
  engagementDurationSeconds : Q;
  scamDetectionConfidence : Q
}.

Definition default_metrics : EngagementMetrics :=
  MkEngagementMetrics 0 0 0%Q 0%Q.

Record SessionState : Type := MkSessionState {
  sessionId : string;
  createdAt : Z;
  updatedAt : Z;
  messages : list Message;
  detectionResult : option ScamDetectionResult;
  extractedIntelligence : ExtractedIntelligence;
  engagementMetrics : EngagementMetrics;
  isActive : bool;
  callbackSent : bool;
  agentNotes : string
}.

(** [SessionState(sessionId=session_id, messages=[])], created at time [now]. *)
Definition new_session (session_id : string) (now : Z) : SessionState :=
  MkSessionState session_id now now [] None empty_intelligence default_metrics
    true false EmptyString.

Definition count_sender (who : Sender) (ms : list Message) : nat :=
  List.length (List.filter (fun m => Sender_eqb (sender m) who) ms).

Record GUVICallbackPayload : Type := MkGUVICallbackPayload {
  cb_sessionId : string;
  cb_scamDetected : bool;
  cb_totalMessagesExchanged : nat;
  cb_extractedIntelligence : ExtractedIntelligence;
  cb_agentNotes : string
}.

(** ** Configuration ([core/config.py]) *)

Record Settings : Type := MkSettings {
  API_KEY : string;
  GUVI_CALLBACK_URL : string;
  SCAM_DETECTION_THRESHOLD : Q;
  MAX_CONVERSATION_TURNS : nat;
  MIN_TURNS_BEFORE_CALLBACK : nat
}.

(** The defaults of [Settings]. *)
Definition default_settings : Settings :=
  MkSettings "guvi-hackathon-secret-key"
    "https://hackathon.guvi.in/api/updateHoneyPotFinalResult"
    (6 # 10)%Q 15 3.

(** [SCAM_PATTERNS], in the insertion order of the dictionary. *)
Definition SCAM_PATTERNS : list (string * list string) :=
  [ ("urgency",
     [ "blocked\s*(today|now|immediately)";
       "will\s*be\s*blocked";
       "urgent";
       "immediately";
       "right\s*now";
       "hurry";
       "expires?\s*(today|soon)";
       "last\s*chance";
       "final\s*notice";
       "account\s*suspended";
       "verify\s*(now|immediately)" ]);
    ("bank_fraud",
     [ "\b(sbi|hdfc|icici|axis|pnb|bob|union\s*bank)\b";
       "bank\s*account";
       "debit\s*card";
       "credit\s*card";
       "kyc\s*(update|verification)";
       "account\s*verification";
       "transaction\s*failed";
       "suspicious\s*activity" ]);
    ("upi_fraud",
     [ "\bupi\b";
       "\b(paytm|phonepe|gpay|google\s*pay|bhim)\b";
       "qr\s*code";
       "scan\s*qr";
       "collect\s*request";
       "request\s*money";
       "send\s*money\s*to";
       "transfer\s*to";
       "@(?:paytm|phonepe|ybl|oksbi|okhdfcbank|okicici|okaxis)" ]);
    ("phishing",
     [ "click\s*(here|link)";
       "tap\s*here";
       "http[s]?://[^\s]+(?:verify|secure|login|update|kyc)";
       "bit\.ly|tinyurl|t\.co|short\.link";
       "verify\s*(?:account|identity|details)";
       "update\s*(?:kyc|details|information)";
       "login\s*to";
       "enter\s*(?:otp|pin|password)" ]);
    ("fake_offers",
     [ "won\s*(?:rs\.?|₹)?\s*[\d,]+";
       "congratulations!*\s*you\s*(?:have\s*)?won";
       "lucky\s*(?:draw|winner|prize)";
       "lottery";
       "cash\s*(?:prize|back|reward)";
       "\b(?:rs\.?|₹)\s*[\d,]+\s*(?:lakhs?|crores?|000)";
       "gift\s*(?:waiting|pending|ready)";
       "claim\s*(?:your|now)" ]);
    ("otp_pin_harvesting",
     [ "\botp\b";
       "\bpin\b";
       "one[-\s]?time[-\s]?password";
       "verification\s*code";
       "security\s*code";
       "share\s*(?:your|the)\s*(?:otp|pin|code)";
       "send\s*(?:me|us)\s*(?:otp|pin|code)";
       "provide\s*(?:otp|pin|code)";
       "enter\s*(?:otp|pin|code)";
       "\b\d{4,6}\b" ]);
    ("suspicious_keywords",
     [ "processing\s*fee";
       "advance\s*payment";
       "gst\s*(?:charges|fee)";
       "tax\s*payment";
       "refund\s*(?:pending|processing)";
       "insurance\s*claim";
       "package\s*delivery";
       "courier";
       "custom\s*duty" ]) ].

(** An entry of [EXTRACTION_PATTERNS]: the regular expressions and the
    validator. *)
Record ExtractionEntry : Type := MkExtractionEntry {
  regex : list string;
  validate : string -> bool
}.

Definition bank_account_entry : ExtractionEntry :=
  MkExtractionEntry
    [ "\b\d{9,18}\b";
      "(?:account|a/c)\s*(?:number|no)?[:\s]+(\d+)";
      "(?:account|a/c)[:\s]+(\d{9,18})" ]
    (fun x =>
       let n := String.length (Py.digits_of x) in
       (9 <=? n)%nat && (n <=? 18)%nat).

Definition ifsc_code_entry : ExtractionEntry :=
  MkExtractionEntry
    [ "\b[A-Z]{4}0[A-Z0-9]{6}\b";
      "ifsc[:\s]+([A-Z]{4}0[A-Z0-9]{6})" ]
    (fun x =>
       (String.length x =? 11)%nat
       && match String.get 4 x with
          | Some c => Ascii.eqb c "0"%char
          | None => false
          end).

Definition upi_id_entry : ExtractionEntry :=
  MkExtractionEntry
    [ "\b[\w.-]+@(?:paytm|phonepe|ybl|oksbi|okhdfcbank|okicici|okaxis|ibl|axl)\b";
      "\b[\w.-]+@[\w]+\b";
      "upi\s*(?:id)?[:\s]+([\w.-]+@[\w]+)" ]
    (fun x =>
       Py.contains "@" x && (3 <=? String.length (Py.before "@"%char x))%nat).

Definition phone_number_entry : ExtractionEntry :=
  MkExtractionEntry
    [ "\+91[-\s]?\d{10}";
      "\b\d{10}\b";
      "(?:mobile|phone|contact|call)[:\s]+(\+?\d[\d\s-]{8,})" ]
    (fun x => (10 <=? String.length (Py.digits_of x))%nat).

Definition phishing_link_entry : ExtractionEntry :=
  MkExtractionEntry
    [ "https?://[^\s<>\" +:+ Py.dquote +:+ "{}|\\^`[\]]+";
      "www\.[^\s<>\" +:+ Py.dquote +:+ "{}|\\^`[\]]+" ]
    (fun x => Py.contains "." x && (10 <? String.length x)%nat).

(** ** The platform

    What the process takes from outside the repository: the settings read at
    start-up and the library functions the core calls. The generic development
    is parametric in it; [py_platform] below is a concrete instance. *)

Class Platform : Type := MkPlatform {
  (** [core.config.settings] *)
  settings : Settings;
  (** [re.compile(p, re.IGNORECASE).search(text) is not None] *)
  re_search : string -> string -> bool;
  (** [list(re.compile(p, re.IGNORECASE).finditer(text))] *)
  re_finditer : string -> string -> list Re.Match;
  (** the order in which a [set] of strings is iterated, as a function of the
      distinct elements in insertion order *)
  set_order : list string -> list string;
  (** [urlparse(url).netloc]; [None] when [urlparse] raises *)
  urlparse_netloc : string -> option string;
  (** whether assigning an attribute that a model class does not declare is
      refused (pydantic's default: [ValueError]) *)
  rejects_undeclared_fields : bool
}.

(** The distinct elements of a list, first occurrences first. *)
Fixpoint unique_go (seen : list string) (xs : list string) : list string :=
  match xs with
  | [] => []
  | x :: r => if Py.mem x seen then unique_go seen r else x :: unique_go (x :: seen) r
  end.

Definition unique (xs : list string) : list string := unique_go [] xs.

(** [list(set(xs))]. *)
Definition list_of_set `{Platform} (xs : list string) : list string :=
  set_order (unique xs).

(** [key in d] for a dictionary kept as an association list. *)
Definition has_key {V : Type} (key : string) (d : list (string * V)) : bool :=
  existsb (fun kv => String.eqb key (fst kv)) d.

(** ** The classifier ([core/detector.py]) *)

(** A compiled pattern is identified with its source, [pattern.pattern]. *)
Record Pattern : Type := MkPattern { pattern : string }.

Record ScamDetector : Type := MkScamDetector {
  compiled_patterns : list (string * list Pattern)
}.

(** [ScamDetector._compile_patterns]. *)
Definition _compile_patterns : list (string * list Pattern) :=
  List.map (fun cp => (fst cp, List.map MkPattern (snd cp))) SCAM_PATTERNS.

(** [ScamDetector()]; the module keeps one instance, [detector]. *)
Definition detector : ScamDetector := MkScamDetector _compile_patterns.

(** Python's [round(x, 2)] on an exact value: nearest hundredth, ties to the
    even neighbour. *)
Definition round_half_even (q : Q) : Z :=
  let f := Qfloor q in
  match Qcompare (q - inject_Z f)%Q (1 # 2)%Q with
  | Lt => f
  | Gt => (f + 1)%Z
  | Eq => if Z.even f then f else (f + 1)%Z
  end.

Definition round2 (q : Q) : Q := Qmake (round_half_even (q * 100)%Q) 100.

(** [ScamDetector._calculate_confidence]. *)
Definition multi_pattern_bonus (acc : Q) (item : string * list string) : Q :=
  let matches := snd item in
  let acc := if (2 <=? List.length matches)%nat then (acc + (1 # 10))%Q else acc in
  if (3 <=? List.length matches)%nat then (acc + (1 # 10))%Q else acc.

Definition critical_categories : list string :=
  ["urgency"; "otp_pin_harvesting"; "phishing"].

Definition _calculate_confidence
  (category_matches : list (string * list string)) (text : string) : Q :=
  let base_score := 0%Q in
  let num_categories := List.length category_matches in
  let base_score :=
    (base_score + Qmin (inject_Z (Z.of_nat num_categories) * (15 # 100)) (45 # 100))%Q in
  let base_score := fold_left multi_pattern_bonus category_matches base_score in
  let base_score :=
    fold_left
      (fun acc crit =>
         if has_key crit category_matches then (acc + (15 # 100))%Q else acc)
      critical_categories base_score in
  let base_score :=
    if has_key "upi_fraud" category_matches then (base_score + (1 # 10))%Q
    else base_score in
  let base_score :=
    if has_key "bank_fraud" category_matches then (base_score + (1 # 10))%Q
    else base_score in
  let base_score :=
    if has_key "urgency" category_matches
       && (has_key "bank_fraud" category_matches
           || has_key "upi_fraud" category_matches)
    then (base_score + (15 # 100))%Q
    else base_score in
  Qmin base_score (99 # 100)%Q.

(** [ScamDetector._determine_scam_type]. *)
Definition priority : list (string * ScamType) :=
  [ ("upi_fraud", UPI_FRAUD);
    ("bank_fraud", BANK_FRAUD);
    ("phishing", PHISHING);
    ("fake_offers", FAKE_OFFER);
    ("otp_pin_harvesting", OTP_HARVESTING) ].

Fixpoint first_in_priority
  (order : list (string * ScamType))
  (category_matches : list (string * list string)) : option ScamType :=
  match order with
  | [] => None
  | (category, scam_type) :: later =>
      if has_key category category_matches then Some scam_type
      else first_in_priority later category_matches
  end.

Definition _determine_scam_type
  (category_matches : list (string * list string)) : ScamType :=
  match first_in_priority priority category_matches with
  | Some scam_type => scam_type
  | None =>
      if has_key "urgency" category_matches
         || has_key "suspicious_keywords" category_matches
      then PHISHING
      else UNKNOWN
  end.

(** [ScamDetector._generate_reasoning]. *)
Definition _generate_reasoning
  (category_matches : list (string * list string)) (scam_type : ScamType)
  : string :=
  let part (category clause : string) : list string :=
    if has_key category category_matches then [clause] else [] in
  let parts :=
    part "urgency" "Creates false urgency"
    ++ part "bank_fraud" "Impersonates bank"
    ++ part "upi_fraud" "Requests UPI transfer"
    ++ part "phishing" "Contains suspicious links"
    ++ part "fake_offers" "Promises fake rewards"
    ++ part "otp_pin_harvesting" "Requests sensitive codes"
    ++ part "suspicious_keywords" "Uses suspicious terminology" in
  if truthy parts
  then "Detected " +:+ ScamType_value scam_type +:+ ": " +:+ Py.join "; " parts
  else "Low confidence detection".

(** The loop of [detect] over the categories: the indicators found so far and
    the dictionary [category_matches]. *)
Definition scan_category `{Platform} (all_text : string)
  (acc : list string * list (string * list string))
  (entry : string * list Pattern)
  : list string * list (string * list string) :=
  let '(indicators_found, category_matches) := acc in
  let '(category, patterns) := entry in
  let matches :=
    List.map pattern
      (List.filter (fun p => re_search (pattern p) all_text) patterns) in
  if truthy matches
  then (indicators_found ++ firstn 2 matches,
        category_matches ++ [(category, matches)])
  else acc.

Definition scan_categories `{Platform} (self : ScamDetector) (all_text : string)
  : list string * list (string * list string) :=
  fold_left (scan_category all_text) (compiled_patterns self) ([], []).

Definition no_indicators : ScamDetectionResult :=
  MkScamDetectionResult false (1 # 10)%Q UNKNOWN [] "No scam indicators detected".

(** [ScamDetector.detect]. The unrounded score is compared with the threshold
    as an exact rational. *)
Definition detect `{Platform} (self : ScamDetector) (messages : list Message)
  : ScamDetectionResult :=
  let all_text := Py.lower (Py.join " " (List.map text messages)) in
  let '(indicators_found, category_matches) := scan_categories self all_text in
  if negb (truthy category_matches)
  then no_indicators
  else
    let confidence := _calculate_confidence category_matches all_text in
    let scam_type := _determine_scam_type category_matches in
    let reasoning := _generate_reasoning category_matches scam_type in
    let scam_detected :=
      Qle_bool (SCAM_DETECTION_THRESHOLD settings) confidence in
    MkScamDetectionResult scam_detected (round2 confidence) scam_type
      (firstn 10 (list_of_set indicators_found)) reasoning.

(** [detect_scam]: the module-level function over the singleton. *)
Definition detect_scam `{Platform} (messages : list Message) : ScamDetectionResult :=
  detect detector messages.

(** ** The extractor ([core/extractor.py]) *)

Definition LEGITIMATE_DOMAINS : list string :=
  [ "google.com"; "gmail.com"; "yahoo.com"; "hotmail.com";
    "facebook.com"; "instagram.com"; "twitter.com"; "x.com";
    "youtube.com"; "linkedin.com";
    "amazon.in"; "amazon.com"; "flipkart.com";
    "paytm.com"; "phonepe.com"; "google.com/pay";
    "sbi.co.in"; "onlinesbi.sbi"; "hdfcbank.com"; "icicibank.com";
    "axisbank.com"; "pnbindia.in"; "bankofbaroda.in";
    "rbi.org.in"; "npci.org.in";
    "whatsapp.com"; "telegram.org" ].

Definition SUSPICIOUS_TLDS : list string :=
  [ ".tk"; ".ml"; ".ga"; ".cf"; ".top"; ".xyz"; ".club"; ".online"; ".site" ].

(** [EXTRACTION_PATTERNS], by data type. *)
Definition EXTRACTION_PATTERNS : list (string * ExtractionEntry) :=
  [ ("bank_account", bank_account_entry);
    ("ifsc_code", ifsc_code_entry);
    ("upi_id", upi_id_entry);
    ("phone_number", phone_number_entry);
    ("phishing_link", phishing_link_entry) ].

Record IntelligenceExtractor : Type := MkIntelligenceExtractor {
  extractor_patterns : list (string * list Pattern);
  scam_keywords : list string
}.

(** [IntelligenceExtractor._compile_patterns]. *)
Definition extractor_compile_patterns : list (string * list Pattern) :=
  List.map (fun e => (fst e, List.map MkPattern (regex (snd e)))) EXTRACTION_PATTERNS.

(** [IntelligenceExtractor._load_scam_keywords]. *)
Definition keyword_of_pattern (p : string) : string :=
  Py.replace "*" "" (Py.replace "?" "" (Py.replace "\s*" " " (Py.replace "\b" "" p))).

Definition _load_scam_keywords : list string :=
  flat_map
    (fun cp =>
       List.filter (fun keyword => (3 <? String.length keyword)%nat)
         (List.map keyword_of_pattern (firstn 3 (snd cp))))
    SCAM_PATTERNS.

(** [IntelligenceExtractor()]; the module keeps one instance, [extractor]. *)
Definition extractor : IntelligenceExtractor :=
  MkIntelligenceExtractor extractor_compile_patterns _load_scam_keywords.

(** [self.compiled_patterns.get(data_type, [])]. *)
Fixpoint patterns_for (d : list (string * list Pattern)) (data_type : string)
  : list Pattern :=
  match d with
  | [] => []
  | (k, v) :: r => if String.eqb k data_type then v else patterns_for r data_type
  end.

(** The matches visited by the two nested loops
    [for pattern in patterns: for match in pattern.finditer(text)]. *)
Definition all_matches `{Platform} (patterns : list Pattern) (text : string)
  : list Re.Match :=
  flat_map (fun p => re_finditer (pattern p) text) patterns.

(** [match.group(1) if match.groups() else match.group(0)]. *)
Definition captured (m : Re.Match) : string :=
  match Re.groups m with
  | g :: _ => g
  | [] => Re.group0 m
  end.

(** [if x not in xs: xs.append(x)]. *)
Definition append_new (xs : list string) (x : string) : list string :=
  if Py.mem x xs then xs else xs ++ [x].

(** One iteration of the loop of [_extract_bank_accounts]. *)
Definition add_bank_account (accounts : list string) (m : Re.Match) : list string :=
  let account := captured m in
  let account := Py.digits_of account in
  if validate bank_account_entry account
  then append_new accounts account
  else accounts.

Definition _extract_bank_accounts `{Platform} (self : IntelligenceExtractor)
  (text : string) : list string :=
  let patterns := patterns_for (extractor_patterns self) "bank_account" in
  firstn 5 (fold_left add_bank_account (all_matches patterns text) []).

(** One iteration of the loop of [_extract_ifsc_codes]. *)
Definition add_ifsc_code (codes : list string) (m : Re.Match) : list string :=
  let code := captured m in
  let code := Py.strip (Py.upper code) in
  if validate ifsc_code_entry code
  then append_new codes code
  else codes.

Definition _extract_ifsc_codes `{Platform} (self : IntelligenceExtractor)
  (text : string) : list string :=
  let patterns := patterns_for (extractor_patterns self) "ifsc_code" in
  firstn 5 (fold_left add_ifsc_code (all_matches patterns text) []).

(** One iteration of the loop of [_extract_upi_ids]. *)
Definition add_upi_id (upis : list string) (m : Re.Match) : list string :=
  let upi := captured m in
  let upi := Py.strip (Py.lower upi) in
  if Py.contains "@" upi
     && negb (Py.endswith upi "@gmail.com" || Py.endswith upi "@yahoo.com"
              || Py.endswith upi "@hotmail.com")
  then
    if validate upi_id_entry upi
    then append_new upis upi
    else upis
  else upis.

Definition _extract_upi_ids `{Platform} (self : IntelligenceExtractor)
  (text : string) : list string :=
  let patterns := patterns_for (extractor_patterns self) "upi_id" in
  firstn 5 (fold_left add_upi_id (all_matches patterns text) []).

(** [IntelligenceExtractor._is_suspicious_url]. *)
Definition is_legitimate (domain : string) : bool :=
  existsb
    (fun legit => String.eqb domain legit || Py.endswith domain ("." +:+ legit))
    LEGITIMATE_DOMAINS.

Definition has_suspicious_tld (domain : string) : bool :=
  existsb (fun tld => Py.endswith domain tld) SUSPICIOUS_TLDS.

Definition looks_typosquatted (domain : string) : bool :=
  existsb
    (fun legit =>
       let legit_name := Py.before "."%char legit in
       Py.contains legit_name domain && negb (String.eqb domain legit))
    LEGITIMATE_DOMAINS.

Definition suspicious_keywords : list string :=
  ["verify"; "secure"; "login"; "update"; "kyc"; "confirm"; "validate"].

Definition shorteners : list string :=
  ["bit.ly"; "tinyurl"; "t.co"; "short.link"; "goo.gl"].

(** The domain that the checks look at: the lower-cased [netloc] without a
    leading [www.]. *)
Definition domain_of (netloc : string) : string :=
  let domain := Py.lower netloc in
  if Py.startswith domain "www." then Py.drop_string 4 domain else domain.

(** [if url.startswith("www."): url = "http://" + url]. *)
Definition with_scheme (url : string) : string :=
  if Py.startswith url "www." then "http://" +:+ url else url.

Definition _is_suspicious_url `{Platform} (url : string) : bool :=
  let url := with_scheme url in
  match urlparse_netloc url with
  | None => true
  | Some netloc =>
      let domain := domain_of netloc in
      if is_legitimate domain then false
      else if has_suspicious_tld domain then true
      else if looks_typosquatted domain then true
      else if existsb (fun kw => Py.contains kw domain) suspicious_keywords then true
      else if existsb (fun short => Py.contains short domain) shorteners then true
      else true
  end.

(** One iteration of the loop of [_extract_phishing_links]. *)
Definition add_phishing_link `{Platform} (links : list string) (m : Re.Match)
  : list string :=
  let url := Py.strip (Re.group0 m) in
  if negb (Py.startswith url "http://" || Py.startswith url "https://"
           || Py.startswith url "www.")
  then links
  else if _is_suspicious_url url
  then append_new links url
  else links.

Definition _extract_phishing_links `{Platform} (self : IntelligenceExtractor)
  (text : string) : list string :=
  let patterns := patterns_for (extractor_patterns self) "phishing_link" in
  firstn 10 (fold_left add_phishing_link (all_matches patterns text) []).

(** The normalisation inside [_extract_phone_numbers]: the value bound to
    [normalized], or [None] where the loop takes [continue]. *)
Definition normalized (digits : string) : option string :=
  let n := String.length digits in
  if (n =? 10)%nat then Some ("+91" +:+ digits)
  else if (n =? 12)%nat && Py.startswith digits "91" then Some ("+" +:+ digits)
  else if (10 <? n)%nat then Some ("+" +:+ digits)
  else None.

(** One iteration of the loop of [_extract_phone_numbers]. *)
Definition add_phone_number (numbers : list string) (m : Re.Match) : list string :=
  let number := captured m in
  let digits := Py.digits_of number in
  match normalized digits with
  | Some normalized => append_new numbers normalized
  | None => numbers
  end.

Definition _extract_phone_numbers `{Platform} (self : IntelligenceExtractor)
  (text : string) : list string :=
  let patterns := patterns_for (extractor_patterns self) "phone_number" in
  firstn 5 (fold_left add_phone_number (all_matches patterns text) []).

Definition urgent_phrases : list string :=
  [ "account blocked"; "verify now"; "urgent"; "immediately";
    "hurry up"; "last chance"; "expires today"; "final notice";
    "suspended"; "limited time"; "act now" ].

(** [IntelligenceExtractor._extract_suspicious_keywords]. *)
Definition _extract_suspicious_keywords `{Platform} (self : IntelligenceExtractor)
  (text : string) : list string :=
  let text_lower := Py.lower text in
  let found :=
    List.filter (fun keyword => Py.contains (Py.lower keyword) text_lower)
      (scam_keywords self) in
  let found :=
    fold_left
      (fun found phrase =>
         if Py.contains phrase text_lower && negb (Py.mem phrase found)
         then found ++ [phrase]
         else found)
      urgent_phrases found in
  firstn 15 (list_of_set found).

(** [IntelligenceExtractor.extract]. *)
Definition extract `{Platform} (self : IntelligenceExtractor)
  (messages : list Message) : ExtractedIntelligence :=
  let scammer_text :=
    Py.join " "
      (List.map text
         (List.filter (fun m => Sender_eqb (sender m) scammer) messages)) in
  {| bankAccounts := _extract_bank_accounts self scammer_text;
     ifscCodes := _extract_ifsc_codes self scammer_text;
     upiIds := _extract_upi_ids self scammer_text;
     phishingLinks := _extract_phishing_links self scammer_text;
     phoneNumbers := _extract_phone_numbers self scammer_text;
     suspiciousKeywords := _extract_suspicious_keywords self scammer_text |}.

(** [extract_intelligence]: the module-level function over the singleton. *)
Definition extract_intelligence `{Platform} (messages : list Message)
  : ExtractedIntelligence :=
  extract extractor messages.

(** ** The strategy engine ([core/agent.py]) *)

Record Persona : Type := MkPersona {
  name : string;
  style : string;
  responses : list string
}.

Definition persona_confused : Persona :=
  MkPersona "Ramesh" "slightly confused, elderly, cooperative"
    [ "Wait... I'm a bit confused. Could you explain that again?";
      "Sorry, I'm not very good with technology. What did you say?";
      "My eyes aren't what they used to be. Can you repeat that slowly?";
      "I'm worried about making a mistake. Can you guide me step by step?";
      "Let me write this down... could you say that again?";
      "I didn't understand. Can you explain in simple words?";
      "Is this safe? I've heard about scams...";
      "My son usually helps me with these things. Let me try to understand.";
      "I'm getting a bit worried. Is everything okay?";
      "Please be patient with me, I'm trying my best." ].

Definition persona_cooperative : Persona :=
  MkPersona "Priya" "cooperative but cautious, asks questions"
    [ "Okay, I want to help. What do I need to do?";
      "I can do that. Just to confirm - what was the ID again?";
      "I want to make sure I do this right. Can you repeat?";
      "Alright, I'm following. What's the next step?";
      "I understand. But why do you need this information?";
      "I'll help, but I want to be careful. Is this legitimate?";
      "Let me check... okay, I'm ready. What next?";
      "I want to do this correctly. Can you confirm the details?" ].

Definition persona_skeptical : Persona :=
  MkPersona "Vikram" "slightly suspicious, asks for proof"
    [ "How do I know this is real? I've been scammed before.";
      "Can you prove you're from the bank?";
      "This seems suspicious. Why do you need this?";
      "I need to verify this. Can you give me a reference number?";
      "I'm not comfortable sharing this. Can I call the bank directly?";
      "Something doesn't feel right. Can you explain more?";
      "Let me think about this. Why is this urgent?" ].

Definition persona_curious : Persona :=
  MkPersona "Ananya" "curious, asks many questions"
    [ "Interesting... tell me more about this.";
      "Why would my account be blocked? I didn't do anything wrong.";
      "How does this work exactly?";
      "What happens if I don't do this?";
      "Can you explain why this is necessary?";
      "I have so many questions. Is this normal?";
      "Wait, let me understand this properly first." ].

(** [list(PERSONAS.values())]. *)
Definition PERSONAS_values : list Persona :=
  [persona_confused; persona_cooperative; persona_skeptical; persona_curious].

(** [EXTRACTION_QUESTIONS.get(data_type, ["Can you tell me more?"])]. *)
Definition EXTRACTION_QUESTIONS : list (string * list string) :=
  [ ("upi_id",
     [ "What's the UPI ID I should send to? I want to make sure I get it right.";
       "Can you confirm the UPI ID? I don't want to send to the wrong person.";
       "Sorry, I got disconnected. What was the UPI ID again?";
       "Let me write this down. What's the exact UPI ID?" ]);
    ("bank_account",
     [ "Which account should I transfer to? Can you give me the details?";
       "I can do a bank transfer. What are the account details?";
       "My bank needs the account number and IFSC. Can you provide those?";
       "I prefer bank transfer. What's the account information?" ]);
    ("phone_number",
     [ "Can I call you to confirm? What's your number?";
       "My phone is having issues. Can you give me your number again?";
       "I'd like to save your number. What is it?" ]);
    ("phishing_link",
     [ "The link isn't working. Can you send it again?";
       "I'm having trouble opening the link. Could you resend?";
       "My browser says the link is broken. Can you check and resend?" ]) ].

Fixpoint questions_for (d : list (string * list string)) (data_type : string)
  : list string :=
  match d with
  | [] => ["Can you tell me more?"]
  | (k, v) :: r => if String.eqb k data_type then v else questions_for r data_type
  end.

(** [random.choice(xs)] when the generator draws index [pick]. *)
Definition choice {A : Type} (default : A) (xs : list A) (pick : nat) : A :=
  nth (pick mod List.length xs) xs default.

Record ConversationMemory : Type := MkConversationMemory {
  scammer_claims : list string;
  extracted_so_far : gmap string bool;
  extraction_attempts : gmap string nat;
  last_topics : list string
}.

(** [ConversationMemory()]. *)
Definition new_memory : ConversationMemory :=
  MkConversationMemory []
    (<["upi" := false]> (<["bank" := false]> (<["phone" := false]>
       (<["link" := false]> ∅))))
    (<["upi" := 0%nat]> (<["bank" := 0%nat]> (<["phone" := 0%nat]>
       (<["link" := 0%nat]> ∅))))
    [].

(** [ConversationMemory.record_extraction_attempt]. *)
Definition record_extraction_attempt (self : ConversationMemory) (data_type : string)
  : ConversationMemory :=
  match extraction_attempts self !! data_type with
  | Some n =>
      MkConversationMemory (scammer_claims self) (extracted_so_far self)
        (<[data_type := S n]> (extraction_attempts self)) (last_topics self)
  | None => self
  end.

(** [ConversationMemory.mark_extracted]. *)
Definition mark_extracted (self : ConversationMemory) (data_type : string)
  : ConversationMemory :=
  match extracted_so_far self !! data_type with
  | Some _ =>
      MkConversationMemory (scammer_claims self)
        (<[data_type := true]> (extracted_so_far self))
        (extraction_attempts self) (last_topics self)
  | None => self
  end.

(** [d[key]] on the two dictionaries of the memory; their four keys are set
    by the constructor and never removed. *)
Definition attempts_of (self : ConversationMemory) (data_type : string) : nat :=
  default 0%nat (extraction_attempts self !! data_type).

Definition extracted_flag (self : ConversationMemory) (data_type : string) : bool :=
  default false (extracted_so_far self !! data_type).

Record AutonomousAgent : Type := MkAutonomousAgent {
  agent_session_id : string;
  scam_type : ScamType;
  persona : Persona;
  memory : ConversationMemory;
  turn_count : nat;
  start_time : Z
}.

(** [AutonomousAgent._select_persona]; [pick] is the index drawn by
    [random.choice] in the last branch. *)
Definition _select_persona (scam_type : ScamType) (pick : nat) : Persona :=
  match scam_type with
  | BANK_FRAUD => persona_skeptical
  | UPI_FRAUD => persona_confused
  | FAKE_OFFER => persona_curious
  | _ => choice persona_confused PERSONAS_values pick
  end.

(** [create_agent], at time [now]. *)
Definition create_agent (session_id : string) (scam_type : ScamType)
  (pick : nat) (now : Z) : AutonomousAgent :=
  MkAutonomousAgent session_id scam_type (_select_persona scam_type pick)
    new_memory 0 now.

Inductive Strategy : Type :=
| extract_upi | extract_bank | extract_phone | extract_link
| express_concern | express_confusion | ask_clarification | show_cooperation.

(** [any(word in msg for word in words)]. *)
Definition any_in (words : list string) (msg : string) : bool :=
  existsb (fun word => Py.contains word msg) words.

(** [AutonomousAgent._determine_strategy]. *)
Definition _determine_strategy (self : AutonomousAgent) (scammer_msg : string)
  (extracted : ExtractedIntelligence) : Strategy :=
  let msg_lower := Py.lower scammer_msg in
  if any_in ["upi"; "paytm"; "phonepe"] msg_lower
     && (negb (truthy (upiIds extracted))
         && (attempts_of (memory self) "upi" <? 2)%nat)
  then extract_upi
  else if any_in ["bank"; "account"; "transfer"] msg_lower
     && (negb (truthy (bankAccounts extracted))
         && (attempts_of (memory self) "bank" <? 2)%nat)
  then extract_bank
  else if any_in ["call"; "phone"; "contact"] msg_lower
     && (negb (truthy (phoneNumbers extracted))
         && (attempts_of (memory self) "phone" <? 2)%nat)
  then extract_phone
  else if any_in ["click"; "link"; "website"] msg_lower
     && (negb (truthy (phishingLinks extracted))
         && (attempts_of (memory self) "link" <? 2)%nat)
  then extract_link
  else if any_in ["hurry"; "quick"; "now"; "urgent"; "immediately"] msg_lower
  then express_concern
  else if any_in ["send"; "share"; "provide"; "give"] msg_lower
  then express_confusion
  else if (turn_count self <=? 2)%nat
  then ask_clarification
  else show_cooperation.

(** The clause appended by [_generate_extraction_question] for the persona. *)
Definition persona_flavor (p : Persona) : string :=
  if String.eqb (name p) "Ramesh" then " I want to make sure I do it correctly."
  else if String.eqb (name p) "Priya" then " I want to help."
  else if String.eqb (name p) "Vikram" then " I need to verify this first."
  else "".

(** [AutonomousAgent._generate_extraction_question]. *)
Definition _generate_extraction_question (self : AutonomousAgent)
  (data_type : string) (pick : nat) : string :=
  let questions := questions_for EXTRACTION_QUESTIONS data_type in
  let question := choice "" questions pick in
  question +:+ persona_flavor (persona self).

Definition confusion_responses : list string :=
  [ "I'm a bit confused. Could you explain that again more simply?";
    "Sorry, I didn't understand. Can you repeat that?";
    "This is confusing for me. What exactly do you need?";
    "I'm not sure I follow. Can you break it down?";
    "Wait... I'm lost. What are you asking for?" ].

Definition clarification_responses : list string :=
  [ "Why do you need this information?";
    "Is this really from my bank?";
    "How do I know this is legitimate?";
    "Can you tell me more about why this is urgent?";
    "What will happen if I don't do this?" ].

Definition cooperative_responses : list string :=
  [ "Okay, I'm listening. What should I do next?";
    "I understand. Please guide me through this.";
    "Alright, I want to do this right. What's the next step?";
    "I'm ready. What do I need to do?";
    "Okay, I'm following along. Please continue." ].

Definition concern_responses : list string :=
  [ "This feels rushed. Can we take this slowly?";
    "I'm getting worried. Is everything okay?";
    "Why is this so urgent? Can you explain?";
    "I need to think about this. Is there a deadline?";
    "I'm concerned. Can I verify this with my bank first?" ].

(** [_generate_confusion_response], [_generate_clarification_question],
    [_generate_cooperative_response], [_generate_concern_response] and
    [_get_random_response]. *)
Definition _generate_confusion_response (pick : nat) : string :=
  choice "" confusion_responses pick.
Definition _generate_clarification_question (pick : nat) : string :=
  choice "" clarification_responses pick.
Definition _generate_cooperative_response (pick : nat) : string :=
  choice "" cooperative_responses pick.
Definition _generate_concern_response (pick : nat) : string :=
  choice "" concern_responses pick.
Definition _get_random_response (self : AutonomousAgent) (pick : nat) : string :=
  choice "" (responses (persona self)) pick.

(** The last scammer message, lower-cased:
    [for m in reversed(messages): if m.sender == "scammer": ...; break]. *)
Definition last_scammer_msg (messages : list Message) : option string :=
  match List.filter (fun m => Sender_eqb (sender m) scammer) (List.rev messages) with
  | m :: _ => Some (Py.lower (text m))
  | [] => None
  end.

Definition with_memory (self : AutonomousAgent) (m : ConversationMemory)
  : AutonomousAgent :=
  MkAutonomousAgent (agent_session_id self) (scam_type self) (persona self) m
    (turn_count self) (start_time self).

Definition with_turn_count (self : AutonomousAgent) (n : nat) : AutonomousAgent :=
  MkAutonomousAgent (agent_session_id self) (scam_type self) (persona self)
    (memory self) n (start_time self).

(** The updates of the memory from what has been extracted. *)
Definition update_extracted (m : ConversationMemory) (extracted : ExtractedIntelligence)
  : ConversationMemory :=
  let m := if truthy (upiIds extracted) then mark_extracted m "upi" else m in
  let m := if truthy (bankAccounts extracted) then mark_extracted m "bank" else m in
  let m := if truthy (phoneNumbers extracted) then mark_extracted m "phone" else m in
  if truthy (phishingLinks extracted) then mark_extracted m "link" else m.

(** The branch of [generate_response] that produces the reply. *)
Inductive ReplyKind : Type :=
| ExtractionQuestion (target : string)
| ConfusionReply
| ClarificationReply
| CooperationReply
| ConcernReply
| RandomReply.

(** [AutonomousAgent.generate_response]: the agent after the call, the branch
    taken and the reply. [pick] is the index drawn by the one [random.choice]
    of the call. *)
Definition generate_response (self : AutonomousAgent) (messages : list Message)
  (extracted : ExtractedIntelligence) (pick : nat)
  : AutonomousAgent * ReplyKind * string :=
  let self := with_turn_count self (turn_count self + 1) in
  match last_scammer_msg messages with
  | None => (self, RandomReply, _get_random_response self pick)
  | Some EmptyString => (self, RandomReply, _get_random_response self pick)
  | Some last_msg =>
      let self := with_memory self (update_extracted (memory self) extracted) in
      let strategy := _determine_strategy self last_msg extracted in
      let ask (key data_type : string) :=
        (with_memory self (record_extraction_attempt (memory self) key),
         ExtractionQuestion key,
         _generate_extraction_question self data_type pick) in
      match strategy with
      | extract_upi =>
          if negb (extracted_flag (memory self) "upi")
          then ask "upi" "upi_id"
          else (self, RandomReply, _get_random_response self pick)
      | extract_bank =>
          if negb (extracted_flag (memory self) "bank")
          then ask "bank" "bank_account"
          else (self, RandomReply, _get_random_response self pick)
      | extract_phone =>
          if negb (extracted_flag (memory self) "phone")
          then ask "phone" "phone_number"
          else (self, RandomReply, _get_random_response self pick)
      | extract_link =>
          if negb (extracted_flag (memory self) "link")
          then ask "link" "phishing_link"
          else (self, RandomReply, _get_random_response self pick)
      | express_confusion => (self, ConfusionReply, _generate_confusion_response pick)
      | ask_clarification =>
          (self, ClarificationReply, _generate_clarification_question pick)
      | show_cooperation =>
          (self, CooperationReply, _generate_cooperative_response pick)
      | express_concern => (self, ConcernReply, _generate_concern_response pick)
      end
  end.

(** [AutonomousAgent.should_continue]. *)
Definition should_continue `{Platform} (self : AutonomousAgent) : bool :=
  negb (MAX_CONVERSATION_TURNS settings <=? turn_count self)%nat.

(** [AutonomousAgent.generate_agent_notes]. The test on
    [str(extracted.suspiciousKeywords).lower()] is a test on the keywords: the
    separators of the printed list contain no letter. *)
Definition generate_agent_notes (self : AutonomousAgent)
  (extracted : ExtractedIntelligence) : string :=
  let mentions (w : string) : bool :=
    existsb (fun kw => Py.contains w (Py.lower kw)) (suspiciousKeywords extracted) in
  let tactics :=
    (if mentions "urgent" || mentions "immediately" then ["urgency tactics"] else [])
    ++ (if truthy (phishingLinks extracted) then ["phishing links"] else [])
    ++ (if truthy (upiIds extracted) then ["UPI fraud"] else [])
    ++ (if truthy (bankAccounts extracted) then ["bank account fraud"] else []) in
  let intel_summary := get_summary extracted in
  let notes_parts :=
    ["Scammer attempted " +:+ ScamType_value (scam_type self) +:+ "."]
    ++ (if truthy tactics then ["Used " +:+ Py.join " and " tactics +:+ "."] else [])
    ++ (if negb (String.eqb intel_summary "No actionable intelligence")
        then ["Extracted: " +:+ intel_summary +:+ "."] else [])
    ++ ["Engaged for " +:+ str_of_nat (turn_count self) +:+ " turns."] in
  Py.join " " notes_parts.

(** ** Session storage ([core/database.py])

    One row per session, keyed by [session_id]. The serialisation of the
    columns is kept abstract: a row holds the session it was written from. *)

Abbreviation Database := (gmap string SessionState).

(** [Database.save_session]. The statement that serialises the detection
    result reads [session.detection_result]; [SessionState] declares
    [detectionResult] and no [detection_result], so whenever the session has a
    detection result the read raises [AttributeError], which the
    [except Exception] clause answers with [False], before any row is
    written. An [UPDATE] leaves [created_at] as it is. *)
Definition save_session (db : Database) (session : SessionState) : Database * bool :=
  match detectionResult session with
  | Some _ => (db, false)
  | None =>
      match db !! sessionId session with
      | Some row =>
          (<[sessionId session :=
               MkSessionState (sessionId session) (createdAt row) (updatedAt session)
                 (messages session) None (extractedIntelligence session)
                 (engagementMetrics session) (isActive session)
                 (callbackSent session) (agentNotes session)]> db, true)
      | None => (<[sessionId session := session]> db, true)
      end
  end.

(** [Database.get_session]. *)
Definition get_session (db : Database) (session_id : string) : option SessionState :=
  db !! session_id.

Definition set_callbackSent (s : SessionState) (b : bool) : SessionState :=
  MkSessionState (sessionId s) (createdAt s) (updatedAt s) (messages s)
    (detectionResult s) (extractedIntelligence s) (engagementMetrics s)
    (isActive s) b (agentNotes s).

(** [Database.mark_callback_sent]:
    [UPDATE sessions SET callback_sent = 1 WHERE session_id = ?]. *)
Definition mark_callback_sent (db : Database) (session_id : string) : Database * bool :=
  (alter (fun row => set_callbackSent row true) session_id db, true).

(** ** The outbound callback ([core/callback.py]) *)

(** The payload built by [GUVICallback.send_callback]. *)
Definition callback_payload (session : SessionState) : GUVICallbackPayload :=
  {| cb_sessionId := sessionId session;
     cb_scamDetected :=
       match detectionResult session with
       | Some d => scamDetected d
       | None => false
       end;
     cb_totalMessagesExchanged := totalMessagesExchanged (engagementMetrics session);
     cb_extractedIntelligence := extractedIntelligence session;
     cb_agentNotes := agentNotes session |}.

(** [send_guvi_callback]: one POST of the payload; [post_status] is the
    status code of the response, [None] for a timeout or any other exception.
    The result is the payload that went out and the success flag. *)
Definition send_guvi_callback (session : SessionState) (post_status : option nat)
  : GUVICallbackPayload * bool :=
  (callback_payload session,
   match post_status with
   | Some code => (code =? 200)%nat
   | None => false
   end).

(** ** The session coordinator ([app/main.py]) *)

(** The process state shared by the turns: the session table and the
    [active_agents] dictionary. *)
Record World : Type := MkWorld {
  db : Database;
  active_agents : gmap string AutonomousAgent
}.

Definition empty_world : World := MkWorld ∅ ∅.

(** What one turn takes from outside: the [x-api-key] header, the clock, the
    measured duration, the indices drawn by [random.choice] (for the persona of
    a new agent and for the reply) and the outcome of the POST. *)
Record TurnEnv : Type := MkTurnEnv {
  x_api_key : string;
  now : Z;
  elapsed : Q;
  persona_pick : nat;
  reply_pick : nat;
  post_status : option nat
}.

Inductive Outcome : Type :=
| Unauthorized
| Responded (response : AgentResponse).

(** The result of one turn: the process state after it, what the caller
    receives, the payloads posted to the callback endpoint, and the handler's
    [session] object as it stands at the end ([None] when the handler left
    before or by an exception). *)
Record TurnResult : Type := MkTurnResult {
  world_after : World;
  outcome : Outcome;
  posted : list GUVICallbackPayload;
  session_after : option SessionState
}.

(** [verify_api_key]: [true] when no [HTTPException] is raised. *)
Definition verify_api_key `{Platform} (key : string) : bool :=
  negb (String.eqb key EmptyString) && String.eqb key (API_KEY settings).

Definition with_messages (s : SessionState) (ms : list Message) : SessionState :=
  MkSessionState (sessionId s) (createdAt s) (updatedAt s) ms
    (detectionResult s) (extractedIntelligence s) (engagementMetrics s)
    (isActive s) (callbackSent s) (agentNotes s).

Definition with_detection (s : SessionState) (d : ScamDetectionResult) : SessionState :=
  MkSessionState (sessionId s) (createdAt s) (updatedAt s) (messages s)
    (Some d) (extractedIntelligence s) (engagementMetrics s)
    (isActive s) (callbackSent s) (agentNotes s).

Definition with_intelligence (s : SessionState) (i : ExtractedIntelligence)
  : SessionState :=
  MkSessionState (sessionId s) (createdAt s) (updatedAt s) (messages s)
    (detectionResult s) i (engagementMetrics s)
    (isActive s) (callbackSent s) (agentNotes s).

Definition with_metrics (s : SessionState) (m : EngagementMetrics) : SessionState :=
  MkSessionState (sessionId s) (createdAt s) (updatedAt s) (messages s)
    (detectionResult s) (extractedIntelligence s) m
    (isActive s) (callbackSent s) (agentNotes s).

Definition with_notes (s : SessionState) (notes : string) : SessionState :=
  MkSessionState (sessionId s) (createdAt s) (updatedAt s) (messages s)
    (detectionResult s) (extractedIntelligence s) (engagementMetrics s)
    (isActive s) (callbackSent s) notes.

Definition with_updatedAt (s : SessionState) (t : Z) : SessionState :=
  MkSessionState (sessionId s) (createdAt s) t (messages s)
    (detectionResult s) (extractedIntelligence s) (engagementMetrics s)
    (isActive s) (callbackSent s) (agentNotes s).

(** The history messages that are appended: those whose (sender, text) pair is
    not among the session's messages when the loop starts. *)
Definition same_key (a b : Message) : bool :=
  Sender_eqb (sender a) (sender b) && String.eqb (text a) (text b).

Definition add_history (ms history : list Message) : list Message :=
  ms ++ List.filter (fun msg => negb (existsb (same_key msg) ms)) history.

(** One merge loop:
    [for x in extracted: if x not in accumulated: accumulated.append(x)]. *)
Definition merge_field (accumulated extracted : list string) : list string :=
  fold_left append_new extracted accumulated.

(** The six merge loops of step 2. *)
Definition merge_intelligence (acc extracted_intel : ExtractedIntelligence)
  : ExtractedIntelligence :=
  {| upiIds := merge_field (upiIds acc) (upiIds extracted_intel);
     bankAccounts := merge_field (bankAccounts acc) (bankAccounts extracted_intel);
     ifscCodes := merge_field (ifscCodes acc) (ifscCodes extracted_intel);
     phishingLinks := merge_field (phishingLinks acc) (phishingLinks extracted_intel);
     phoneNumbers := merge_field (phoneNumbers acc) (phoneNumbers extracted_intel);
     suspiciousKeywords :=
       merge_field (suspiciousKeywords acc) (suspiciousKeywords extracted_intel) |}.

Definition neutral_reply : string :=
  "Thank you for the information. I'll look into this.".

Definition error_reply : string :=
  "I'm sorry, I'm having trouble understanding. Could you repeat that?".

(** The handler's state when it reaches step 5. *)
Record Prepared : Type := MkPrepared {
  p_agents : gmap string AutonomousAgent;
  p_session : SessionState;
  p_detection : ScamDetectionResult;
  p_scammer_msgs : nat;
  p_reply : string
}.

(** The start of [scam_detection]: the session is loaded or created, the
    current message is appended, then the history that is not yet there. *)
Definition incoming_session (w : World) (request : IncomingRequest) (env : TurnEnv)
  : SessionState :=
  let session_id := req_sessionId request in
  let session :=
    match get_session (db w) session_id with
    | Some s => s
    | None => new_session session_id (now env)
    end in
  let session := with_messages session (messages session ++ [req_message request]) in
  if truthy (req_conversationHistory request)
  then with_messages session
         (add_history (messages session) (req_conversationHistory request))
  else session.

(** Steps 1 to 4 of [scam_detection]: detection, extraction and merge, agent
    hand-off and reply, metrics. *)
Definition steps_1_to_4 `{Platform} (w : World) (request : IncomingRequest)
  (env : TurnEnv) (session : SessionState) : Prepared :=
  let session_id := req_sessionId request in
  let detection_result := detect_scam (messages session) in
  let session := with_detection session detection_result in
  let extracted_intel := extract_intelligence (messages session) in
  let session :=
    with_intelligence session
      (merge_intelligence (extractedIntelligence session) extracted_intel) in
  let '(agents, session, agent_response) :=
    if scamDetected detection_result
       && Qle_bool (SCAM_DETECTION_THRESHOLD settings)
            (confidenceScore detection_result)
    then
      let the_agent :=
        match active_agents w !! session_id with
        | None =>
            create_agent session_id (scamType detection_result)
              (persona_pick env) (now env)
        | Some a => a
        end in
      let '(the_agent, _, agent_response) :=
        generate_response the_agent (messages session)
          (extractedIntelligence session) (reply_pick env) in
      (<[session_id := the_agent]> (active_agents w),
       with_messages session
         (messages session ++ [MkMessage agent agent_response None]),
       agent_response)
    else (active_agents w, session, neutral_reply) in
  let scammer_msgs := count_sender scammer (messages session) in
  let session :=
    with_metrics session
      {| totalMessagesExchanged := List.length (messages session);
         numberOfTurns := scammer_msgs;
         engagementDurationSeconds := elapsed env;
         scamDetectionConfidence := confidenceScore detection_result |} in
  MkPrepared agents session detection_result scammer_msgs agent_response.

(** [scam_detection] up to the metrics of step 4; [None] when the assignment
    [session.metadata = ...] raises: [SessionState] declares no field
    [metadata]. *)
Definition prepare `{Platform} (w : World) (request : IncomingRequest) (env : TurnEnv)
  : option Prepared :=
  let session := incoming_session w request env in
  match req_metadata request, rejects_undeclared_fields with
  | Some _, true => None
  | _, _ => Some (steps_1_to_4 w request env session)
  end.

(** The condition of step 5. *)
Definition should_send_callback `{Platform} (p : Prepared) : bool :=
  scamDetected (p_detection p)
  && (MIN_TURNS_BEFORE_CALLBACK settings <=? p_scammer_msgs p)%nat
  && negb (callbackSent (p_session p))
  && has_intelligence (extractedIntelligence (p_session p)).

(** Step 5 and the final save. *)
Definition deliver `{Platform} (w : World) (session_id : string) (p : Prepared)
  (env : TurnEnv) : TurnResult :=
  let session := p_session p in
  let '(database, session, sent) :=
    if should_send_callback p
    then
      let session :=
        match p_agents p !! session_id with
        | Some the_agent =>
            with_notes session
              (generate_agent_notes the_agent (extractedIntelligence session))
        | None => session
        end in
      let '(database, _) := save_session (db w) session in
      let '(payload, callback_success) :=
        send_guvi_callback session (post_status env) in
      if callback_success
      then
        let session := set_callbackSent session true in
        let '(database, _) := mark_callback_sent database session_id in
        (database, session, [payload])
      else (database, session, [payload])
    else (db w, session, []) in
  let session := with_updatedAt session (now env) in
  let '(database, _) := save_session database session in
  {| world_after := MkWorld database (p_agents p);
     outcome := Responded (MkAgentResponse success (p_reply p));
     posted := sent;
     session_after := Some session |}.

(** [scam_detection]: one turn. *)
Definition scam_detection `{Platform} (w : World) (request : IncomingRequest)
  (env : TurnEnv) : TurnResult :=
  if negb (verify_api_key (x_api_key env))
  then MkTurnResult w Unauthorized [] None
  else
    match prepare w request env with
    | None =>
        MkTurnResult w (Responded (MkAgentResponse error error_reply)) [] None
    | Some p => deliver w (req_sessionId request) p env
    end.

(** A run of turns of the process, from a given state: the results, in order. *)
Fixpoint run_turns `{Platform} (w : World) (turns : list (IncomingRequest * TurnEnv))
  : list TurnResult :=
  match turns with
  | [] => []
  | (request, env) :: later =>
      let r := scam_detection w request env in
      r :: run_turns (world_after r) later
  end.

(** ** The remaining functions of the modules above *)

(** [SessionState.get_scammer_message_count] and
    [SessionState.get_agent_message_count]. *)
Definition get_scammer_message_count (self : SessionState) : nat :=
  List.length (List.filter (fun m => Sender_eqb (sender m) scammer) (messages self)).

Definition get_agent_message_count (self : SessionState) : nat :=
  List.length (List.filter (fun m => Sender_eqb (sender m) agent) (messages self)).

(** [ScamDetector.quick_check]. *)
Definition quick_check `{Platform} (self : ScamDetector) (text : string) : bool * Q :=
  let message := MkMessage scammer text None in
  let result := detect self [message] in
  (scamDetected result, confidenceScore result).

(** [IntelligenceExtractor.extract_from_text]. *)
Definition extract_from_text `{Platform} (self : IntelligenceExtractor) (text : string)
  : ExtractedIntelligence :=
  let message := MkMessage scammer text None in
  extract self [message].

(** [ConversationMemory.add_topic]: the topic is appended and the list cut to
    its last five entries, [self.last_topics[-5:]]. *)
Definition with_last_topics (self : ConversationMemory) (topics : list string)
  : ConversationMemory :=
  MkConversationMemory (scammer_claims self) (extracted_so_far self)
    (extraction_attempts self) topics.

Definition add_topic (self : ConversationMemory) (topic : string)
  : ConversationMemory :=
  let topics := last_topics self ++ [topic] in
  if (5 <? List.length topics)%nat
  then with_last_topics self (skipn (List.length topics - 5) topics)
  else with_last_topics self topics.

(** [ConversationMemory.get_repeated_topics]: [Counter(self.last_topics)] keeps
    its keys in the order of their first occurrence. *)
Definition Counter (xs : list string) : list (string * nat) :=
  List.map
    (fun t => (t, List.length (List.filter (String.eqb t) xs)))
    (unique xs).

Definition get_repeated_topics (self : ConversationMemory) : list string :=
  List.map fst
    (List.filter (fun tc => (1 <? snd tc)%nat) (Counter (last_topics self))).

(** The body returned by [get_session_state]. *)
Record SessionView : Type := MkSessionView {
  v_sessionId : string;
  v_createdAt : Z;
  v_updatedAt : Z;
  v_isActive : bool;
  v_callbackSent : bool;
  v_scamDetected : bool;
  v_scamType : option string;
  v_confidenceScore : Q;
  v_totalMessagesExchanged : nat;
  v_extractedIntelligence : ExtractedIntelligence;
  v_agentNotes : string
}.

(** The answers of the two session endpoints: 401 from [verify_api_key], 404
    for a session that is not in the table, or the body. *)
Inductive Answer (A : Type) : Type :=
| Http401
| Http404
| Http200 (body : A).

Arguments Http401 {A}.
Arguments Http404 {A}.
Arguments Http200 {A} body.

(** [get_session_state]. *)
Definition get_session_state `{Platform} (w : World) (session_id : string)
  (key : string) : Answer SessionView :=
  if negb (verify_api_key key) then Http401
  else
    match get_session (db w) session_id with
    | None => Http404
    | Some session =>
        Http200
          {| v_sessionId := sessionId session;
             v_createdAt := createdAt session;
             v_updatedAt := updatedAt session;
             v_isActive := isActive session;
             v_callbackSent := callbackSent session;
             v_scamDetected :=
               match detectionResult session with
               | Some d => scamDetected d
               | None => false
               end;
             v_scamType :=
               match detectionResult session with
               | Some d => Some (ScamType_value (scamType d))
               | None => None
               end;
             v_confidenceScore :=
               match detectionResult session with
               | Some d => confidenceScore d
               | None => 0%Q
               end;
             v_totalMessagesExchanged :=
               totalMessagesExchanged (engagementMetrics session);
             v_extractedIntelligence := extractedIntelligence session;
             v_agentNotes := agentNotes session |}
    end.

(** The result of [force_callback]: the process state after it, the answer
    (the [status] of the body), and the payloads posted. *)
Record ForceResult : Type := MkForceResult {
  f_world : World;
  f_answer : Answer Status;
  f_posted : list GUVICallbackPayload
}.

(** [force_callback]; [post] is the outcome of the POST, as in [TurnEnv]. *)
Definition force_callback `{Platform} (w : World) (session_id : string)
  (key : string) (post : option nat) : ForceResult :=
  if negb (verify_api_key key) then MkForceResult w Http401 []
  else
    match get_session (db w) session_id with
    | None => MkForceResult w Http404 []
    | Some session =>
        let session :=
          if String.eqb (agentNotes session) EmptyString
          then
            match active_agents w !! session_id with
            | Some the_agent =>
                with_notes session
                  (generate_agent_notes the_agent (extractedIntelligence session))
            | None =>
                with_notes session
                  ("Scam detected: " +:+
                   match detectionResult session with
                   | Some d => ScamType_value (scamType d)
                   | None => "unknown"
                   end)
            end
          else session in
        let '(payload, callback_success) := send_guvi_callback session post in
        if callback_success
        then
          let '(database, _) := mark_callback_sent (db w) session_id in
          MkForceResult (MkWorld database (active_agents w)) (Http200 success) [payload]
        else MkForceResult w (Http200 error) [payload]
    end.

(** ** A concrete platform

    The defaults of [Settings], the engine of module [Re], insertion order for
    the iteration of a set, and the [netloc] of [urllib.parse.urlsplit] on
    ASCII text: leading control characters and spaces are stripped and TAB, CR
    and LF removed; the netloc is the text between the [//] after the scheme
    and the next [/], [?] or [#], with [ValueError] for an unbalanced square
    bracket. The further checks that [urlsplit] makes on a network location
    with a balanced pair of brackets (text after the closing bracket, the
    address inside) are not part of it. *)

(** [url.lstrip(_WHATWG_C0_CONTROL_OR_SPACE)]. *)
Fixpoint lstrip_c0 (s : string) : string :=
  match s with
  | EmptyString => EmptyString
  | String c r => if (nat_of_ascii c <=? 32)%nat then lstrip_c0 r else s
  end.

(** The removal of [_UNSAFE_URL_BYTES_TO_REMOVE]: TAB, CR and LF. *)
Definition unsafe_url_byte (c : ascii) : bool :=
  (nat_of_ascii c =? 9)%nat || (nat_of_ascii c =? 13)%nat || (nat_of_ascii c =? 10)%nat.

Definition remove_unsafe (s : string) : string :=
  Py.filter_string (fun c => negb (unsafe_url_byte c)) s.

Fixpoint until_delim (s : string) : string :=
  match s with
  | EmptyString => EmptyString
  | String c r =>
      if Ascii.eqb c "/"%char || Ascii.eqb c "?"%char || Ascii.eqb c "#"%char
      then EmptyString
      else String c (until_delim r)
  end.

Definition scheme_char (c : ascii) : bool :=
  Py.isalpha c || Py.isdigit c || Ascii.eqb c "+"%char || Ascii.eqb c "-"%char
  || Ascii.eqb c "."%char.

(** The URL after its scheme and colon, when it has a scheme. *)
Fixpoint after_scheme (s : string) : option string :=
  match s with
  | EmptyString => None
  | String c r =>
      if Ascii.eqb c ":"%char then Some r
      else if scheme_char c then after_scheme r
      else None
  end.

Definition py_netloc (url : string) : option string :=
  let url := remove_unsafe (lstrip_c0 url) in
  let rest :=
    match url with
    | String c _ =>
        if Py.isalpha c
        then match after_scheme url with Some r => r | None => url end
        else url
    | EmptyString => url
    end in
  if Py.startswith rest "//"
  then
    let netloc := until_delim (Py.drop_string 2 rest) in
    if xorb (Py.contains "[" netloc) (Py.contains "]" netloc)
    then None
    else Some netloc
  else Some EmptyString.

Definition py_platform : Platform :=
  {| settings := default_settings;
     re_search := Re.search;
     re_finditer := Re.finditer;
     set_order := fun xs => xs;
     urlparse_netloc := py_netloc;
     rejects_undeclared_fields := true |}.

(** A second process with the same libraries and settings. The order in which
    Python iterates a set of strings depends on the hash seed of the process;
    in this one, sets iterate in the opposite order. *)
Definition py_platform_reversed : Platform :=
  {| settings := default_settings;
     re_search := Re.search;
     re_finditer := Re.finditer;
     set_order := @List.rev string;
     urlparse_netloc := py_netloc;
     rejects_undeclared_fields := true |}.

(** * Specification-level definitions *)

(** The categories matched by a transcript: the keys of [category_matches]
    in [detect]. *)
Definition all_text_of (messages : list Message) : string :=
  Py.lower (Py.join " " (List.map text messages)).

Definition matched_categories `{Platform} (messages : list Message)
  : list (string * list string) :=
  snd (scan_categories detector (all_text_of messages)).

(** The additive score in the words of the specification. *)
Definition indicator (b : bool) (q : Q) : Q := if b then q else 0%Q.

Definition rules_bonus (item : string * list string) : Q :=
  (indicator (2 <=? List.length (snd item))%nat (1 # 10)
   + indicator (3 <=? List.length (snd item))%nat (1 # 10))%Q.

Fixpoint sum_bonus (cm : list (string * list string)) : Q :=
  match cm with
  | [] => 0%Q
  | item :: r => (rules_bonus item + sum_bonus r)%Q
  end.

Definition additive_sum (cm : list (string * list string)) : Q :=
  (Qmin (inject_Z (Z.of_nat (List.length cm)) * (15 # 100)) (45 # 100)
   + sum_bonus cm
   + indicator (has_key "urgency" cm) (15 # 100)
   + indicator (has_key "otp_pin_harvesting" cm) (15 # 100)
   + indicator (has_key "phishing" cm) (15 # 100)
   + indicator (has_key "upi_fraud" cm) (1 # 10)
   + indicator (has_key "bank_fraud" cm) (1 # 10)
   + indicator
       (has_key "urgency" cm && (has_key "bank_fraud" cm || has_key "upi_fraud" cm))
       (15 # 100))%Q.

(** A score that is a whole number of hundredths. *)
Definition is_centi (q : Q) : Prop := exists z : Z, (q == z # 100)%Q.

(** A name is allowlisted when it equals an entry of [LEGITIMATE_DOMAINS] or
    is a subdomain of one: some text, a dot and the entry. *)
Definition subdomain_or_equal (domain legit : string) : Prop :=
  domain = legit \/ exists sub : string, domain = sub +:+ "." +:+ legit.

Definition allowlisted (domain : string) : Prop :=
  exists legit : string, In legit LEGITIMATE_DOMAINS /\ subdomain_or_equal domain legit.

(** [s] starts with the four characters [www.]. *)
Definition starts_with_www (s : string) : bool :=
  match s with
  | String c1 (String c2 (String c3 (String c4 _))) =>
      Ascii.eqb c1 "w" && Ascii.eqb c2 "w" && Ascii.eqb c3 "w" && Ascii.eqb c4 "."
  | _ => false
  end.

(** The URL that is handed to the parser: [http://] is put before a leading
    [www.]. *)
Definition parsed_url (url : string) : string :=
  if starts_with_www url then "http://" +:+ url else url.

(** [s] without a leading [www.]. *)
Definition without_www (s : string) : string :=
  match s with
  | String _ (String _ (String _ (String _ rest))) =>
      if starts_with_www s then rest else s
  | _ => s
  end.

(** The text that is compared with the allowlist: the network location
    ([parsed.netloc]: the host together with any [user:password@] before it
    and any [:port] after it), lower-cased, without a leading [www.]. *)
Definition compared_location (netloc : string) : string :=
  without_www (Py.lower netloc).







(** The normalised numbers of a list of phone matches, in the order of the
    matches; a match with fewer than ten digits gives none. *)
Definition normalised_numbers (ms : list Re.Match) : list string :=
  flat_map
    (fun m =>
       match normalized (Py.digits_of (captured m)) with
       | Some x => [x]
       | None => []
       end)
    ms.

(** The phone normalisation in the words of the specification, for a
    configured country code. *)
Definition normalized_for_country_code (country_code digits : string)
  : option string :=
  let n := String.length digits in
  if (n =? 10)%nat then Some ("+" +:+ country_code +:+ digits)
  else if (n =? 12)%nat && Py.startswith digits country_code
  then Some ("+" +:+ digits)
  else if (10 <? n)%nat then Some ("+" +:+ digits)
  else None.

(** The accumulated list that each extraction target looks at; the targets
    are named as in the memory of the agent. *)
Definition extracted_for (target : string) (extracted : ExtractedIntelligence)
  : list string :=
  if String.eqb target "upi" then upiIds extracted
  else if String.eqb target "bank" then bankAccounts extracted
  else if String.eqb target "phone" then phoneNumbers extracted
  else if String.eqb target "link" then phishingLinks extracted
  else [].

(** The extraction target of a strategy. *)
Definition strategy_target (s : Strategy) : option string :=
  match s with
  | extract_upi => Some "upi"
  | extract_bank => Some "bank"
  | extract_phone => Some "phone"
  | extract_link => Some "link"
  | _ => None
  end.

(** The states an agent can be in: as created, or after a call of
    [generate_response]. *)
Inductive reachable : AutonomousAgent -> Prop :=
| reachable_new (session_id : string) (t : ScamType) (pick : nat) (now : Z) :
    reachable (create_agent session_id t pick now)
| reachable_step (a : AutonomousAgent) (ms : list Message)
    (ex : ExtractedIntelligence) (pick : nat) :
    reachable a -> reachable (fst (fst (generate_response a ms ex pick))).

(** One input of a call: the transcript, the accumulated intelligence and the
    random draw. *)
Definition AgentInput : Type := (list Message * ExtractedIntelligence * nat)%type.

(** The replies of successive calls, each with the branch that produced it. *)
Fixpoint agent_run (a : AutonomousAgent) (inputs : list AgentInput)
  : list (ReplyKind * string) :=
  match inputs with
  | [] => []
  | (ms, ex, pick) :: later =>
      (snd (fst (generate_response a ms ex pick)), snd (generate_response a ms ex pick))
      :: agent_run (fst (fst (generate_response a ms ex pick))) later
  end.

(** The kinds of reply that remain once a field is capped: a question for
    another field, or a stalling, cooperative or persona reply. *)
Definition fallback_for (target : string) (k : ReplyKind) : Prop :=
  match k with
  | ExtractionQuestion other => other <> target
  | ClarificationReply => False
  | ConfusionReply | CooperationReply | ConcernReply | RandomReply => True
  end.

(** The four extraction targets and the data type each one asks for. *)
Definition targets : list string := ["upi"; "bank"; "phone"; "link"].

Definition data_type_of (target : string) : string :=
  if String.eqb target "upi" then "upi_id"
  else if String.eqb target "bank" then "bank_account"
  else if String.eqb target "phone" then "phone_number"
  else "phishing_link".

(** Every text that [_generate_extraction_question] can return for a target:
    a question of its pool followed by the clause of a persona. *)
Definition question_texts (target : string) : list string :=
  flat_map
    (fun q => List.map (fun p => q +:+ persona_flavor p) PERSONAS_values)
    (questions_for EXTRACTION_QUESTIONS (data_type_of target)).

(** Every text that the other branches of [generate_response] can return. *)
Definition other_texts : list string :=
  confusion_responses ++ clarification_responses ++ cooperative_responses
  ++ concern_responses ++ flat_map responses PERSONAS_values.

(** The six accumulated lists of a session. *)
Definition intelligence_fields (i : ExtractedIntelligence) : list (list string) :=
  [ bankAccounts i; ifscCodes i; upiIds i; phishingLinks i; phoneNumbers i;
    suspiciousKeywords i ].

(** [after] accumulates on [before]: field by field, no duplicates and nothing
    lost. *)
Definition accumulates (before after : ExtractedIntelligence) : Prop :=
  List.Forall2
    (fun old new => List.NoDup new /\ forall x : string, In x old -> In x new)
    (intelligence_fields before) (intelligence_fields after).

(** The readiness condition of step 5 as a function of the session a turn
    starts from. *)
Definition ready_from `{Platform} (s0 : SessionState) : bool :=
  scamDetected (detect_scam (messages s0))
  && (MIN_TURNS_BEFORE_CALLBACK settings <=? count_sender scammer (messages s0))%nat
  && negb (callbackSent s0)
  && has_intelligence
       (merge_intelligence (extractedIntelligence s0)
          (extract_intelligence (messages s0))).

(** *** What the extractor lets through

    The shape of a value that each extraction loop can append: the
    normalisation of the loop followed by the validator of
    [EXTRACTION_PATTERNS]. *)

Definition all_digits (s : string) : bool := forallb Py.isdigit (Py.chars s).

Definition valid_bank_account (x : string) : Prop :=
  all_digits x = true /\ (9 <= String.length x <= 18)%nat.

Definition valid_ifsc_code (x : string) : Prop :=
  String.length x = 11%nat /\ String.get 4 x = Some "0"%char /\ Py.upper x = x.

Definition valid_upi_id (x : string) : Prop :=
  Py.contains "@" x = true /\
  (3 <= String.length (Py.before "@"%char x))%nat /\
  Py.endswith x "@gmail.com" = false /\
  Py.endswith x "@yahoo.com" = false /\
  Py.endswith x "@hotmail.com" = false /\
  Py.lower x = x.

Definition valid_phone_number (x : string) : Prop :=
  exists d : string,
    x = "+" +:+ d /\ all_digits d = true /\ (11 <= String.length d)%nat.

(** A link that is kept: it starts with a scheme or [www.], and its network
    location, when the URL parses, is not allowlisted. *)
Definition retained_link `{Platform} (x : string) : Prop :=
  (Py.startswith x "http://" = true \/ Py.startswith x "https://" = true
   \/ Py.startswith x "www." = true) /\
  forall netloc : string,
    urlparse_netloc (parsed_url x) = Some netloc ->
    ~ allowlisted (compared_location netloc).

(** The keys of [SCAM_PATTERNS]. *)
Definition category_names : list string := List.map fst SCAM_PATTERNS.

(** *** Runs of the agent *)

Definition is_question (k : ReplyKind) : bool :=
  match k with
  | ExtractionQuestion _ => true
  | _ => false
  end.

(** The reply is an extraction question for the target [f]. *)
Definition asks (f : string) (k : ReplyKind) : bool :=
  match k with
  | ExtractionQuestion g => String.eqb g f
  | _ => false
  end.

Definition count_kind (p : ReplyKind -> bool) (run : list (ReplyKind * string)) : nat :=
  List.length (List.filter (fun r => p (fst r)) run).

(** The agent after successive calls of [generate_response]. *)
Fixpoint agent_after (a : AutonomousAgent) (inputs : list AgentInput)
  : AutonomousAgent :=
  match inputs with
  | [] => a
  | (ms, ex, pick) :: later =>
      agent_after (fst (fst (generate_response a ms ex pick))) later
  end.

(** The two dictionaries of the memory hold the four targets. *)
Definition keys_present (m : ConversationMemory) : Prop :=
  forall f : string, In f targets ->
    is_Some (extraction_attempts m !! f) /\ is_Some (extracted_so_far m !! f).

Definition total_attempts (m : ConversationMemory) : nat :=
  list_sum (List.map (attempts_of m) targets).

(** [xs[-n:]]. *)
Definition last_n {A : Type} (n : nat) (xs : list A) : list A :=
  skipn (List.length xs - n) xs.

(** [xs.count(t)]. *)
Definition occurrences (t : string) (xs : list string) : nat :=
  List.length (List.filter (String.eqb t) xs).

Definition starts_with_digit (s : string) : Prop :=
  exists (c : ascii) (r : string), s = String c r /\ Py.isdigit c = true.

(** *** Turns of the coordinator *)

(** The messages a session holds when a turn starts: those of its row. *)
Definition prior_messages (w : World) (session_id : string) : list Message :=
  match get_session (db w) session_id with
  | Some row => messages row
  | None => []
  end.

(** The history messages of a request that the handler appends: those whose
    (sender, text) pair is neither in the row nor that of the current
    message. *)
Definition fresh_history (w : World) (request : IncomingRequest) : list Message :=
  List.filter
    (fun msg =>
       negb (existsb (same_key msg)
               (prior_messages w (req_sessionId request) ++ [req_message request])))
    (req_conversationHistory request).

(** The agent that answers a turn, before its call of [generate_response]:
    the one registered for the session, or a new one. *)
Definition agent_before `{Platform} (w : World) (request : IncomingRequest)
  (env : TurnEnv) : AutonomousAgent :=
  match active_agents w !! req_sessionId request with
  | None =>
      create_agent (req_sessionId request)
        (scamType (detect_scam (messages (incoming_session w request env))))
        (persona_pick env) (now env)
  | Some a => a
  end.

(** Every registered agent has one of the four personas. *)
Definition personas_known (w : World) : Prop :=
  forall (session_id : string) (a : AutonomousAgent),
    active_agents w !! session_id = Some a -> In (persona a) PERSONAS_values.

(** The caller is refused or receives a non-empty reply. *)
Definition answers_something (r : TurnResult) : Prop :=
  match outcome r with
  | Unauthorized => True
  | Responded response => reply response <> EmptyString
  end.

(** The process state after a run of turns. *)
Fixpoint end_of_run `{Platform} (w : World) (turns : list (IncomingRequest * TurnEnv))
  : World :=
  match turns with
  | [] => w
  | (request, env) :: later =>
      end_of_run (world_after (scam_detection w request env)) later
  end.

(** *** Inputs of the worked scenarios *)

Module Inputs.

Definition api_key : string := "guvi-hackathon-secret-key".

(** A turn whose POST is answered with 200. *)
Definition env_ok : TurnEnv := MkTurnEnv api_key 0 0%Q 0 0 (Some 200%nat).

(** A later turn: other clock, other draws, the POST times out. *)
Definition env_late : TurnEnv := MkTurnEnv api_key 7 (1 # 2)%Q 3 2 None.

(** A request that carries two earlier scammer messages as history and no
    metadata. *)
Definition request_upi : IncomingRequest :=
  MkIncomingRequest "sess-1"
    (MkMessage scammer
       "Urgent: send money to my UPI id refund@phonepe immediately" None)
    [ MkMessage scammer "Hello" None;
      MkMessage scammer "Your account will be blocked today" None ]
    None.

(** The same texts with other timestamps. *)
Definition request_upi_stamped : IncomingRequest :=
  MkIncomingRequest "sess-1"
    (MkMessage scammer
       "Urgent: send money to my UPI id refund@phonepe immediately" (Some 1770005528731%Z))
    [ MkMessage scammer "Hello" (Some 1770005520000%Z);
      MkMessage scammer "Your account will be blocked today" (Some 1770005524000%Z) ]
    None.

(** A follow-up message without identifiers and without history. *)
Definition request_plain : IncomingRequest :=
  MkIncomingRequest "sess-1" (MkMessage scammer "ok thanks" None) [] None.

(** The request as a client sends it by default, with metadata. *)
Definition request_with_metadata : IncomingRequest :=
  MkIncomingRequest "sess-1"
    (MkMessage scammer
       "Urgent: send money to my UPI id refund@phonepe immediately" None)
    []
    (Some (MkMetadata (Some "SMS") (Some "English") (Some "IN"))).

(** A process whose session table already holds a row for the session, with
    one UPI id accumulated. *)
Definition stored_session : SessionState :=
  MkSessionState "sess-1" 0 0
    [MkMessage scammer "pay to old@ybl" None] None
    (MkExtractedIntelligence [] [] ["old@ybl"] [] [] [])
    default_metrics true false EmptyString.

Definition world_with_row : World :=
  MkWorld (<["sess-1" := stored_session]> ∅) ∅.

(** One scammer message that two rules of the catalogue match, and the same
    text with a timestamp. *)
Definition transcript_blocked : list Message :=
  [MkMessage scammer "Your account will be blocked today" None].

Definition transcript_blocked_stamped : list Message :=
  [MkMessage scammer "Your account will be blocked today" (Some 1770005524000%Z)].

(** One scammer message from which twelve candidate indicators are collected,
    two in each of six categories. *)
Definition transcript_twelve_rules : list Message :=
  [MkMessage scammer
     "urgent immediately sbi bank account upi paytm click here tap here lottery cash prize otp pin"
     None].

End Inputs.

(** * Properties *)

(** ** The classifier *)

Section Classifier.
Context `{Platform}.

#[local] Open Scope Q_scope.

Lemma is_centi_const (z : Z) (d : positive) :
  (exists k : Z, (z * 100 = k * Z.pos d)%Z) -> is_centi (z # d).
Proof.
  intros [k Hk]. exists k. unfold Qeq. simpl. lia.
Qed.

Lemma is_centi_plus (a b : Q) : is_centi a -> is_centi b -> is_centi (a + b).
Proof.
  intros [x Hx] [y Hy]. exists (x + y)%Z. rewrite Hx, Hy.
  unfold Qeq. simpl. lia.
Qed.

Lemma is_centi_min (a b : Q) : is_centi a -> is_centi b -> is_centi (Qmin a b).
Proof.
  intros Ha Hb. destruct (Q.min_dec a b) as [E | E].
  - destruct Ha as [x Hx]. exists x. now rewrite E.
  - destruct Hb as [y Hy]. exists y. now rewrite E.
Qed.

Lemma is_centi_indicator (b : bool) (q : Q) : is_centi q -> is_centi (indicator b q).
Proof.
  intros Hq. destruct b; simpl; [exact Hq |]. exists 0%Z. reflexivity.
Qed.

Lemma is_centi_tenth : is_centi (1 # 10).
Proof. exists 10%Z. reflexivity. Qed.

Lemma is_centi_15 : is_centi (15 # 100).
Proof. exists 15%Z. reflexivity. Qed.

Lemma is_centi_sum_bonus (cm : list (string * list string)) : is_centi (sum_bonus cm).
Proof.
  induction cm as [| item r IH]; simpl.
  - exists 0%Z. reflexivity.
  - apply is_centi_plus; [| exact IH].
    unfold rules_bonus.
    apply is_centi_plus; apply is_centi_indicator, is_centi_tenth.
Qed.

Lemma is_centi_additive_sum (cm : list (string * list string)) :
  is_centi (additive_sum cm).
Proof.
  unfold additive_sum.
  repeat apply is_centi_plus;
    try (apply is_centi_indicator; first [apply is_centi_tenth | apply is_centi_15]).
  - apply is_centi_min.
    + exists (Z.of_nat (List.length cm) * 15)%Z.
      unfold Qeq. simpl. lia.
    + exists 45%Z. reflexivity.
  - apply is_centi_sum_bonus.
Qed.

(** [round(x, 2)] leaves a whole number of hundredths as it is. *)
Lemma round2_centi (q : Q) (z : Z) : q == z # 100 -> round2 q = z # 100.
Proof.
  intros Hq. unfold round2. f_equal.
  assert (Hz : q * 100 == inject_Z z).
  { rewrite Hq. unfold Qeq. simpl. lia. }
  unfold round_half_even.
  rewrite (Qfloor_comp _ _ Hz), Qfloor_Z.
  assert (Hlt : q * 100 - inject_Z z < 1 # 2).
  { rewrite Hz. unfold Qlt. simpl. lia. }
  rewrite Qlt_alt in Hlt. now rewrite Hlt.
Qed.

Lemma round2_is_centi (q : Q) : is_centi q -> round2 q == q.
Proof.
  intros [z Hz]. rewrite (round2_centi q z Hz). now rewrite Hz.
Qed.

(** The loop over the matched categories adds the per-category bonuses. *)
Lemma fold_bonus (cm : list (string * list string)) (a : Q) :
  fold_left multi_pattern_bonus cm a == a + sum_bonus cm.
Proof.
  revert a. induction cm as [| item r IH]; intros a; simpl.
  - ring.
  - rewrite IH. unfold multi_pattern_bonus, rules_bonus, indicator.
    destruct (2 <=? List.length (snd item))%nat,
             (3 <=? List.length (snd item))%nat; ring.
Qed.

(** The code's score is the specification's additive sum, capped. *)
Lemma calculate_confidence_formula (cm : list (string * list string)) (t : string) :
  _calculate_confidence cm t == Qmin (additive_sum cm) (99 # 100).
Proof.
  unfold _calculate_confidence, additive_sum.
  apply Q.min_compat; [| reflexivity].
  unfold critical_categories. cbn [fold_left].
  set (base := Qmin _ (45 # 100)).
  unfold indicator.
  destruct (has_key "urgency" cm), (has_key "otp_pin_harvesting" cm),
    (has_key "phishing" cm), (has_key "upi_fraud" cm), (has_key "bank_fraud" cm);
    cbn [andb orb]; rewrite fold_bonus; ring.
Qed.

Lemma sum_bonus_nonneg (cm : list (string * list string)) : 0 <= sum_bonus cm.
Proof.
  induction cm as [| item r IH]; simpl; [apply Qle_refl |].
  unfold rules_bonus, indicator.
  destruct (2 <=? List.length (snd item))%nat,
           (3 <=? List.length (snd item))%nat; lra.
Qed.

Lemma additive_sum_nonneg (cm : list (string * list string)) : 0 <= additive_sum cm.
Proof.
  unfold additive_sum.
  assert (Hb : 0 <= Qmin (inject_Z (Z.of_nat (List.length cm)) * (15 # 100)) (45 # 100)).
  { apply Q.min_glb; [| lra].
    apply Qmult_le_0_compat; [| lra].
    change 0 with (inject_Z 0). rewrite <- Zle_Qle. lia. }
  pose proof (sum_bonus_nonneg cm) as Hs.
  unfold indicator.
  destruct (has_key "urgency" cm), (has_key "otp_pin_harvesting" cm),
    (has_key "phishing" cm), (has_key "upi_fraud" cm), (has_key "bank_fraud" cm);
    cbn [andb orb]; lra.
Qed.

Lemma calculate_confidence_bounds (cm : list (string * list string)) (t : string) :
  0 <= _calculate_confidence cm t <= 99 # 100.
Proof.
  rewrite calculate_confidence_formula. split.
  - apply Q.min_glb; [apply additive_sum_nonneg | lra].
  - apply Q.le_min_r.
Qed.

(** What [detect] returns, by cases on the matched categories. *)
Lemma detect_cases (messages : list Message) :
  match matched_categories messages with
  | [] => detect_scam messages = no_indicators
  | cm =>
      detect_scam messages =
        MkScamDetectionResult
          (Qle_bool (SCAM_DETECTION_THRESHOLD settings)
             (_calculate_confidence cm (all_text_of messages)))
          (round2 (_calculate_confidence cm (all_text_of messages)))
          (_determine_scam_type cm)
          (firstn 10
             (list_of_set (fst (scan_categories detector (all_text_of messages)))))
          (_generate_reasoning cm (_determine_scam_type cm))
  end.
Proof.
  unfold matched_categories, detect_scam, detect.
  fold (all_text_of messages).
  destruct (scan_categories detector (all_text_of messages)) as [ind cm].
  cbn [fst snd]. destruct cm; reflexivity.
Qed.

End Classifier.

Section ClassifierClaims.
Context `{Platform}.

#[local] Open Scope Q_scope.

(** The dictionary [category_matches] holds, in catalogue order, each category
    with at least one matching rule, together with its matching rules. *)
Lemma scan_categories_spec (text : string) (entries : list (string * list Pattern))
  (acc : list string * list (string * list string)) :
  snd (fold_left (scan_category text) entries acc) =
    snd acc ++
    flat_map
      (fun entry =>
         let matches :=
           List.map pattern
             (List.filter (fun p => re_search (pattern p) text) (snd entry)) in
         if truthy matches then [(fst entry, matches)] else [])
      entries.
Proof.
  revert acc. induction entries as [| [category patterns] r IH]; intros [ind cm].
  - simpl. now rewrite app_nil_r.
  - cbn [fold_left flat_map]. rewrite IH. unfold scan_category.
    cbn [fst snd].
    destruct (truthy _); cbn [snd app]; [now rewrite <- app_assoc | reflexivity].
Qed.

(** No category is matched exactly when no rule of the catalogue occurs in
    the text. *)
Lemma matched_categories_nil (messages : list Message) :
  matched_categories messages = [] <->
  forall (category : string) (patterns : list string) (p : string),
    In (category, patterns) SCAM_PATTERNS -> In p patterns ->
    re_search p (all_text_of messages) = false.
Proof.
  unfold matched_categories, scan_categories, detector, compiled_patterns,
    _compile_patterns.
  rewrite scan_categories_spec. cbn [snd app].
  generalize SCAM_PATTERNS as entries.
  induction entries as [| [category patterns] r IH]; cbn [List.map flat_map fst snd].
  - split; [intros _ c ps p [] | reflexivity].
  - split.
    + intros Hnil. apply app_eq_nil in Hnil as [Hhead Htail].
      intros c ps p [Heq | Hin] Hp.
      * injection Heq as <- <-.
        destruct (re_search p (all_text_of messages)) eqn:Hs; [| reflexivity].
        assert (Hf : In (MkPattern p)
                       (List.filter
                          (fun q => re_search (pattern q) (all_text_of messages))
                          (List.map MkPattern patterns))).
        { apply filter_In. split; [now apply in_map | exact Hs]. }
        destruct (List.filter _ (List.map MkPattern patterns)); [destruct Hf |].
        discriminate Hhead.
      * now apply (proj1 IH Htail c ps p).
    + intros Hall.
      assert (Happ : forall (A : Type) (l1 l2 : list A),
                l1 = [] -> l2 = [] -> l1 ++ l2 = []) by (intros A l1 l2 -> ->; reflexivity).
      apply Happ.
      * assert (Hf : List.filter
                       (fun q => re_search (pattern q) (all_text_of messages))
                       (List.map MkPattern patterns) = []).
        { induction patterns as [| q qs IHq]; [reflexivity |]. cbn.
          rewrite (Hall category (q :: qs) q (or_introl eq_refl) (or_introl eq_refl)).
          apply IHq. intros c ps p [Heq | Hin] Hp.
          - injection Heq as <- <-.
            apply (Hall category (q :: qs) p); [now left | now right].
          - apply (Hall c ps p); [now right | exact Hp]. }
        now rewrite Hf.
      * apply IH. intros c ps p Hin Hp. apply (Hall c ps p); [now right | exact Hp].
Qed.

(** C4. The confidence score of every transcript lies between 0 and 0.99.
    With no matched category (no rule of the catalogue occurs in the text) the
    result is the fixed negative result: not detected, 0.1, UNKNOWN, no
    indicators. Otherwise the score is the additive sum of the specification
    (0.15 per category up to 0.45, the per-category bonuses for two and for
    three matched rules, 0.15 per critical category, 0.1 for payment-transfer
    and for bank fraud, 0.15 for urgency with either) capped at 0.99. *)
Theorem confidence_score_bounds (messages : list Message) :
  0 <= confidenceScore (detect_scam messages) <= 99 # 100 /\
  match matched_categories messages with
  | [] =>
      scamDetected (detect_scam messages) = false /\
      confidenceScore (detect_scam messages) = 1 # 10 /\
      scamType (detect_scam messages) = UNKNOWN /\
      indicators (detect_scam messages) = []
  | cm =>
      confidenceScore (detect_scam messages) == Qmin (additive_sum cm) (99 # 100)
  end /\
  (matched_categories messages = [] <->
   forall (category : string) (patterns : list string) (p : string),
     In (category, patterns) SCAM_PATTERNS -> In p patterns ->
     re_search p (all_text_of messages) = false).
Proof.
  split; [| split; [| apply matched_categories_nil]];
    pose proof (detect_cases messages) as Hd;
    destruct (matched_categories messages) as [| item cm]; rewrite Hd.
  - cbn. lra.
  - cbn [confidenceScore].
    destruct (calculate_confidence_bounds (item :: cm) (all_text_of messages))
      as [Hlo Hhi].
    destruct (is_centi_min _ _ (is_centi_additive_sum (item :: cm))
                (is_centi_const 99 100 (ex_intro _ 99%Z eq_refl))) as [z Hz].
    rewrite <- calculate_confidence_formula
      with (t := all_text_of messages) in Hz.
    rewrite (round2_centi _ z Hz), <- Hz. split; assumption.
  - cbn. repeat split; reflexivity.
  - cbn [confidenceScore].
    rewrite round2_is_centi; [apply calculate_confidence_formula |].
    destruct (is_centi_min _ _ (is_centi_additive_sum (item :: cm))
                (is_centi_const 99 100 (ex_intro _ 99%Z eq_refl))) as [z Hz].
    exists z. now rewrite calculate_confidence_formula.
Qed.

(** The first entry of a priority list whose category is matched decides. *)
Lemma first_in_priority_spec (order : list (string * ScamType))
  (cm : list (string * list string)) :
  match first_in_priority order cm with
  | Some t =>
      exists before c after,
        order = before ++ (c, t) :: after /\ has_key c cm = true /\
        List.Forall (fun ct => has_key (fst ct) cm = false) before
  | None => List.Forall (fun ct => has_key (fst ct) cm = false) order
  end.
Proof.
  induction order as [| [c t] r IH]; simpl.
  - constructor.
  - destruct (has_key c cm) eqn:Hc.
    + exists [], c, r. repeat split; [exact Hc | constructor].
    + destruct (first_in_priority r cm) as [t' |].
      * destruct IH as (before & c' & after & -> & Hc' & Hb).
        exists ((c, t) :: before), c', after.
        repeat split; [exact Hc' | constructor; [exact Hc | exact Hb]].
      * constructor; [exact Hc | exact IH].
Qed.

(** C5. The scam type follows the fixed priority payment-transfer (UPI) fraud,
    bank fraud, phishing, fake offer, OTP/PIN harvesting: the first matched
    category in that order decides; with none of the five but urgency or
    suspicious keywords the type is phishing; otherwise it is UNKNOWN. The
    classifier returns that type for the categories matched by the
    transcript. *)
Theorem scam_type_priority (cm : list (string * list string)) :
  let has := fun c => has_key c cm in
  (has "upi_fraud" = true -> _determine_scam_type cm = UPI_FRAUD) /\
  (has "upi_fraud" = false -> has "bank_fraud" = true ->
   _determine_scam_type cm = BANK_FRAUD) /\
  (has "upi_fraud" = false -> has "bank_fraud" = false -> has "phishing" = true ->
   _determine_scam_type cm = PHISHING) /\
  (has "upi_fraud" = false -> has "bank_fraud" = false -> has "phishing" = false ->
   has "fake_offers" = true -> _determine_scam_type cm = FAKE_OFFER) /\
  (has "upi_fraud" = false -> has "bank_fraud" = false -> has "phishing" = false ->
   has "fake_offers" = false -> has "otp_pin_harvesting" = true ->
   _determine_scam_type cm = OTP_HARVESTING) /\
  (has "upi_fraud" = false -> has "bank_fraud" = false -> has "phishing" = false ->
   has "fake_offers" = false -> has "otp_pin_harvesting" = false ->
   has "urgency" = true \/ has "suspicious_keywords" = true ->
   _determine_scam_type cm = PHISHING) /\
  (has "upi_fraud" = false -> has "bank_fraud" = false -> has "phishing" = false ->
   has "fake_offers" = false -> has "otp_pin_harvesting" = false ->
   has "urgency" = false -> has "suspicious_keywords" = false ->
   _determine_scam_type cm = UNKNOWN) /\
  (forall messages : list Message,
     scamType (detect_scam messages) =
       match matched_categories messages with
       | [] => UNKNOWN
       | found => _determine_scam_type found
       end).
Proof.
  cbv zeta. unfold _determine_scam_type, priority. cbn [first_in_priority].
  repeat split.
  - intros ->. reflexivity.
  - intros -> ->. reflexivity.
  - intros -> -> ->. reflexivity.
  - intros -> -> -> ->. reflexivity.
  - intros -> -> -> -> ->. reflexivity.
  - intros -> -> -> -> -> [-> | ->]; [reflexivity |].
    now rewrite orb_true_r.
  - intros -> -> -> -> -> -> ->. reflexivity.
  - intros messages. pose proof (detect_cases messages) as Hd.
    destruct (matched_categories messages); rewrite Hd; reflexivity.
Qed.

End ClassifierClaims.

(** ** The coordinator: what a turn computes *)

Section Coordinator.
Context `{Platform}.

(** The classifier reads the texts of the messages and nothing else. *)
Lemma detect_same_texts (self : ScamDetector) (T1 T2 : list Message) :
  List.map text T1 = List.map text T2 -> detect self T1 = detect self T2.
Proof.
  intros E. unfold detect. now rewrite E.
Qed.

(** The handler's state at step 5, in terms of the session it started from. *)
Lemma prepare_spec (w : World) (request : IncomingRequest) (env : TurnEnv)
  (p : Prepared) :
  prepare w request env = Some p ->
  let s0 := incoming_session w request env in
  p_detection p = detect_scam (messages s0) /\
  detectionResult (p_session p) = Some (p_detection p) /\
  extractedIntelligence (p_session p) =
    merge_intelligence (extractedIntelligence s0)
      (extract_intelligence (messages s0)) /\
  callbackSent (p_session p) = callbackSent s0 /\
  sessionId (p_session p) = sessionId s0 /\
  p_scammer_msgs p = count_sender scammer (messages (p_session p)) /\
  p_scammer_msgs p = count_sender scammer (messages s0).
Proof.
  intros Hp. cbv zeta.
  assert (Hgo : p = steps_1_to_4 w request env (incoming_session w request env)).
  { unfold prepare in Hp.
    destruct (req_metadata request), rejects_undeclared_fields;
      first [discriminate Hp | now injection Hp as <-]. }
  subst p. unfold steps_1_to_4.
  set (s0 := incoming_session w request env).
  destruct (scamDetected (detect_scam (messages s0))
            && Qle_bool (SCAM_DETECTION_THRESHOLD settings)
                 (confidenceScore (detect_scam (messages s0)))).
  - cbn [with_detection with_intelligence messages extractedIntelligence].
    destruct (generate_response _ _ _ _) as [[a k] reply].
    cbn. repeat split; try reflexivity.
    unfold count_sender. rewrite List.filter_app, List.length_app. cbn. lia.
  - cbn. repeat split; reflexivity.
Qed.

(** Inside one process the detection of a turn depends on the ordered texts
    of the transcript and on nothing else: whatever the session table, the
    agents in memory, the random draws, the clock and the outcome of
    callbacks, two turns that classify the same sequence of texts obtain
    identical detection results, and that result is the one stored on the
    session. *)
Lemma turn_detection_reads_texts
  (w1 w2 : World) (r1 r2 : IncomingRequest) (e1 e2 : TurnEnv) (p1 p2 : Prepared) :
  prepare w1 r1 e1 = Some p1 ->
  prepare w2 r2 e2 = Some p2 ->
  List.map text (messages (incoming_session w1 r1 e1)) =
    List.map text (messages (incoming_session w2 r2 e2)) ->
  p_detection p1 = p_detection p2 /\
  detectionResult (p_session p1) = detectionResult (p_session p2) /\
  p_detection p1 = detect detector (messages (incoming_session w1 r1 e1)).
Proof.
  intros H1 H2 E.
  destruct (prepare_spec _ _ _ _ H1) as (D1 & S1 & _).
  destruct (prepare_spec _ _ _ _ H2) as (D2 & S2 & _).
  assert (Heq : p_detection p1 = p_detection p2).
  { rewrite D1, D2. unfold detect_scam. now apply detect_same_texts. }
  repeat split.
  - exact Heq.
  - rewrite S1, S2. now rewrite Heq.
  - exact D1.
Qed.

End Coordinator.

(** ** The extractor *)

Lemma string_app_cons (c : ascii) (a b : string) :
  String c a +:+ b = String c (a +:+ b).
Proof. reflexivity. Qed.

Lemma string_length_app (a b : string) :
  String.length (a +:+ b) = (String.length a + String.length b)%nat.
Proof.
  induction a as [| c a IH]; simpl; [reflexivity | now rewrite IH].
Qed.

Lemma substring_all (s : string) : String.substring 0 (String.length s) s = s.
Proof.
  induction s as [| c s IH]; simpl; [reflexivity | now rewrite IH].
Qed.

Lemma substring_app_suffix (pre suf : string) :
  String.substring (String.length pre) (String.length suf) (pre +:+ suf) = suf.
Proof.
  induction pre as [| c pre IH]; simpl; [apply substring_all | exact IH].
Qed.

Lemma substring_split (s : string) (a : nat) :
  (a <= String.length s)%nat ->
  s = String.substring 0 a s +:+ String.substring a (String.length s - a) s.
Proof.
  revert a. induction s as [| c s IH]; intros a Ha.
  - destruct a; reflexivity.
  - destruct a as [| a]; simpl.
    + now rewrite substring_all.
    + simpl in Ha. rewrite string_app_cons. f_equal. apply IH. lia.
Qed.

(** [s.endswith(suf)] holds exactly when [s] is some text followed by [suf]. *)
Lemma endswith_spec (s suf : string) :
  Py.endswith s suf = true <-> exists pre : string, s = pre +:+ suf.
Proof.
  unfold Py.endswith. split.
  - intros Hb. apply andb_prop in Hb as [Hle Heq].
    apply Nat.leb_le in Hle. apply String.eqb_eq in Heq.
    exists (String.substring 0 (String.length s - String.length suf) s).
    pose proof (substring_split s (String.length s - String.length suf)) as Hs.
    replace (String.length s - (String.length s - String.length suf))%nat
      with (String.length suf) in Hs by lia.
    rewrite Heq in Hs. apply Hs. lia.
  - intros [pre ->]. rewrite string_length_app.
    apply andb_true_intro. split; [apply Nat.leb_le; lia |].
    replace (String.length pre + String.length suf - String.length suf)%nat
      with (String.length pre) by lia.
    rewrite substring_app_suffix. apply String.eqb_refl.
Qed.

Lemma is_legitimate_spec (domain : string) :
  is_legitimate domain = true <-> allowlisted domain.
Proof.
  unfold is_legitimate, allowlisted, subdomain_or_equal.
  rewrite existsb_exists. split.
  - intros (legit & Hin & Hb). exists legit. split; [exact Hin |].
    apply orb_prop in Hb as [Hb | Hb].
    + left. now apply String.eqb_eq.
    + right. now apply endswith_spec.
  - intros (legit & Hin & [-> | Hsub]); exists legit; split; try exact Hin.
    + now rewrite String.eqb_refl.
    + apply orb_true_intro. right. now apply endswith_spec.
Qed.

Lemma ascii_dec_eqb (a b : ascii) (X : Type) (x y : X) :
  (if ascii_dec a b then x else y) = (if Ascii.eqb b a then x else y).
Proof.
  destruct (ascii_dec a b) as [<-|n].
  - rewrite Ascii.eqb_refl. reflexivity.
  - destruct (Ascii.eqb_spec b a) as [->|_]; [contradiction n; reflexivity|reflexivity].
Qed.

(** [s.startswith("www.")] looks at the first four characters. *)
Lemma starts_with_www_prefix (s : string) :
  Py.startswith s "www." = starts_with_www s.
Proof.
  unfold Py.startswith.
  destruct s as [|c1 [|c2 [|c3 [|c4 r]]]]; cbn [String.prefix starts_with_www];
    rewrite ?ascii_dec_eqb;
    repeat match goal with
           | |- context [Ascii.eqb ?c ?d] => destruct (Ascii.eqb c d)
           end;
    try reflexivity.
  destruct r; reflexivity.
Qed.

(** The domain that the code compares is the compared location. *)
Lemma domain_of_compared (netloc : string) :
  domain_of netloc = compared_location netloc.
Proof.
  unfold domain_of, compared_location. cbv zeta. rewrite starts_with_www_prefix.
  destruct (Py.lower netloc) as [|c1 [|c2 [|c3 [|c4 r]]]]; reflexivity.
Qed.

Lemma with_scheme_parsed (url : string) : with_scheme url = parsed_url url.
Proof.
  unfold with_scheme, parsed_url. rewrite starts_with_www_prefix. reflexivity.
Qed.






Section Extractor.
Context `{Platform}.

(** Past the allowlist every step answers "suspicious". *)
Lemma suspicious_by_location (url netloc : string) :
  urlparse_netloc (parsed_url url) = Some netloc ->
  _is_suspicious_url url = negb (is_legitimate (compared_location netloc)).
Proof.
  intros Hparse. unfold _is_suspicious_url. cbv zeta.
  rewrite with_scheme_parsed, Hparse, domain_of_compared.
  destruct (is_legitimate (compared_location netloc)); cbn [negb]; [reflexivity|].
  repeat match goal with
         | |- context [if ?b then true else _] => destruct b
         end; reflexivity.
Qed.



End Extractor.

Lemma In_firstn_In {A : Type} (n : nat) (l : list A) (x : A) :
  In x (firstn n l) -> In x l.
Proof.
  revert l. induction n as [| n IH]; intros [| y l]; simpl; try tauto.
  intros [-> | Hin]; [now left | right; now apply IH].
Qed.

Lemma mem_In (x : string) (xs : list string) : Py.mem x xs = true <-> In x xs.
Proof.
  unfold Py.mem. rewrite existsb_exists. split.
  - intros (y & Hin & Heq). apply String.eqb_eq in Heq. now subst.
  - intros Hin. exists x. split; [exact Hin | apply String.eqb_refl].
Qed.

Lemma In_append_new (xs : list string) (x y : string) :
  In y (append_new xs x) <-> In y xs \/ y = x.
Proof.
  unfold append_new. destruct (Py.mem x xs) eqn:Hm.
  - apply mem_In in Hm. split; [tauto | intros [Hin | ->]; assumption].
  - rewrite in_app_iff. simpl. split; intros [Hin | Hin]; auto.
    destruct Hin as [<- | []]. now right.
Qed.

Section PhoneNumbers.
Context `{Platform}.

(** Every number kept by the loop of [_extract_phone_numbers] is the
    normalisation of one of the matches. *)
Lemma phone_numbers_origin (ms : list Re.Match) (acc : list string) (x : string) :
  In x (fold_left add_phone_number ms acc) ->
  In x acc \/
  exists m : Re.Match,
    In m ms /\ normalized (Py.digits_of (captured m)) = Some x.
Proof.
  revert acc. induction ms as [| m ms IH]; intros acc Hin; simpl in Hin.
  - now left.
  - apply IH in Hin as [Hin | (m' & Hm' & Hn)].
    + unfold add_phone_number in Hin.
      destruct (normalized (Py.digits_of (captured m))) as [v |] eqn:Hv.
      * apply In_append_new in Hin as [Hin | ->]; [now left |].
        right. exists m. split; [now left | exact Hv].
      * now left.
    + right. exists m'. split; [now right | exact Hn].
Qed.

Lemma normalized_some_length (digits x : string) :
  normalized digits = Some x -> (10 <= String.length digits)%nat.
Proof.
  unfold normalized.
  destruct (String.length digits =? 10)%nat eqn:E10.
  - apply Nat.eqb_eq in E10. lia.
  - destruct ((String.length digits =? 12)%nat && Py.startswith digits "91") eqn:E12.
    + apply andb_prop in E12 as [E12 _]. apply Nat.eqb_eq in E12. lia.
    + destruct (10 <? String.length digits)%nat eqn:Egt; [| discriminate].
      apply Nat.ltb_lt in Egt. lia.
Qed.

(** The loop [if x not in xs: xs.append(x)] keeps the first occurrences. *)
Lemma append_new_unique (xs acc seen : list string) :
  (forall y : string, Py.mem y seen = Py.mem y acc) ->
  fold_left append_new xs acc = acc ++ unique_go seen xs.
Proof.
  revert acc seen. induction xs as [|x xs IH]; intros acc seen Hmem;
    cbn [fold_left unique_go]; [symmetry; apply app_nil_r|].
  unfold append_new at 2. rewrite <- (Hmem x).
  destruct (Py.mem x seen) eqn:Hx; [apply IH; exact Hmem|].
  rewrite (IH (acc ++ [x]) (x :: seen)).
  - rewrite <- app_assoc. reflexivity.
  - intros y. unfold Py.mem. rewrite existsb_app. cbn [existsb].
    fold (Py.mem y seen). fold (Py.mem y acc). rewrite (Hmem y).
    rewrite orb_false_r. apply orb_comm.
Qed.

Lemma phone_loop_unique (ms : list Re.Match) (acc : list string) :
  fold_left add_phone_number ms acc = fold_left append_new (normalised_numbers ms) acc.
Proof.
  revert acc. induction ms as [|m ms IH]; intros acc; [reflexivity|].
  cbn [fold_left normalised_numbers flat_map]. rewrite fold_left_app, IH.
  unfold add_phone_number.
  destruct (normalized (Py.digits_of (captured m))); reflexivity.
Qed.

Lemma In_unique (xs : list string) (x : string) : In x xs -> In x (unique xs).
Proof.
  unfold unique. assert (Hseen : Py.mem x [] = false) by reflexivity.
  revert Hseen. generalize (@nil string) as seen.
  induction xs as [|y r IH]; intros seen Hseen; [intros []|].
  cbn [unique_go]. intros [->|Hin].
  - rewrite Hseen. left. reflexivity.
  - destruct (Py.mem y seen); [apply IH; assumption|].
    destruct (String.eqb_spec x y) as [Heq|Hne]; [left; symmetry; exact Heq|].
    right. apply IH; [|exact Hin].
    unfold Py.mem. cbn [existsb]. fold (Py.mem x seen). rewrite Hseen.
    apply orb_false_intro; [|reflexivity].
    apply String.eqb_neq. exact Hne.
Qed.

(** The phone numbers that are returned: the first five distinct normalised
    numbers, in the order of the matches. *)
Lemma phone_numbers_exact (self : IntelligenceExtractor) (text : string) :
  _extract_phone_numbers self text =
    firstn 5
      (unique
         (normalised_numbers
            (all_matches (patterns_for (extractor_patterns self) "phone_number") text))).
Proof.
  unfold _extract_phone_numbers. cbv zeta. rewrite phone_loop_unique.
  rewrite (append_new_unique _ [] [] (fun y => eq_refl)). reflexivity.
Qed.

Lemma In_normalised_numbers (ms : list Re.Match) (m : Re.Match) (x : string) :
  In m ms -> normalized (Py.digits_of (captured m)) = Some x ->
  In x (normalised_numbers ms).
Proof.
  intros Hin Hn. unfold normalised_numbers. apply in_flat_map.
  exists m. split; [exact Hin|]. rewrite Hn. now left.
Qed.

(** C7 (as the code has it). Phone numbers are taken from the scammer's text
    only. The digits of a phone match are normalised with
    the fixed country code 91: exactly ten digits get the prefix [+91]; twelve
    digits that start with [91] get a leading [+] only; any other string of
    more than ten digits gets a leading [+]; fewer than ten digits are dropped:
    the list is left as it is, and every number in the output of
    [_extract_phone_numbers] is the normalisation of a match with at least ten
    digits. The output is the list of the first five distinct normalised
    numbers, in the order of the matches: the normalised number of every match
    with at least ten digits is among the distinct numbers, and is in the
    output when there are at most five of them. *)
Theorem phone_normalisation (self : IntelligenceExtractor) (scammer_text : string) :
  (forall digits : string,
     String.length digits = 10%nat ->
     normalized digits = Some ("+91" +:+ digits)) /\
  (forall digits : string,
     String.length digits = 12%nat -> Py.startswith digits "91" = true ->
     normalized digits = Some ("+" +:+ digits)) /\
  (forall digits : string,
     (10 < String.length digits)%nat ->
     normalized digits = Some ("+" +:+ digits)) /\
  (forall (numbers : list string) (m : Re.Match),
     (String.length (Py.digits_of (captured m)) < 10)%nat ->
     normalized (Py.digits_of (captured m)) = None /\
     add_phone_number numbers m = numbers) /\
  (forall x : string,
     In x (_extract_phone_numbers self scammer_text) ->
     exists m : Re.Match,
       In m (all_matches
               (patterns_for (extractor_patterns self) "phone_number")
               scammer_text) /\
       normalized (Py.digits_of (captured m)) = Some x /\
       (10 <= String.length (Py.digits_of (captured m)))%nat) /\
  (forall messages : list Message,
     phoneNumbers (extract self messages) =
       _extract_phone_numbers self
         (Py.join " "
            (List.map text
               (List.filter (fun m => Sender_eqb (sender m) scammer) messages)))) /\
  _extract_phone_numbers self scammer_text =
    firstn 5
      (unique
         (normalised_numbers
            (all_matches (patterns_for (extractor_patterns self) "phone_number")
               scammer_text))) /\
  (forall m : Re.Match,
     In m (all_matches
             (patterns_for (extractor_patterns self) "phone_number")
             scammer_text) ->
     (10 <= String.length (Py.digits_of (captured m)))%nat ->
     exists x : string,
       normalized (Py.digits_of (captured m)) = Some x /\
       In x (unique
               (normalised_numbers
                  (all_matches (patterns_for (extractor_patterns self) "phone_number")
                     scammer_text))) /\
       ((List.length
           (unique
              (normalised_numbers
                 (all_matches (patterns_for (extractor_patterns self) "phone_number")
                    scammer_text))) <= 5)%nat ->
        In x (_extract_phone_numbers self scammer_text))).
Proof.
  repeat match goal with |- _ /\ _ => split end.
  - intros digits Hl. unfold normalized. now rewrite Hl.
  - intros digits Hl Hp. unfold normalized. rewrite Hl, Hp. reflexivity.
  - intros digits Hl. unfold normalized.
    destruct (String.length digits =? 10)%nat eqn:E10.
    + apply Nat.eqb_eq in E10. lia.
    + apply Nat.ltb_lt in Hl. rewrite Hl.
      destruct (_ && _); reflexivity.
  - intros numbers m Hlt.
    assert (Hn : normalized (Py.digits_of (captured m)) = None).
    { unfold normalized.
      destruct (String.length _ =? 10)%nat eqn:E10;
        [apply Nat.eqb_eq in E10; lia |].
      destruct (String.length _ =? 12)%nat eqn:E12;
        [apply Nat.eqb_eq in E12; lia |].
      destruct (10 <? String.length _)%nat eqn:Egt;
        [apply Nat.ltb_lt in Egt; lia | reflexivity]. }
    split; [exact Hn|]. unfold add_phone_number. now rewrite Hn.
  - intros x Hin. unfold _extract_phone_numbers in Hin.
    apply In_firstn_In in Hin.
    apply phone_numbers_origin in Hin as [[] | (m & Hm & Hn)].
    exists m. repeat split; [exact Hm | exact Hn |].
    now apply normalized_some_length in Hn.
  - reflexivity.
  - apply phone_numbers_exact.
  - intros m Hm Hlen.
    assert (Hsome : exists x : string, normalized (Py.digits_of (captured m)) = Some x).
    { unfold normalized.
      destruct (String.length _ =? 10)%nat eqn:E10; [eauto|].
      destruct (_ && _); [eauto|].
      destruct (10 <? String.length _)%nat eqn:Egt; [eauto|].
      apply Nat.eqb_neq in E10. apply Nat.ltb_ge in Egt. lia. }
    destruct Hsome as [x Hn]. exists x. split; [exact Hn|].
    assert (Hu : In x (unique
             (normalised_numbers
                (all_matches (patterns_for (extractor_patterns self) "phone_number")
                   scammer_text)))).
    { apply In_unique. exact (In_normalised_numbers _ m x Hm Hn). }
    split; [exact Hu|]. intros Hcap.
    rewrite phone_numbers_exact, firstn_all2; [exact Hu | exact Hcap].
Qed.

End PhoneNumbers.

(** ** The strategy engine *)

Section StrategyEngine.

Lemma attempts_of_record (m : ConversationMemory) (key f : string) :
  attempts_of (record_extraction_attempt m key) f =
    if decide (key = f)
    then match extraction_attempts m !! key with
         | Some n => S n
         | None => attempts_of m f
         end
    else attempts_of m f.
Proof.
  unfold record_extraction_attempt, attempts_of.
  destruct (extraction_attempts m !! key) as [n |] eqn:Hk; cbn.
  - destruct (decide (key = f)) as [-> | Hne].
    + now rewrite lookup_insert_eq.
    + now rewrite lookup_insert_ne.
  - destruct (decide (key = f)); reflexivity.
Qed.

Lemma attempts_of_record_bounds (m : ConversationMemory) (key f : string) :
  (attempts_of m f <= attempts_of (record_extraction_attempt m key) f)%nat /\
  (attempts_of (record_extraction_attempt m key) f <= S (attempts_of m f))%nat /\
  (key <> f -> attempts_of (record_extraction_attempt m key) f = attempts_of m f).
Proof.
  rewrite attempts_of_record. destruct (decide (key = f)) as [-> | Hne].
  - unfold attempts_of. destruct (extraction_attempts m !! f); cbn;
      repeat split; try lia; intros Hc; now elim Hc.
  - repeat split; lia.
Qed.

Lemma mark_extracted_attempts (m : ConversationMemory) (key : string) :
  extraction_attempts (mark_extracted m key) = extraction_attempts m.
Proof.
  unfold mark_extracted. destruct (extracted_so_far m !! key); reflexivity.
Qed.

Lemma update_extracted_attempts (m : ConversationMemory) (ex : ExtractedIntelligence)
  (f : string) :
  attempts_of (update_extracted m ex) f = attempts_of m f.
Proof.
  unfold update_extracted, attempts_of.
  repeat match goal with
         | |- context [if ?b then _ else _] => destruct b
         end;
    now rewrite ?mark_extracted_attempts.
Qed.

(** The guard of each extraction rule of [_determine_strategy]. *)
Lemma determine_strategy_guard (self : AutonomousAgent) (msg : string)
  (extracted : ExtractedIntelligence) (f : string) :
  strategy_target (_determine_strategy self msg extracted) = Some f ->
  (attempts_of (memory self) f < 2)%nat /\ extracted_for f extracted = [].
Proof.
  unfold _determine_strategy.
  repeat match goal with
         | |- context [if ?b then _ else _] => destruct b eqn:?
         end;
    cbn [strategy_target]; intros Hf; try discriminate Hf;
    injection Hf as <-;
    repeat match goal with
           | Hb : (_ && _) = true |- _ => apply andb_prop in Hb as [? ?]
           end;
    match goal with
    | Hlt : (_ <? 2)%nat = true, He : negb (truthy ?l) = true |- _ =>
        apply Nat.ltb_lt in Hlt; split; [exact Hlt |];
        cbn; destruct l; [reflexivity | discriminate He]
    end.
Qed.

Lemma determine_strategy_clarification (self : AutonomousAgent) (msg : string)
  (extracted : ExtractedIntelligence) :
  _determine_strategy self msg extracted = ask_clarification ->
  (turn_count self <= 2)%nat.
Proof.
  unfold _determine_strategy.
  repeat match goal with
         | |- context [if ?b then _ else _] => destruct b eqn:?
         end;
    intros Hs; try discriminate Hs.
  now apply Nat.leb_le.
Qed.

(** One call of [generate_response]: the turn counter advances; an extraction
    question for a field is asked only under the field's guard and is the only
    way its attempt counter moves; a clarifying question is asked in the
    first two turns only. *)
Lemma generate_response_step (a : AutonomousAgent) (ms : list Message)
  (ex : ExtractedIntelligence) (pick : nat) :
  let a' := fst (fst (generate_response a ms ex pick)) in
  let k := snd (fst (generate_response a ms ex pick)) in
  turn_count a' = S (turn_count a) /\
  (forall f : string,
     (attempts_of (memory a) f <= attempts_of (memory a') f)%nat /\
     (attempts_of (memory a') f <= S (attempts_of (memory a) f))%nat) /\
  (forall f : string,
     k = ExtractionQuestion f ->
     (attempts_of (memory a) f < 2)%nat /\ extracted_for f ex = []) /\
  (k = ClarificationReply -> (S (turn_count a) <= 2)%nat).
Proof.
  cbv zeta. unfold generate_response.
  destruct (last_scammer_msg ms) as [[| c msg] |].
  1, 3: cbn; rewrite Nat.add_1_r;
    repeat split; try lia; intros; discriminate.
  set (a1 := with_memory (with_turn_count a (turn_count a + 1))
               (update_extracted (memory (with_turn_count a (turn_count a + 1))) ex)).
  assert (Hatt : forall f, attempts_of (memory a1) f = attempts_of (memory a) f).
  { intros f. unfold a1. cbn. apply update_extracted_attempts. }
  assert (Htc : turn_count a1 = S (turn_count a)).
  { unfold a1. cbn. apply Nat.add_1_r. }
  pose proof (determine_strategy_guard a1 (String c msg) ex) as Hguard.
  pose proof (determine_strategy_clarification a1 (String c msg) ex) as Hclar.
  destruct (_determine_strategy a1 (String c msg) ex) eqn:Hs;
    cbn [strategy_target] in Hguard;
    try (destruct (negb (extracted_flag (memory a1) _)));
    cbn [fst snd with_memory memory turn_count];
    (split; [exact Htc |]);
    (split;
     [ intros f;
       first
         [ rewrite <- (Hatt f);
           pose proof (attempts_of_record_bounds (memory a1)) as Hb;
           match goal with
           | |- context [record_extraction_attempt _ ?key] =>
               destruct (Hb key f) as (? & ? & _); split; assumption
           end
         | rewrite (Hatt f); split; lia ]
     | split;
       [ intros f Hk; try discriminate Hk;
         injection Hk as <-; rewrite <- Hatt; now apply Hguard
       | intros Hk; try discriminate Hk; rewrite <- Htc; now apply Hclar ] ]).
Qed.

(** In every reachable state no attempt counter exceeds the turn counter. *)
Lemma reachable_attempts_le_turns (a : AutonomousAgent) :
  reachable a -> forall f : string, (attempts_of (memory a) f <= turn_count a)%nat.
Proof.
  induction 1 as [sid t pick now | a ms ex pick Hr IH]; intros f.
  - unfold attempts_of. cbn.
    destruct (_ !! f) eqn:Hl; cbn; [| lia].
    repeat (rewrite lookup_insert in Hl; case_decide;
            [injection Hl as <-; lia |]).
    now rewrite lookup_empty in Hl.
  - destruct (generate_response_step a ms ex pick) as (Htc & Hatt & _).
    destruct (Hatt f) as [_ Hle]. specialize (IH f). lia.
Qed.

Lemma choice_In {A : Type} (d : A) (xs : list A) (pick : nat) :
  xs <> [] -> In (choice d xs pick) xs.
Proof.
  intros Hne. unfold choice. apply nth_In.
  apply Nat.mod_upper_bound. destruct xs; [now elim Hne | discriminate].
Qed.

(** The persona of an agent is one of the four of the catalogue, for good. *)
Lemma generate_response_persona (a : AutonomousAgent) (ms : list Message)
  (ex : ExtractedIntelligence) (pick : nat) :
  persona (fst (fst (generate_response a ms ex pick))) = persona a.
Proof.
  unfold generate_response.
  destruct (last_scammer_msg ms) as [[| c msg] |]; try reflexivity.
  destruct (_determine_strategy _ _ _);
    try (destruct (negb (extracted_flag _ _))); reflexivity.
Qed.

Lemma reachable_persona (a : AutonomousAgent) :
  reachable a -> In (persona a) PERSONAS_values.
Proof.
  induction 1 as [sid t pick now | a ms ex pick Hr IH].
  - change (persona (create_agent sid t pick now)) with (_select_persona t pick).
    unfold _select_persona.
    destruct t; try (apply choice_In; discriminate);
      unfold PERSONAS_values; cbn [In]; auto 6.
  - now rewrite generate_response_persona.
Qed.

(** Where the text of a reply comes from, by the branch taken. *)
Lemma generate_response_text (a : AutonomousAgent) (ms : list Message)
  (ex : ExtractedIntelligence) (pick : nat) :
  In (persona a) PERSONAS_values ->
  match snd (fst (generate_response a ms ex pick)) with
  | ExtractionQuestion g =>
      In g targets /\ In (snd (generate_response a ms ex pick)) (question_texts g)
  | _ => In (snd (generate_response a ms ex pick)) other_texts
  end.
Proof.
  intros Hp.
  assert (Hrandom : forall a0 : AutonomousAgent,
            persona a0 = persona a -> In (_get_random_response a0 pick) other_texts).
  { intros a0 Ha0. unfold other_texts, _get_random_response.
    rewrite !in_app_iff. do 4 right. apply in_flat_map.
    exists (persona a). split; [exact Hp |]. rewrite Ha0.
    apply choice_In. cbn in Hp.
    destruct Hp as [<- | [<- | [<- | [<- | []]]]]; discriminate. }
  assert (Hask : forall (a0 : AutonomousAgent) (g : string),
            persona a0 = persona a -> In g targets ->
            In (_generate_extraction_question a0 (data_type_of g) pick)
              (question_texts g)).
  { intros a0 g Ha0 Hg. unfold _generate_extraction_question, question_texts.
    apply in_flat_map.
    exists (choice "" (questions_for EXTRACTION_QUESTIONS (data_type_of g)) pick).
    split.
    - apply choice_In. cbn in Hg.
      destruct Hg as [<- | [<- | [<- | [<- | []]]]]; discriminate.
    - apply in_map_iff. exists (persona a). split; [now rewrite Ha0 | exact Hp]. }
  assert (Hpool : forall pool : list string,
            pool <> [] ->
            (forall t, In t pool -> In t other_texts) ->
            In (choice "" pool pick) other_texts).
  { intros pool Hne Hsub. apply Hsub. now apply choice_In. }
  unfold generate_response.
  destruct (last_scammer_msg ms) as [[| c msg] |];
    cbn [fst snd]; try (now apply Hrandom).
  destruct (_determine_strategy _ _ _);
    try (destruct (negb (extracted_flag _ _)));
    cbn [fst snd]; try (now apply Hrandom);
    try match goal with
        | |- In ?g targets /\ _ =>
            split; [| apply (Hask _ g eq_refl)]; unfold targets; cbn [In]; now auto 6
        end;
    unfold _generate_confusion_response, _generate_clarification_question,
      _generate_cooperative_response, _generate_concern_response;
    (apply Hpool; [discriminate |]);
    intros t Ht; unfold other_texts; rewrite !in_app_iff; tauto.
Qed.

(** No text of another branch, and no question for another target, is a
    question for the target. *)
Lemma question_texts_apart (f : string) (reply : string) :
  In f targets ->
  In reply other_texts \/
  (exists g : string, In g targets /\ g <> f /\ In reply (question_texts g)) ->
  Py.mem reply (question_texts f) = false.
Proof.
  intros Hf Hfrom.
  assert (Hother :
    forallb
      (fun f0 => forallb (fun t => negb (Py.mem t (question_texts f0))) other_texts)
      targets = true) by (vm_compute; reflexivity).
  assert (Hquestions :
    forallb
      (fun f0 =>
         forallb
           (fun g =>
              String.eqb g f0
              || forallb (fun t => negb (Py.mem t (question_texts f0)))
                   (question_texts g))
           targets)
      targets = true) by (vm_compute; reflexivity).
  rewrite forallb_forall in Hother, Hquestions.
  specialize (Hother f Hf). specialize (Hquestions f Hf).
  rewrite forallb_forall in Hother, Hquestions.
  destruct Hfrom as [Hin | (g & Hg & Hne & Hin)].
  - apply negb_true_iff. now apply Hother.
  - specialize (Hquestions g Hg). apply orb_prop in Hquestions as [Heq | Hall].
    + apply String.eqb_eq in Heq. now elim Hne.
    + rewrite forallb_forall in Hall. apply negb_true_iff. now apply Hall.
Qed.

End StrategyEngine.

Section StrategyClaims.

(** C8 (as the code has it). An extraction strategy, and an extraction
    question, for a field are chosen only while the field's attempt counter is
    below 2 and nothing has been extracted for the field. Once the counter of a
    field has reached 2, no later call ever asks for that field again: every
    later reply is a question for another field (under that field's own
    guard), a concerned, confused or cooperative reply, or the persona's
    fallback line; it is never a clarifying question either, and its text is
    none of the question texts of the capped field. *)
Theorem extraction_attempts_capped (a : AutonomousAgent) (f : string) :
  (forall (msg : string) (ex : ExtractedIntelligence),
     strategy_target (_determine_strategy a msg ex) = Some f ->
     (attempts_of (memory a) f < 2)%nat /\ extracted_for f ex = []) /\
  (forall (ms : list Message) (ex : ExtractedIntelligence) (pick : nat),
     snd (fst (generate_response a ms ex pick)) = ExtractionQuestion f ->
     (attempts_of (memory a) f < 2)%nat /\ extracted_for f ex = []) /\
  (reachable a ->
   (2 <= attempts_of (memory a) f)%nat ->
   forall inputs : list AgentInput,
     List.Forall
       (fun r =>
          fallback_for f (fst r) /\
          (In f targets -> Py.mem (snd r) (question_texts f) = false))
       (agent_run a inputs)).
Proof.
  repeat split.
  - now apply (determine_strategy_guard a msg ex f).
  - now apply (determine_strategy_guard a msg ex f).
  - destruct (generate_response_step a ms ex pick) as (_ & _ & Hq & _).
    now apply Hq.
  - destruct (generate_response_step a ms ex pick) as (_ & _ & Hq & _).
    now apply Hq.
  - intros Hr Hcap inputs. revert a Hr Hcap.
    induction inputs as [| [[ms ex] pick] later IH]; intros a Hr Hcap; cbn.
    + constructor.
    + destruct (generate_response_step a ms ex pick) as (Htc & Hatt & Hq & Hc).
      assert (Hfb : fallback_for f (snd (fst (generate_response a ms ex pick)))).
      { destruct (snd (fst (generate_response a ms ex pick))) eqn:Hk;
          cbn; try exact I.
        - intros ->. destruct (Hq f eq_refl) as [Hlt _]. lia.
        - specialize (Hc eq_refl).
          pose proof (reachable_attempts_le_turns a Hr f). lia. }
      constructor.
      * cbn [fst snd]. split; [exact Hfb |]. intros Hf.
        pose proof (generate_response_text a ms ex pick (reachable_persona a Hr))
          as Htext.
        apply question_texts_apart; [exact Hf |].
        destruct (snd (fst (generate_response a ms ex pick))) as [g | | | | |];
          try (now left).
        right. exists g. cbn in Hfb. destruct Htext as [Hg Hin]. auto.
      * apply IH.
        -- now constructor.
        -- destruct (Hatt f) as [Hle _]. lia.
Qed.

End StrategyClaims.

(** ** The coordinator: readiness, latch and accumulation *)

Lemma has_intelligence_spec (i : ExtractedIntelligence) :
  has_intelligence i = true <->
  bankAccounts i <> [] \/ ifscCodes i <> [] \/ upiIds i <> [] \/
  phishingLinks i <> [] \/ phoneNumbers i <> [].
Proof.
  unfold has_intelligence, any. cbn.
  destruct (bankAccounts i), (ifscCodes i), (upiIds i), (phishingLinks i),
    (phoneNumbers i); cbn; split; intros Hx; try discriminate Hx; try reflexivity;
    try (repeat destruct Hx as [Hx | Hx]; congruence);
    auto 10 using nil_cons; repeat (first [left; discriminate | right]); discriminate.
Qed.

Section CoordinatorClaims.
Context `{Platform}.

(** What [deliver] posts: the payload of the session, exactly when the
    readiness condition holds. *)
Lemma deliver_posted (w : World) (session_id : string) (p : Prepared)
  (env : TurnEnv) :
  posted (deliver w session_id p env) =
    if should_send_callback p
    then [callback_payload
            (match p_agents p !! session_id with
             | Some the_agent =>
                 with_notes (p_session p)
                   (generate_agent_notes the_agent
                      (extractedIntelligence (p_session p)))
             | None => p_session p
             end)]
    else [].
Proof.
  unfold deliver. destruct (should_send_callback p).
  - destruct (save_session _ _) as [d1 b1]. unfold send_guvi_callback.
    destruct (match post_status env with Some code => (code =? 200)%nat | None => false end).
    + unfold mark_callback_sent. destruct (save_session _ _). reflexivity.
    + destruct (save_session _ _). reflexivity.
  - destruct (save_session _ _). reflexivity.
Qed.

(** The flag on the handler's session at the end of a turn. *)
Lemma deliver_callbackSent (w : World) (session_id : string) (p : Prepared)
  (env : TurnEnv) :
  exists s : SessionState,
    session_after (deliver w session_id p env) = Some s /\
    callbackSent s =
      callbackSent (p_session p)
      || (should_send_callback p
          && match post_status env with
             | Some code => (code =? 200)%nat
             | None => false
             end) /\
    extractedIntelligence s = extractedIntelligence (p_session p).
Proof.
  unfold deliver. destruct (should_send_callback p) eqn:Hs.
  - destruct (save_session _ _) as [d1 b1]. unfold send_guvi_callback.
    destruct (match post_status env with Some code => (code =? 200)%nat | None => false end).
    + unfold mark_callback_sent. destruct (save_session _ _).
      eexists. split; [reflexivity |]. cbn.
      split; [now rewrite orb_true_r |].
      destruct (p_agents p !! _); reflexivity.
    + destruct (save_session _ _). eexists. split; [reflexivity |]. cbn.
      split; [| destruct (p_agents p !! _); reflexivity].
      rewrite orb_false_r. destruct (p_agents p !! _); reflexivity.
  - destruct (save_session _ _). eexists. split; [reflexivity |]. cbn.
    split; [now rewrite orb_false_r | reflexivity].
Qed.

(** C2. A turn posts to the callback endpoint exactly when, after detection,
    extraction and merging, the scam is detected, the session holds at least
    [MIN_TURNS_BEFORE_CALLBACK] scammer messages (3 by default), the callback
    has not been sent, and one of bank accounts, IFSC codes, UPI ids, phishing
    links and phone numbers is non-empty; the suspicious keywords play no part,
    so a session with keywords only never posts. At most one POST is made. *)
Theorem callback_iff_ready (w : World) (request : IncomingRequest) (env : TurnEnv) :
  (posted (scam_detection w request env) <> [] <->
   verify_api_key (x_api_key env) = true /\
   exists p : Prepared,
     prepare w request env = Some p /\
     p_detection p = detect_scam (messages (incoming_session w request env)) /\
     scamDetected (p_detection p) = true /\
     (MIN_TURNS_BEFORE_CALLBACK settings
      <= count_sender scammer (messages (p_session p)))%nat /\
     callbackSent (p_session p) = false /\
     (bankAccounts (extractedIntelligence (p_session p)) <> [] \/
      ifscCodes (extractedIntelligence (p_session p)) <> [] \/
      upiIds (extractedIntelligence (p_session p)) <> [] \/
      phishingLinks (extractedIntelligence (p_session p)) <> [] \/
      phoneNumbers (extractedIntelligence (p_session p)) <> [])) /\
  (List.length (posted (scam_detection w request env)) <= 1)%nat /\
  MIN_TURNS_BEFORE_CALLBACK default_settings = 3%nat /\
  (forall (b i u l ph k1 k2 : list string),
     has_intelligence (MkExtractedIntelligence b i u l ph k1) =
     has_intelligence (MkExtractedIntelligence b i u l ph k2)).
Proof.
  assert (Hready : forall p : Prepared,
    prepare w request env = Some p ->
    (should_send_callback p = true <->
     scamDetected (p_detection p) = true /\
     (MIN_TURNS_BEFORE_CALLBACK settings
      <= count_sender scammer (messages (p_session p)))%nat /\
     callbackSent (p_session p) = false /\
     has_intelligence (extractedIntelligence (p_session p)) = true)).
  { intros p Hp. destruct (prepare_spec _ _ _ _ Hp) as (_ & _ & _ & _ & _ & Hn & _).
    unfold should_send_callback. rewrite Hn.
    rewrite !andb_true_iff, Nat.leb_le, negb_true_iff. tauto. }
  split; [split | split; [| split]].
  - unfold scam_detection.
    destruct (verify_api_key (x_api_key env)); cbn [negb]; [| intros Hx; now elim Hx].
    destruct (prepare w request env) as [p |] eqn:Hp; [| intros Hx; now elim Hx].
    rewrite deliver_posted.
    destruct (should_send_callback p) eqn:Hs; [| intros Hx; now elim Hx].
    intros _. split; [reflexivity |]. exists p. split; [reflexivity |].
    destruct (prepare_spec _ _ _ _ Hp) as (Hd & _).
    apply (Hready p eq_refl) in Hs as (? & ? & ? & Hi).
    apply has_intelligence_spec in Hi. auto.
  - intros (Hk & p & Hp & _ & Hd & Hn & Hc & Hi).
    unfold scam_detection. rewrite Hk, Hp. cbn [negb].
    rewrite deliver_posted.
    assert (Hs : should_send_callback p = true).
    { apply (Hready p Hp). repeat split; try assumption.
      now apply has_intelligence_spec. }
    rewrite Hs. discriminate.
  - unfold scam_detection. destruct (negb _); [cbn; lia |].
    destruct (prepare w request env); [| cbn; lia].
    rewrite deliver_posted. destruct (should_send_callback _); cbn; lia.
  - reflexivity.
  - intros. reflexivity.
Qed.

End CoordinatorClaims.

(** ** Accumulation and the latch, within a turn and across turns *)

Lemma merge_field_appends (acc new : list string) :
  exists added : list string,
    merge_field acc new = acc ++ added /\ (forall x, In x added -> In x new).
Proof.
  unfold merge_field. revert acc. induction new as [| y new IH]; intros acc; cbn.
  - exists []. split; [now rewrite app_nil_r | intros x []].
  - destruct (IH (append_new acc y)) as (added & -> & Hsub).
    unfold append_new. destruct (Py.mem y acc).
    + exists added. split; [reflexivity | intros x Hx; right; now apply Hsub].
    + exists (y :: added). rewrite <- app_assoc. split; [reflexivity |].
      intros x [<- | Hx]; [now left | right; now apply Hsub].
Qed.

Lemma merge_field_keeps (acc new : list string) (x : string) :
  In x acc -> In x (merge_field acc new).
Proof.
  intros Hin. destruct (merge_field_appends acc new) as (added & -> & _).
  apply in_or_app. now left.
Qed.

Lemma merge_field_adds (acc new : list string) (x : string) :
  In x new -> In x (merge_field acc new).
Proof.
  unfold merge_field. revert acc. induction new as [| y new IH]; intros acc; cbn.
  - intros [].
  - intros [-> | Hin]; [| now apply IH].
    apply (merge_field_keeps (append_new acc x) new).
    apply In_append_new. now right.
Qed.

Lemma append_new_NoDup (xs : list string) (x : string) :
  List.NoDup xs -> List.NoDup (append_new xs x).
Proof.
  intros Hnd. unfold append_new. destruct (Py.mem x xs) eqn:Hm; [exact Hnd |].
  apply List.NoDup_app_remove_l with (l := []). cbn.
  induction Hnd as [| y ys Hy Hys IH]; cbn.
  - constructor; [intros [] | constructor].
  - cbn in Hm. apply orb_false_elim in Hm as [Hxy Hm].
    apply String.eqb_neq in Hxy.
    constructor; [| now apply IH].
    rewrite in_app_iff. cbn. intros [Hin | [<- | []]]; [now apply Hy | now apply Hxy].
Qed.

Lemma merge_field_NoDup (acc new : list string) :
  List.NoDup acc -> List.NoDup (merge_field acc new).
Proof.
  unfold merge_field. revert acc. induction new as [| y new IH]; intros acc Hnd; cbn.
  - exact Hnd.
  - apply IH. now apply append_new_NoDup.
Qed.

Lemma merge_intelligence_accumulates (acc extracted_intel : ExtractedIntelligence) :
  List.Forall (@List.NoDup string) (intelligence_fields acc) ->
  accumulates acc (merge_intelligence acc extracted_intel).
Proof.
  unfold accumulates, intelligence_fields, merge_intelligence. cbn.
  intros Hnd.
  repeat match goal with
         | Hf : List.Forall _ (_ :: _) |- _ => inversion Hf; subst; clear Hf
         end.
  repeat constructor;
    solve [ now apply merge_field_NoDup | intros x; apply merge_field_keeps ].
Qed.

Section Persistence.
Context `{Platform}.

(** A session that carries a detection result is never written. *)
Lemma save_session_rejected (d : Database) (s : SessionState)
  (r : ScamDetectionResult) :
  detectionResult s = Some r -> save_session d s = (d, false).
Proof.
  intros Hr. unfold save_session. now rewrite Hr.
Qed.

(** Within a turn the merge is monotone: the handler's final session
    accumulates on the session the turn started from. *)
Lemma turn_accumulates (w : World) (request : IncomingRequest) (env : TurnEnv)
  (s : SessionState) :
  session_after (scam_detection w request env) = Some s ->
  List.Forall (@List.NoDup string)
    (intelligence_fields (extractedIntelligence (incoming_session w request env))) ->
  accumulates (extractedIntelligence (incoming_session w request env))
    (extractedIntelligence s).
Proof.
  unfold scam_detection. destruct (negb _); [discriminate |].
  destruct (prepare w request env) as [p |] eqn:Hp; [| discriminate].
  destruct (deliver_callbackSent w (req_sessionId request) p env) as (s' & Hs' & _ & Hi).
  rewrite Hs'. intros [= <-] Hnd. rewrite Hi.
  destruct (prepare_spec _ _ _ _ Hp) as (_ & _ & -> & _).
  now apply merge_intelligence_accumulates.
Qed.

(** Within a turn the latch holds: a session that is loaded with
    [callbackSent] set posts nothing and keeps the flag; and the flag is set
    by a turn only when its POST is answered with 200. *)
Lemma latch_within_a_turn (w : World) (request : IncomingRequest) (env : TurnEnv) :
  (callbackSent (incoming_session w request env) = true ->
   posted (scam_detection w request env) = []) /\
  (forall s : SessionState,
     session_after (scam_detection w request env) = Some s ->
     callbackSent s = true ->
     callbackSent (incoming_session w request env) = true \/
     (posted (scam_detection w request env) <> [] /\
      post_status env = Some 200%nat)) /\
  (forall s : SessionState,
     session_after (scam_detection w request env) = Some s ->
     post_status env <> Some 200%nat ->
     callbackSent s = callbackSent (incoming_session w request env)).
Proof.
  unfold scam_detection. destruct (negb _); [repeat split; intros; discriminate |].
  destruct (prepare w request env) as [p |] eqn:Hp;
    [| repeat split; intros; discriminate].
  destruct (prepare_spec _ _ _ _ Hp) as (_ & _ & _ & Hc & _).
  destruct (deliver_callbackSent w (req_sessionId request) p env) as (s' & Hs' & Hflag & _).
  rewrite deliver_posted, Hs'. rewrite Hc in Hflag.
  repeat split.
  - intros Hsent. unfold should_send_callback. rewrite Hc, Hsent.
    now rewrite andb_false_r.
  - intros s [= <-] Hs. rewrite Hflag in Hs.
    apply orb_prop in Hs as [Hs | Hs]; [now left | right].
    apply andb_prop in Hs as [Hs Hpost]. rewrite Hs. split; [discriminate |].
    destruct (post_status env) as [code |]; [| discriminate].
    apply Nat.eqb_eq in Hpost. now subst.
  - intros s [= <-] Hpost. rewrite Hflag.
    destruct (post_status env) as [code |]; [| now rewrite andb_false_r, orb_false_r].
    destruct (code =? 200)%nat eqn:Hcode;
      [apply Nat.eqb_eq in Hcode; subst; now elim Hpost |].
    now rewrite andb_false_r, orb_false_r.
Qed.

(** Across turns nothing is kept: a turn never inserts a row, so a session
    table that is empty stays empty and every turn starts from a new session. *)
Lemma session_table_stays_empty (w : World) (request : IncomingRequest)
  (env : TurnEnv) :
  db w = ∅ -> db (world_after (scam_detection w request env)) = ∅.
Proof.
  intros Hdb. unfold scam_detection. destruct (negb _); [exact Hdb |].
  destruct (prepare w request env) as [p |] eqn:Hp; [| exact Hdb].
  destruct (prepare_spec _ _ _ _ Hp) as (_ & Hd & _).
  unfold deliver. rewrite Hdb.
  assert (Hsave : forall s, detectionResult s = detectionResult (p_session p) ->
                            save_session ∅ s = (∅, false)).
  { intros s Hs. apply (save_session_rejected ∅ s (p_detection p)).
    now rewrite Hs. }
  assert (Hnotes :
    detectionResult
      (match p_agents p !! req_sessionId request with
       | Some the_agent =>
           with_notes (p_session p)
             (generate_agent_notes the_agent (extractedIntelligence (p_session p)))
       | None => p_session p
       end) = detectionResult (p_session p)).
  { destruct (p_agents p !! _); reflexivity. }
  destruct (should_send_callback p).
  - rewrite (Hsave _ Hnotes). unfold send_guvi_callback.
    destruct (match post_status env with Some code => (code =? 200)%nat | None => false end).
    + unfold mark_callback_sent.
      assert (Hal : alter (fun row : SessionState => set_callbackSent row true)
                      (req_sessionId request) (∅ : Database) = ∅).
      { apply map_eq. intros k. rewrite lookup_alter.
        case_decide; now rewrite ?lookup_empty. }
      rewrite Hal. rewrite Hsave; [reflexivity | exact Hnotes].
    + rewrite Hsave; [reflexivity | exact Hnotes].
  - rewrite Hsave; reflexivity.
Qed.

(** Where undeclared attributes are refused, a request that carries metadata
    is answered with the error reply: nothing is classified, stored or
    posted. *)
Lemma request_with_metadata_fails (w : World) (request : IncomingRequest)
  (env : TurnEnv) (m : Metadata) :
  rejects_undeclared_fields = true ->
  req_metadata request = Some m ->
  verify_api_key (x_api_key env) = true ->
  scam_detection w request env =
    MkTurnResult w (Responded (MkAgentResponse error error_reply)) [] None.
Proof.
  intros Hstrict Hm Hkey. unfold scam_detection, prepare.
  now rewrite Hkey, Hm, Hstrict.
Qed.

(** With an empty session table a turn starts from a new session, whatever
    the earlier turns did. *)
Lemma incoming_session_fresh (w : World) (request : IncomingRequest) (env : TurnEnv) :
  db w = ∅ ->
  messages (incoming_session w request env)
    = messages (incoming_session empty_world request env) /\
  callbackSent (incoming_session w request env) = false /\
  extractedIntelligence (incoming_session w request env) = empty_intelligence.
Proof.
  intros Hdb. unfold incoming_session, get_session. rewrite Hdb. cbn.
  rewrite lookup_empty.
  destruct (truthy (req_conversationHistory request)); cbn; repeat split.
Qed.

Lemma should_send_callback_from (w : World) (request : IncomingRequest)
  (env : TurnEnv) (p : Prepared) :
  prepare w request env = Some p ->
  should_send_callback p = ready_from (incoming_session w request env).
Proof.
  intros Hp.
  destruct (prepare_spec _ _ _ _ Hp) as (Hd & _ & Hi & Hc & _ & _ & Hn).
  unfold should_send_callback, ready_from. now rewrite Hd, Hi, Hc, Hn.
Qed.

Lemma prepare_is_Some (w1 w2 : World) (request : IncomingRequest)
  (env1 env2 : TurnEnv) (p : Prepared) :
  prepare w1 request env1 = Some p ->
  exists p2 : Prepared, prepare w2 request env2 = Some p2.
Proof.
  unfold prepare.
  destruct (req_metadata request), rejects_undeclared_fields;
    try discriminate; intros _; eexists; reflexivity.
Qed.

(** The latch does not survive the turn: from an empty session table, if a
    turn posts and its POST is answered with 200, its session ends with
    [callbackSent] set, no row is stored, and the same request posts again in
    the next turn. *)
Lemma callback_repeats_after_success (w : World) (request : IncomingRequest)
  (env1 env2 : TurnEnv) :
  db w = ∅ ->
  verify_api_key (x_api_key env2) = true ->
  post_status env1 = Some 200%nat ->
  posted (scam_detection w request env1) <> [] ->
  (exists s1 : SessionState,
     session_after (scam_detection w request env1) = Some s1 /\
     callbackSent s1 = true) /\
  get_session (db (world_after (scam_detection w request env1)))
    (req_sessionId request) = None /\
  posted (scam_detection (world_after (scam_detection w request env1)) request env2)
    <> [].
Proof.
  intros Hdb Hkey Hpost Hposted.
  pose proof (session_table_stays_empty w request env1 Hdb) as Hdb1.
  assert (Hr1 : exists p1 : Prepared,
            prepare w request env1 = Some p1 /\
            scam_detection w request env1 = deliver w (req_sessionId request) p1 env1).
  { revert Hposted. unfold scam_detection.
    destruct (negb (verify_api_key (x_api_key env1))); [intros Hx; now elim Hx |].
    destruct (prepare w request env1) as [p1 |]; [| intros Hx; now elim Hx].
    intros _. now exists p1. }
  destruct Hr1 as (p1 & Hp1 & Hr1). rewrite Hr1 in *.
  rewrite deliver_posted in Hposted.
  destruct (should_send_callback p1) eqn:Hs1; [| now elim Hposted].
  repeat split.
  - destruct (deliver_callbackSent w (req_sessionId request) p1 env1) as (s1 & Hs & Hflag & _).
    exists s1. split; [exact Hs |].
    rewrite Hflag, Hs1, Hpost. cbn. now rewrite orb_true_r.
  - unfold get_session. rewrite Hdb1. apply lookup_empty.
  - destruct (prepare_is_Some w (world_after (deliver w (req_sessionId request) p1 env1)) request env1 env2
                p1 Hp1) as [p2 Hp2].
    unfold scam_detection. rewrite Hkey, Hp2. cbn [negb].
    rewrite deliver_posted.
    rewrite (should_send_callback_from _ _ _ _ Hp2).
    rewrite (should_send_callback_from _ _ _ _ Hp1) in Hs1.
    destruct (incoming_session_fresh w request env1 Hdb) as (Hm1 & Hc1 & Hi1).
    destruct (incoming_session_fresh (world_after (deliver w (req_sessionId request) p1 env1)) request env2
                Hdb1) as (Hm2 & Hc2 & Hi2).
    assert (Hm : messages (incoming_session empty_world request env2)
                 = messages (incoming_session empty_world request env1)).
    { unfold incoming_session. cbn.
      destruct (truthy (req_conversationHistory request)); reflexivity. }
    unfold ready_from in *. rewrite Hm2, Hc2, Hi2, Hm.
    rewrite Hm1, Hc1, Hi1 in Hs1. rewrite Hs1. discriminate.
Qed.

(** Nothing accumulates across turns either: from an empty session table the
    intelligence at the end of a turn is what this turn's request yields. *)
Lemma turn_forgets_previous_turns (w : World) (request : IncomingRequest)
  (env : TurnEnv) (s : SessionState) :
  db w = ∅ ->
  session_after (scam_detection w request env) = Some s ->
  extractedIntelligence s =
    merge_intelligence empty_intelligence
      (extract_intelligence (messages (incoming_session empty_world request env))).
Proof.
  intros Hdb. unfold scam_detection. destruct (negb _); [discriminate |].
  destruct (prepare w request env) as [p |] eqn:Hp; [| discriminate].
  destruct (deliver_callbackSent w (req_sessionId request) p env) as (s' & Hs' & _ & Hi).
  rewrite Hs'. intros [= <-]. rewrite Hi.
  destruct (prepare_spec _ _ _ _ Hp) as (_ & _ & -> & _).
  destruct (incoming_session_fresh w request env Hdb) as (-> & _ & ->).
  reflexivity.
Qed.

End Persistence.

(** Between two processes only the order of iteration of a set may differ:
    the verdict, the score, the type and the reasoning are the same, and the
    indicators are drawn from the same rules. *)
Lemma detect_across_processes (P1 P2 : Platform) (self : ScamDetector)
  (T : list Message) :
  @settings P1 = @settings P2 ->
  (forall p t : string, @re_search P1 p t = @re_search P2 p t) ->
  scamDetected (@detect P1 self T) = scamDetected (@detect P2 self T) /\
  confidenceScore (@detect P1 self T) = confidenceScore (@detect P2 self T) /\
  scamType (@detect P1 self T) = scamType (@detect P2 self T) /\
  reasoning (@detect P1 self T) = reasoning (@detect P2 self T) /\
  exists found : list string,
    (indicators (@detect P1 self T) = [] /\ indicators (@detect P2 self T) = []) \/
    (indicators (@detect P1 self T) = firstn 10 (@set_order P1 (unique found)) /\
     indicators (@detect P2 self T) = firstn 10 (@set_order P2 (unique found))).
Proof.
  intros Hset Hre.
  assert (Hscan : forall text, @scan_categories P1 self text = @scan_categories P2 self text).
  { intros text. unfold scan_categories.
    generalize (@nil string, @nil (string * list string)) as acc.
    induction (compiled_patterns self) as [| [category patterns] r IH];
      intros acc; [reflexivity |].
    cbn [fold_left]. rewrite <- IH. f_equal.
    unfold scan_category. destruct acc as [ind cm].
    rewrite (List.filter_ext _ _ (fun q => Hre (pattern q) text)). reflexivity. }
  unfold detect. rewrite Hscan, Hset.
  destruct (@scan_categories P2 self _) as [found cm].
  destruct (negb (truthy cm)); cbn.
  - repeat split. exists []. now left.
  - repeat split. exists found. now right.
Qed.

Lemma unique_NoDup (xs : list string) : List.NoDup (unique xs).
Proof.
  unfold unique. generalize (@nil string) as seen.
  induction xs as [|y r IH]; intros seen; cbn [unique_go]; [constructor|].
  destruct (Py.mem y seen) eqn:Hmem; [apply IH|].
  constructor; [|apply IH].
  assert (Hseen : forall (l seen0 : list string) (x : string),
            In x (unique_go seen0 l) -> Py.mem x seen0 = false).
  { clear. induction l as [|z l IHl]; intros seen0 x; cbn [unique_go]; [intros []|].
    destruct (Py.mem z seen0) eqn:Hz; [apply IHl|].
    intros [<-|Hin]; [exact Hz|].
    apply IHl in Hin. cbn in Hin. apply orb_false_elim in Hin. apply Hin. }
  intros Hin. apply Hseen in Hin. cbn in Hin. rewrite String.eqb_refl in Hin.
  discriminate.
Qed.

(** Two processes that run the same regular-expression engine find the same
    matches. *)
Lemma scan_categories_across (P1 P2 : Platform) (self : ScamDetector) (text : string) :
  (forall p t : string, @re_search P1 p t = @re_search P2 p t) ->
  @scan_categories P1 self text = @scan_categories P2 self text.
Proof.
  intros Hre. unfold scan_categories.
  generalize (@nil string, @nil (string * list string)) as acc.
  induction (compiled_patterns self) as [| [category patterns] r IH];
    intros acc; [reflexivity |].
  cbn [fold_left]. rewrite <- IH. f_equal.
  unfold scan_category. destruct acc as [ind cm].
  rewrite (List.filter_ext _ _ (fun q => Hre (pattern q) text)). reflexivity.
Qed.

(** C6 (as the code has it). The indicators are [list(set(...))[:10]], and the
    order in which a set of strings is iterated is fixed within a process but
    not between processes (it follows the hashes of the strings). Take two
    processes [P1] and [P2] with the same threshold and the same
    regular-expression engine, each iterating a set in some order of its
    elements, and two transcripts with the same sequence of texts. Then
    [scamDetected], [confidenceScore], [scamType] and [reasoning] are
    identical in the two processes; within one process the whole results are
    identical; and the two lists of indicators are the first ten elements of
    two orderings of one duplicate-free list of candidates, so that they hold
    the same elements when there are at most ten candidates, and are identical
    when the two processes iterate sets in the same order. *)
Theorem classifier_deterministic (P1 P2 : Platform) (self : ScamDetector)
  (T1 T2 : list Message) :
  SCAM_DETECTION_THRESHOLD (@settings P1) = SCAM_DETECTION_THRESHOLD (@settings P2) ->
  (forall p t : string, @re_search P1 p t = @re_search P2 p t) ->
  (forall xs : list string, Permutation (@set_order P1 xs) xs) ->
  (forall xs : list string, Permutation (@set_order P2 xs) xs) ->
  List.map text T1 = List.map text T2 ->
  (scamDetected (@detect P1 self T1) = scamDetected (@detect P2 self T2) /\
   confidenceScore (@detect P1 self T1) = confidenceScore (@detect P2 self T2) /\
   scamType (@detect P1 self T1) = scamType (@detect P2 self T2) /\
   reasoning (@detect P1 self T1) = reasoning (@detect P2 self T2)) /\
  @detect P1 self T1 = @detect P1 self T2 /\
  exists candidates : list string,
    List.NoDup candidates /\
    (exists o1 o2 : list string,
       Permutation o1 candidates /\ Permutation o2 candidates /\
       indicators (@detect P1 self T1) = firstn 10 o1 /\
       indicators (@detect P2 self T2) = firstn 10 o2) /\
    ((List.length candidates <= 10)%nat ->
     Permutation (indicators (@detect P1 self T1)) (indicators (@detect P2 self T2))) /\
    ((forall xs : list string, @set_order P1 xs = @set_order P2 xs) ->
     indicators (@detect P1 self T1) = indicators (@detect P2 self T2)).
Proof.
  intros Hthr Hre Hp1 Hp2 Htext.
  split; [|split].
  - unfold detect. rewrite Htext, Hthr, (scan_categories_across P1 P2 self _ Hre).
    destruct (@scan_categories P2 self _) as [found cm].
    destruct (negb (truthy cm)); cbn; repeat split; reflexivity.
  - unfold detect. rewrite Htext. reflexivity.
  - unfold detect. rewrite Htext, (scan_categories_across P1 P2 self _ Hre).
    destruct (@scan_categories P2 self _) as [found cm].
    destruct (negb (truthy cm)); cbn [indicators no_indicators].
    + exists []. split; [constructor|]. split; [|split].
      * exists [], []. repeat split; constructor.
      * intros _. constructor.
      * intros _. reflexivity.
    + exists (unique found). split; [apply unique_NoDup|].
      unfold list_of_set. split; [|split].
      * exists (@set_order P1 (unique found)), (@set_order P2 (unique found)).
        repeat split; [apply Hp1 | apply Hp2].
      * intros Hlen.
        rewrite !List.firstn_all2
          by (rewrite ?(Permutation_length (Hp1 _)), ?(Permutation_length (Hp2 _));
              exact Hlen).
        etransitivity; [apply Hp1 | symmetry; apply Hp2].
      * intros Hsame. rewrite Hsame. reflexivity.
Qed.

(** ** What the extractor returns *)

Lemma filter_string_forallb (p : ascii -> bool) (s : string) :
  forallb p (Py.chars (Py.filter_string p s)) = true.
Proof.
  induction s as [|c r IH]; [reflexivity|].
  cbn [Py.filter_string]. destruct (p c) eqn:Hp; [|exact IH].
  cbn. rewrite Hp. exact IH.
Qed.

Lemma filter_string_idem (p : ascii -> bool) (s : string) :
  Py.filter_string p (Py.filter_string p s) = Py.filter_string p s.
Proof.
  induction s as [|c r IH]; [reflexivity|].
  cbn [Py.filter_string]. destruct (p c) eqn:Hp; [|exact IH].
  cbn [Py.filter_string]. rewrite Hp, IH. reflexivity.
Qed.

Lemma NoDup_firstn {A : Type} (n : nat) (l : list A) :
  List.NoDup l -> List.NoDup (firstn n l).
Proof.
  revert n. induction l as [|x l IH]; intros [|n] Hnd; cbn; try constructor.
  - inversion Hnd; subst. intros Hin. apply In_firstn_In in Hin. 
    match goal with H : ~ _ |- _ => apply H end. exact Hin.
  - inversion Hnd; subst. apply IH. assumption.
Qed.

Lemma Forall_firstn_of {A : Type} (P : A -> Prop) (n : nat) (l : list A) :
  List.Forall P l -> List.Forall P (firstn n l).
Proof.
  intros HP. apply List.Forall_forall. intros x Hin.
  apply In_firstn_In in Hin. revert x Hin. apply List.Forall_forall. exact HP.
Qed.

Lemma fold_add_invariant {M : Type} (add : list string -> M -> list string)
  (P : string -> Prop) :
  (forall acc m, add acc m = acc \/ exists x, P x /\ add acc m = append_new acc x) ->
  forall (ms : list M) (acc : list string),
    List.NoDup acc -> List.Forall P acc ->
    List.NoDup (fold_left add ms acc) /\ List.Forall P (fold_left add ms acc).
Proof.
  intros Hadd ms. induction ms as [|m ms IH]; intros acc Hnd HP; [split; assumption|].
  cbn [fold_left]. apply IH.
  - destruct (Hadd acc m) as [-> | (x & _ & ->)]; [assumption|].
    apply append_new_NoDup; assumption.
  - destruct (Hadd acc m) as [-> | (x & Hx & ->)]; [assumption|].
    unfold append_new. destruct (Py.mem x acc); [assumption|].
    apply List.Forall_app; split; [assumption|]. constructor; [assumption|constructor].
Qed.

Lemma capped_fold {M : Type} (add : list string -> M -> list string)
  (P : string -> Prop) (n : nat) (ms : list M) :
  (forall acc m, add acc m = acc \/ exists x, P x /\ add acc m = append_new acc x) ->
  List.NoDup (firstn n (fold_left add ms [])) /\
  (List.length (firstn n (fold_left add ms [])) <= n)%nat /\
  List.Forall P (firstn n (fold_left add ms [])).
Proof.
  intros Hadd.
  destruct (fold_add_invariant add P Hadd ms [] (List.NoDup_nil _) (List.Forall_nil _))
    as [Hnd HP].
  split; [apply NoDup_firstn; exact Hnd|].
  split; [apply List.firstn_le_length|].
  apply Forall_firstn_of; exact HP.
Qed.

(** Case folding and stripping. *)
Lemma upper_char_idem (c : ascii) : Py.upper_char (Py.upper_char c) = Py.upper_char c.
Proof. destruct c as [[] [] [] [] [] [] [] []]; reflexivity. Qed.

Lemma lower_char_idem (c : ascii) : Py.lower_char (Py.lower_char c) = Py.lower_char c.
Proof. destruct c as [[] [] [] [] [] [] [] []]; reflexivity. Qed.

Lemma map_string_idem (f : ascii -> ascii) (s : string) :
  (forall c, f (f c) = f c) -> Py.map_string f (Py.map_string f s) = Py.map_string f s.
Proof.
  intros Hf. induction s as [|c r IH]; [reflexivity|].
  cbn [Py.map_string]. rewrite Hf, IH. reflexivity.
Qed.

Lemma lstrip_fixed (f : ascii -> ascii) (s : string) :
  Py.map_string f s = s -> Py.map_string f (Py.lstrip s) = Py.lstrip s.
Proof.
  induction s as [|c r IH]; [reflexivity|].
  intros Hfix. cbn [Py.lstrip]. destruct (Py.isspace c); [|exact Hfix].
  apply IH. cbn [Py.map_string] in Hfix. congruence.
Qed.

Lemma rstrip_fixed (f : ascii -> ascii) (s : string) :
  Py.map_string f s = s -> Py.map_string f (Py.rstrip s) = Py.rstrip s.
Proof.
  induction s as [|c r IH]; [reflexivity|].
  intros Hfix. cbn [Py.map_string] in Hfix.
  assert (Hc : f c = c) by congruence.
  assert (Hr : Py.map_string f r = r) by congruence.
  specialize (IH Hr). cbn [Py.rstrip].
  destruct (Py.rstrip r) as [|c' r'] eqn:E.
  - destruct (Py.isspace c); [reflexivity|]. cbn [Py.map_string]. rewrite Hc. reflexivity.
  - cbn [Py.map_string] in *. rewrite Hc. congruence.
Qed.

Lemma strip_fixed (f : ascii -> ascii) (s : string) :
  Py.map_string f s = s -> Py.map_string f (Py.strip s) = Py.strip s.
Proof. intros Hfix. apply rstrip_fixed, lstrip_fixed, Hfix. Qed.

Section ExtractorOutputs.
Context `{Platform}.

Lemma add_bank_account_step (acc : list string) (m : Re.Match) :
  add_bank_account acc m = acc \/
  exists x, valid_bank_account x /\ add_bank_account acc m = append_new acc x.
Proof.
  unfold add_bank_account.
  destruct (validate bank_account_entry (Py.digits_of (captured m))) eqn:Hv;
    [right|left; reflexivity].
  exists (Py.digits_of (captured m)). split; [|reflexivity].
  cbn [validate bank_account_entry] in Hv. unfold Py.digits_of in Hv.
  rewrite filter_string_idem in Hv.
  apply andb_prop in Hv. destruct Hv as [H9 H18].
  apply Nat.leb_le in H9, H18.
  split; [apply filter_string_forallb|split; assumption].
Qed.

Lemma add_ifsc_code_step (acc : list string) (m : Re.Match) :
  add_ifsc_code acc m = acc \/
  exists x, valid_ifsc_code x /\ add_ifsc_code acc m = append_new acc x.
Proof.
  unfold add_ifsc_code.
  destruct (validate ifsc_code_entry (Py.strip (Py.upper (captured m)))) eqn:Hv;
    [right|left; reflexivity].
  exists (Py.strip (Py.upper (captured m))). split; [|reflexivity].
  cbn [validate ifsc_code_entry] in Hv. apply andb_prop in Hv. destruct Hv as [Hlen Hget].
  apply Nat.eqb_eq in Hlen.
  split; [exact Hlen|]. split.
  - destruct (String.get 4 (Py.strip (Py.upper (captured m)))) as [c|]; [|discriminate].
    apply Ascii.eqb_eq in Hget. congruence.
  - apply strip_fixed. apply map_string_idem, upper_char_idem.
Qed.

Lemma add_upi_id_step (acc : list string) (m : Re.Match) :
  add_upi_id acc m = acc \/
  exists x, valid_upi_id x /\ add_upi_id acc m = append_new acc x.
Proof.
  unfold add_upi_id. set (upi := Py.strip (Py.lower (captured m))).
  destruct (Py.contains "@" upi) eqn:Hat; [|left; reflexivity]. cbn [andb].
  destruct (Py.endswith upi "@gmail.com") eqn:E1; [left; reflexivity|].
  destruct (Py.endswith upi "@yahoo.com") eqn:E2; [left; reflexivity|].
  destruct (Py.endswith upi "@hotmail.com") eqn:E3; [left; reflexivity|].
  cbn [orb negb].
  destruct (validate upi_id_entry upi) eqn:Hv; [right|left; reflexivity].
  exists upi. split; [|reflexivity].
  cbn [validate upi_id_entry] in Hv. apply andb_prop in Hv. destruct Hv as [_ Hlen].
  apply Nat.leb_le in Hlen.
  repeat (split; [assumption|]).
  apply strip_fixed. apply map_string_idem, lower_char_idem.
Qed.

Lemma all_digits_app (a b : string) :
  all_digits a = true -> all_digits b = true -> all_digits (a +:+ b) = true.
Proof.
  unfold all_digits. induction a as [|c r IH]; [intros _ Hb; exact Hb|].
  rewrite string_app_cons. cbn. intros Ha Hb.
  apply andb_prop in Ha. destruct Ha as [Hc Hr]. rewrite Hc. cbn. apply IH; assumption.
Qed.

Lemma normalized_shape (digits x : string) :
  all_digits digits = true -> normalized digits = Some x -> valid_phone_number x.
Proof.
  intros Hd. unfold normalized.
  destruct (String.length digits =? 10)%nat eqn:E10.
  { intros [= <-]. apply Nat.eqb_eq in E10. exists ("91" +:+ digits).
    split; [reflexivity|]. split; [apply all_digits_app; [reflexivity|exact Hd]|].
    rewrite string_length_app. cbn. lia. }
  destruct ((String.length digits =? 12)%nat && Py.startswith digits "91") eqn:E12.
  { intros [= <-]. apply andb_prop in E12. destruct E12 as [E12 _].
    apply Nat.eqb_eq in E12. exists digits. repeat split; [exact Hd|lia]. }
  destruct (10 <? String.length digits)%nat eqn:Egt; [|discriminate].
  intros [= <-]. apply Nat.ltb_lt in Egt. exists digits. repeat split; [exact Hd|lia].
Qed.

Lemma add_phone_number_step (acc : list string) (m : Re.Match) :
  add_phone_number acc m = acc \/
  exists x, valid_phone_number x /\ add_phone_number acc m = append_new acc x.
Proof.
  unfold add_phone_number.
  destruct (normalized (Py.digits_of (captured m))) as [x|] eqn:Hn;
    [right|left; reflexivity].
  exists x. split; [|reflexivity].
  apply (normalized_shape (Py.digits_of (captured m))); [|exact Hn].
  apply filter_string_forallb.
Qed.

Lemma add_phishing_link_step (acc : list string) (m : Re.Match) :
  add_phishing_link acc m = acc \/
  exists x, retained_link x /\ add_phishing_link acc m = append_new acc x.
Proof.
  unfold add_phishing_link. set (url := Py.strip (Re.group0 m)).
  destruct (Py.startswith url "http://" || Py.startswith url "https://"
            || Py.startswith url "www.") eqn:Hs; [|left; reflexivity].
  cbn [negb].
  destruct (_is_suspicious_url url) eqn:Hsus; [right|left; reflexivity].
  exists url. split; [|reflexivity]. split.
  - apply orb_prop in Hs. destruct Hs as [Hs|Hs]; [|right; right; exact Hs].
    apply orb_prop in Hs. destruct Hs as [Hs|Hs]; [left|right; left]; exact Hs.
  - intros netloc Hparse Hallow.
    rewrite (suspicious_by_location url netloc Hparse) in Hsus.
    apply is_legitimate_spec in Hallow.
    rewrite Hallow in Hsus. discriminate.
Qed.

(** Every list the extractor returns is cut to its cap, and the five
    identifier lists hold no value twice: at most five bank accounts, IFSC
    codes, UPI ids and phone numbers, ten links and fifteen keywords. *)
Theorem extracted_lists_capped_and_distinct (self : IntelligenceExtractor)
  (messages : list Message) :
  let i := extract self messages in
  (List.NoDup (bankAccounts i) /\ (List.length (bankAccounts i) <= 5)%nat) /\
  (List.NoDup (ifscCodes i) /\ (List.length (ifscCodes i) <= 5)%nat) /\
  (List.NoDup (upiIds i) /\ (List.length (upiIds i) <= 5)%nat) /\
  (List.NoDup (phishingLinks i) /\ (List.length (phishingLinks i) <= 10)%nat) /\
  (List.NoDup (phoneNumbers i) /\ (List.length (phoneNumbers i) <= 5)%nat) /\
  (List.length (suspiciousKeywords i) <= 15)%nat.
Proof.
  cbn zeta. unfold extract. cbn [bankAccounts ifscCodes upiIds phishingLinks phoneNumbers
    suspiciousKeywords].
  set (t := Py.join " " _).
  split; [|split; [|split; [|split; [|split]]]].
  - destruct (capped_fold add_bank_account _ 5
                (all_matches (patterns_for (extractor_patterns self) "bank_account") t)
                add_bank_account_step) as (? & ? & _). split; assumption.
  - destruct (capped_fold add_ifsc_code _ 5
                (all_matches (patterns_for (extractor_patterns self) "ifsc_code") t)
                add_ifsc_code_step) as (? & ? & _). split; assumption.
  - destruct (capped_fold add_upi_id _ 5
                (all_matches (patterns_for (extractor_patterns self) "upi_id") t)
                add_upi_id_step) as (? & ? & _). split; assumption.
  - destruct (capped_fold add_phishing_link _ 10
                (all_matches (patterns_for (extractor_patterns self) "phishing_link") t)
                add_phishing_link_step) as (? & ? & _). split; assumption.
  - destruct (capped_fold add_phone_number _ 5
                (all_matches (patterns_for (extractor_patterns self) "phone_number") t)
                add_phone_number_step) as (? & ? & _). split; assumption.
  - unfold _extract_suspicious_keywords. apply List.firstn_le_length.
Qed.

(** Only normalised values that pass the validator are returned: a bank
    account is 9 to 18 digits and nothing else; an IFSC code has 11
    characters, a zero in fifth place and no lower-case letter; a UPI id is
    lower-case, has an [@] after at least three characters and does not end
    in one of the three free-mail domains; a phone number is a plus sign
    followed by at least eleven digits. *)
Theorem extracted_values_pass_validation (self : IntelligenceExtractor)
  (messages : list Message) :
  let i := extract self messages in
  List.Forall valid_bank_account (bankAccounts i) /\
  List.Forall valid_ifsc_code (ifscCodes i) /\
  List.Forall valid_upi_id (upiIds i) /\
  List.Forall valid_phone_number (phoneNumbers i).
Proof.
  cbn zeta. unfold extract. cbn [bankAccounts ifscCodes upiIds phoneNumbers].
  set (t := Py.join " " _).
  split; [|split; [|split]].
  - apply (capped_fold add_bank_account _ 5 _ add_bank_account_step).
  - apply (capped_fold add_ifsc_code _ 5 _ add_ifsc_code_step).
  - apply (capped_fold add_upi_id _ 5 _ add_upi_id_step).
  - apply (capped_fold add_phone_number _ 5 _ add_phone_number_step).
Qed.

(** A link that is returned starts with [http://], [https://] or [www.],
    and its network location ([parsed.netloc], lower-cased, without a leading
    [www.]) is never an entry of the allowlist or a name under one. *)
Theorem retained_links_not_allowlisted (self : IntelligenceExtractor)
  (messages : list Message) :
  List.Forall retained_link (phishingLinks (extract self messages)).
Proof.
  unfold extract. cbn [phishingLinks].
  apply (capped_fold add_phishing_link _ 10 _ add_phishing_link_step).
Qed.

End ExtractorOutputs.

(** ** What the classifier returns *)

Section ClassifierOutputs.
Context `{Platform}.

#[local] Open Scope Q_scope.

(** Every entry of [category_matches] is a category of the catalogue with the
    patterns of that category that match, at least one. *)
Lemma matched_categories_entries (messages : list Message) (c : string)
  (found : list string) :
  In (c, found) (matched_categories messages) ->
  found <> [] /\
  exists patterns : list string,
    In (c, patterns) SCAM_PATTERNS /\
    forall p : string, In p found ->
      In p patterns /\ re_search p (all_text_of messages) = true.
Proof.
  unfold matched_categories, scan_categories.
  rewrite scan_categories_spec. cbn [snd app].
  intros Hin. apply in_flat_map in Hin. destruct Hin as (entry & Hentry & Hin).
  cbn zeta in Hin.
  destruct (truthy _) eqn:Ht in Hin; [|destruct Hin].
  destruct Hin as [Heq | []]. injection Heq as <- <-.
  split.
  { intros Hnil. rewrite Hnil in Ht. discriminate. }
  unfold detector, _compile_patterns in Hentry. cbn [compiled_patterns] in Hentry.
  apply in_map_iff in Hentry. destruct Hentry as ([k ps] & <- & Hcat).
  cbn [fst snd]. exists ps. split; [exact Hcat|].
  intros p Hp. apply in_map_iff in Hp. destruct Hp as (q & <- & Hq).
  apply filter_In in Hq. destruct Hq as [Hq Hs].
  apply in_map_iff in Hq. destruct Hq as (src & <- & Hsrc).
  cbn [pattern] in *. split; assumption.
Qed.

Lemma has_key_In {V : Type} (c : string) (v : V) (d : list (string * V)) :
  In (c, v) d -> has_key c d = true.
Proof.
  intros Hin. unfold has_key. apply existsb_exists. exists (c, v).
  split; [exact Hin|]. cbn. apply String.eqb_refl.
Qed.

Lemma string_app_first (c : ascii) (a b : string) :
  exists r : string, String c a +:+ b = String c r.
Proof. exists (a +:+ b). apply string_app_cons. Qed.

(** A catalogue category among the matches decides the type and the text of
    the reasoning. *)
Lemma known_category_decides (cm : list (string * list string)) (c : string) :
  In c category_names -> has_key c cm = true ->
  _determine_scam_type cm <> UNKNOWN /\
  exists rest : string,
    _generate_reasoning cm (_determine_scam_type cm) =
      "Detected " +:+ ScamType_value (_determine_scam_type cm) +:+ ": " +:+ rest.
Proof.
  intros Hc Hk. split.
  - unfold _determine_scam_type. cbn [first_in_priority priority].
    cbn in Hc.
    repeat match goal with
           | |- context [if has_key ?k cm then _ else _] =>
               destruct (has_key k cm) eqn:?
           | |- context [has_key ?k cm || _] => destruct (has_key k cm) eqn:?
           | |- context [false || has_key ?k cm] => destruct (has_key k cm) eqn:?
           end; cbn [orb]; try discriminate.
    exfalso. intuition (subst; congruence).
  - unfold _generate_reasoning.
    match goal with |- context [if truthy ?parts then _ else _] =>
      destruct (truthy parts) eqn:Hparts end.
    + eexists. reflexivity.
    + exfalso. cbn in Hc.
      repeat match type of Hparts with
             | context [if has_key ?k cm then _ else _] =>
                 destruct (has_key k cm) eqn:?; cbn [app truthy] in Hparts
             end; try discriminate.
      intuition (subst; congruence).
Qed.

Lemma first_category_matched (cm : list (string * list string)) :
  cm <> [] -> exists (c : string) (found : list string), In (c, found) cm.
Proof. destruct cm as [|[c f] r]; [congruence|]. intros _. exists c, f. left. reflexivity. Qed.

Lemma confidence_is_centi (cm : list (string * list string)) (t : string) :
  is_centi (_calculate_confidence cm t).
Proof.
  destruct (is_centi_min (additive_sum cm) (99 # 100) (is_centi_additive_sum cm))
    as [z Hz].
  { apply is_centi_const. exists 99%Z. reflexivity. }
  exists z. rewrite calculate_confidence_formula. exact Hz.
Qed.

Lemma matched_confidence_floor (cm : list (string * list string)) (t : string) :
  cm <> [] -> 15 # 100 <= _calculate_confidence cm t.
Proof.
  intros Hne. rewrite calculate_confidence_formula.
  apply Q.min_glb; [|lra].
  unfold additive_sum.
  assert (Hb : 15 # 100 <=
               Qmin (inject_Z (Z.of_nat (List.length cm)) * (15 # 100)) (45 # 100)).
  { apply Q.min_glb; [|lra].
    assert (Hl : inject_Z 1 <= inject_Z (Z.of_nat (List.length cm))).
    { rewrite <- Zle_Qle. destruct cm; [congruence|]. cbn [List.length]. lia. }
    change (inject_Z 1) with 1 in Hl. nra. }
  pose proof (sum_bonus_nonneg cm) as Hs.
  unfold indicator.
  destruct (has_key "urgency" cm), (has_key "otp_pin_harvesting" cm),
    (has_key "phishing" cm), (has_key "upi_fraud" cm), (has_key "bank_fraud" cm);
    cbn [andb orb]; lra.
Qed.

(** The classifier answers [UNKNOWN] exactly when no category matched, and
    then with the fixed result; as soon as one category matches, the type is
    one of the five named ones, the score is at least 0.15 and the reasoning
    starts with the type. The branch ["Low confidence detection"] of
    [_generate_reasoning] is never the reasoning of a result. *)
Theorem detect_names_a_type_iff_matched (messages : list Message) :
  let r := detect_scam messages in
  match matched_categories messages with
  | [] => r = no_indicators
  | _ :: _ =>
      scamType r <> UNKNOWN /\
      15 # 100 <= confidenceScore r /\
      exists rest : string,
        reasoning r = "Detected " +:+ ScamType_value (scamType r) +:+ ": " +:+ rest
  end /\
  (scamType r = UNKNOWN <-> matched_categories messages = []) /\
  (confidenceScore r == 1 # 10 <-> matched_categories messages = []) /\
  reasoning r <> "Low confidence detection".
Proof.
  cbn zeta. pose proof (detect_cases messages) as Hd.
  destruct (matched_categories messages) as [|[c found] rest] eqn:Hcm.
  { rewrite Hd. split; [reflexivity|]. cbn.
    split; [tauto|]. split; [split; [reflexivity | intros _; reflexivity]|]. discriminate. }
  assert (Hin : In (c, found) (matched_categories messages))
    by (rewrite Hcm; left; reflexivity).
  destruct (matched_categories_entries messages c found Hin) as (_ & ps & Hcat & _).
  assert (Hname : In c category_names).
  { unfold category_names. apply in_map_iff. exists (c, ps). split; [reflexivity|exact Hcat]. }
  rewrite <- Hcm in Hd |- *.
  assert (Hk : has_key c (matched_categories messages) = true)
    by (apply (has_key_In c found); exact Hin).
  destruct (known_category_decides _ c Hname Hk) as (Htype & txt & Hreason).
  assert (Hne : matched_categories messages <> []) by (rewrite Hcm; discriminate).
  assert (Hfloor := matched_confidence_floor (matched_categories messages)
                      (all_text_of messages) Hne).
  assert (Hround := round2_is_centi _
                      (confidence_is_centi (matched_categories messages)
                         (all_text_of messages))).
  rewrite Hd.
  cbn [scamType confidenceScore reasoning].
  split; [|split; [|split]].
  - split; [exact Htype|]. split; [rewrite Hround; exact Hfloor|].
    exists txt. exact Hreason.
  - split; [intros Hu; contradiction | intros Hnil; contradiction].
  - split; [|intros Hnil; contradiction].
    intros Heq. rewrite Hround in Heq. rewrite Heq in Hfloor. lra.
  - rewrite Hreason. intros Habs. discriminate Habs.
Qed.

(** One category alone: the base score of one category, at most two
    multi-pattern bonuses, and either the critical-category bonus or the
    UPI or bank bonus. *)
Lemma single_category_confidence (k : string) (found : list string) (t : string) :
  _calculate_confidence [(k, found)] t <= 1 # 2.
Proof.
  rewrite calculate_confidence_formula.
  eapply Qle_trans; [apply Q.le_min_l|].
  unfold additive_sum, has_key. cbn [existsb fst List.length sum_bonus].
  unfold rules_bonus, indicator. cbn [snd].
  assert (Hmin : Qmin (inject_Z (Z.of_nat 1) * (15 # 100)) (45 # 100) == 15 # 100)
    by reflexivity.
  rewrite Hmin.
  destruct (String.eqb_spec "urgency" k) as [<-|];
    [destruct (2 <=? List.length found)%nat, (3 <=? List.length found)%nat;
       vm_compute; discriminate|].
  destruct (String.eqb_spec "otp_pin_harvesting" k) as [<-|];
    [destruct (2 <=? List.length found)%nat, (3 <=? List.length found)%nat;
       vm_compute; discriminate|].
  destruct (String.eqb_spec "phishing" k) as [<-|];
    [destruct (2 <=? List.length found)%nat, (3 <=? List.length found)%nat;
       vm_compute; discriminate|].
  destruct (String.eqb_spec "upi_fraud" k) as [<-|];
    [destruct (2 <=? List.length found)%nat, (3 <=? List.length found)%nat;
       vm_compute; discriminate|].
  destruct (String.eqb_spec "bank_fraud" k) as [<-|];
    [destruct (2 <=? List.length found)%nat, (3 <=? List.length found)%nat;
       vm_compute; discriminate|].
  destruct (2 <=? List.length found)%nat, (3 <=? List.length found)%nat;
    vm_compute; discriminate.
Qed.

(** A transcript that matches one category only scores at most 0.5, so
    with a threshold above one half (the default is 0.6) it is not classified
    as a scam. *)
Theorem one_category_stays_below_half (messages : list Message) :
  List.length (matched_categories messages) = 1%nat ->
  confidenceScore (detect_scam messages) <= 1 # 2 /\
  (1 # 2 < SCAM_DETECTION_THRESHOLD settings ->
   scamDetected (detect_scam messages) = false).
Proof.
  intros Hlen. pose proof (detect_cases messages) as Hd.
  destruct (matched_categories messages) as [|[k found] [|]] eqn:Hcm; try discriminate.
  rewrite Hd. cbn [confidenceScore scamDetected].
  pose proof (single_category_confidence k found (all_text_of messages)) as Hle.
  pose proof (round2_is_centi _ (confidence_is_centi [(k, found)] (all_text_of messages)))
    as Hround.
  split; [rewrite Hround; exact Hle|].
  intros Hthr.
  destruct (Qle_bool _ _) eqn:Hb; [|reflexivity].
  apply Qle_bool_iff in Hb. lra.
Qed.

Lemma In_unique_go (seen xs : list string) (x : string) :
  In x (unique_go seen xs) -> In x xs.
Proof.
  revert seen. induction xs as [|y r IH]; intros seen; cbn [unique_go]; [tauto|].
  destruct (Py.mem y seen).
  - intros Hin. right. exact (IH _ Hin).
  - intros [->|Hin]; [left; reflexivity | right; exact (IH _ Hin)].
Qed.

Lemma scan_categories_indicators (text : string)
  (entries : list (string * list Pattern))
  (acc : list string * list (string * list string)) (i : string) :
  In i (fst (fold_left (scan_category text) entries acc)) ->
  In i (fst acc) \/
  exists entry : string * list Pattern,
    In entry entries /\
    In i (List.map pattern
            (List.filter (fun p => re_search (pattern p) text) (snd entry))).
Proof.
  revert acc. induction entries as [|[c ps] r IH]; intros [ind cm]; cbn [fold_left];
    [tauto|].
  intros Hin. apply IH in Hin. destruct Hin as [Hin | (entry & He & Hi)].
  - unfold scan_category in Hin.
    destruct (truthy _) in Hin; cbn [fst] in Hin; [|left; exact Hin].
    apply in_app_or in Hin. destruct Hin as [Hin|Hin]; [left; exact Hin|].
    right. exists (c, ps). split; [left; reflexivity|].
    cbn [snd]. exact (In_firstn_In _ _ _ Hin).
  - right. exists entry. split; [right; exact He | exact Hi].
Qed.

Lemma scanned_indicators (self : ScamDetector) (text : string) (i : string) :
  In i (fst (scan_categories self text)) ->
  exists entry : string * list Pattern,
    In entry (compiled_patterns self) /\
    In i (List.map pattern
            (List.filter (fun p => re_search (pattern p) text) (snd entry))).
Proof.
  intros Hi.
  destruct (scan_categories_indicators text (compiled_patterns self) ([], []) i Hi)
    as [Hnil | (entry & He & Hin)].
  - destruct Hnil.
  - exists entry. split; [exact He | exact Hin].
Qed.

Lemma detector_entries (entry : string * list Pattern) :
  In entry (compiled_patterns detector) ->
  exists (category : string) (patterns : list string),
    In (category, patterns) SCAM_PATTERNS /\
    entry = (category, List.map MkPattern patterns).
Proof.
  intros He. unfold detector, _compile_patterns in He. cbn [compiled_patterns] in He.
  apply in_map_iff in He. destruct He as ([k srcs] & <- & Hcat). eauto.
Qed.

(** At most ten indicators are reported and, when the iteration of a set
    yields only its elements, each one is a pattern of [SCAM_PATTERNS] that
    matches the transcript. *)
Theorem indicators_are_matching_patterns (messages : list Message) :
  (forall (xs : list string) (x : string), In x (set_order xs) -> In x xs) ->
  (List.length (indicators (detect_scam messages)) <= 10)%nat /\
  List.Forall
    (fun i =>
       exists (category : string) (patterns : list string),
         In (category, patterns) SCAM_PATTERNS /\ In i patterns /\
         re_search i (all_text_of messages) = true)
    (indicators (detect_scam messages)).
Proof.
  intros Horder.
  pose proof (scanned_indicators detector (all_text_of messages)) as Hfound.
  unfold detect_scam, detect. fold (all_text_of messages).
  destruct (scan_categories detector (all_text_of messages)) as [ind cm].
  cbn [fst] in Hfound.
  destruct cm as [|e rest]; cbn [truthy negb].
  { unfold no_indicators. cbn [indicators List.length]. split; [lia|constructor]. }
  cbn [indicators]. split; [apply List.firstn_le_length|].
  apply List.Forall_forall. intros i Hi.
  apply In_firstn_In in Hi. unfold list_of_set in Hi.
  apply Horder in Hi. apply In_unique_go in Hi. apply Hfound in Hi.
  destruct Hi as (entry & He & Hi).
  apply detector_entries in He. destruct He as (k & srcs & Hcat & ->).
  cbn [fst snd] in Hi. apply in_map_iff in Hi. destruct Hi as (q & <- & Hq).
  apply filter_In in Hq. destruct Hq as [Hq Hs].
  apply in_map_iff in Hq. destruct Hq as (src & <- & Hsrc).
  exists k, srcs. split; [exact Hcat|]. split; [exact Hsrc | exact Hs].
Qed.

End ClassifierOutputs.

(** ** The keywords that are reported *)

Section Keywords.
Context `{Platform}.

Lemma urgent_phrases_lower :
  forallb (fun phrase => String.eqb (Py.lower phrase) phrase) urgent_phrases = true.
Proof. vm_compute. reflexivity. Qed.

Lemma urgent_phrases_fold (text_lower : string) (phrases found : list string)
  (P : string -> Prop) :
  List.Forall P found ->
  (forall phrase : string,
     In phrase phrases -> Py.contains phrase text_lower = true -> P phrase) ->
  List.Forall P
    (fold_left
       (fun found phrase =>
          if Py.contains phrase text_lower && negb (Py.mem phrase found)
          then found ++ [phrase]
          else found)
       phrases found).
Proof.
  revert found. induction phrases as [|phrase phrases IH]; intros found Hfound Hp;
    cbn [fold_left]; [exact Hfound|].
  apply IH.
  - destruct (Py.contains phrase text_lower) eqn:Hc; cbn [andb]; [|exact Hfound].
    destruct (negb (Py.mem phrase found)); [|exact Hfound].
    apply List.Forall_app. split; [exact Hfound|].
    constructor; [|constructor]. apply Hp; [left; reflexivity | exact Hc].
  - intros q Hq. apply Hp. right. exact Hq.
Qed.

(** When the iteration of a set yields only its elements, every keyword
    that is reported is a keyword of the extractor or one of the urgent
    phrases, and occurs in the lower-cased text. *)
Theorem keywords_occur_in_text (self : IntelligenceExtractor) (text : string) :
  (forall (xs : list string) (x : string), In x (set_order xs) -> In x xs) ->
  List.Forall
    (fun keyword =>
       (In keyword (scam_keywords self) \/ In keyword urgent_phrases) /\
       Py.contains (Py.lower keyword) (Py.lower text) = true)
    (_extract_suspicious_keywords self text).
Proof.
  intros Horder. unfold _extract_suspicious_keywords.
  apply Forall_firstn_of. apply List.Forall_forall. intros k Hk.
  unfold list_of_set in Hk. apply Horder in Hk. apply In_unique_go in Hk.
  revert k Hk. apply List.Forall_forall.
  apply urgent_phrases_fold.
  - apply List.Forall_forall. intros k Hk. apply filter_In in Hk.
    destruct Hk as [Hk Hc]. split; [left; exact Hk | exact Hc].
  - intros phrase Hphrase Hc. split; [right; exact Hphrase|].
    pose proof urgent_phrases_lower as Hlow. rewrite forallb_forall in Hlow.
    apply Hlow in Hphrase. apply String.eqb_eq in Hphrase.
    rewrite Hphrase. exact Hc.
Qed.

End Keywords.

(** ** Runs of the strategy engine *)

Section StrategyRuns.

Lemma mark_extracted_flag (m : ConversationMemory) (key f : string) :
  extracted_flag m f = true -> extracted_flag (mark_extracted m key) f = true.
Proof.
  unfold mark_extracted, extracted_flag.
  destruct (extracted_so_far m !! key) eqn:Hk; cbn; [|tauto].
  destruct (decide (key = f)) as [->|Hne].
  - now rewrite lookup_insert_eq.
  - now rewrite lookup_insert_ne.
Qed.

Lemma mark_extracted_sets (m : ConversationMemory) (key : string) :
  is_Some (extracted_so_far m !! key) -> extracted_flag (mark_extracted m key) key = true.
Proof.
  intros [b Hb]. unfold mark_extracted, extracted_flag. rewrite Hb. cbn.
  now rewrite lookup_insert_eq.
Qed.

Lemma update_extracted_flag (m : ConversationMemory) (ex : ExtractedIntelligence)
  (f : string) :
  extracted_flag m f = true -> extracted_flag (update_extracted m ex) f = true.
Proof.
  intros Hf. unfold update_extracted.
  repeat match goal with
         | |- context [if ?b then _ else _] => destruct b
         end; repeat apply mark_extracted_flag; exact Hf.
Qed.

Lemma mark_extracted_keys (m : ConversationMemory) (key : string) :
  keys_present m -> keys_present (mark_extracted m key).
Proof.
  intros Hk f Hf. destruct (Hk f Hf) as [Ha He].
  unfold mark_extracted. destruct (extracted_so_far m !! key) eqn:E; [|split; assumption].
  cbn. split; [exact Ha|].
  destruct (decide (key = f)) as [->|Hne].
  - rewrite lookup_insert_eq. eauto.
  - rewrite lookup_insert_ne; assumption.
Qed.

Lemma update_extracted_keys (m : ConversationMemory) (ex : ExtractedIntelligence) :
  keys_present m -> keys_present (update_extracted m ex).
Proof.
  intros Hk. unfold update_extracted.
  repeat match goal with
         | |- context [if ?b then _ else _] => destruct b
         end; repeat apply mark_extracted_keys; exact Hk.
Qed.

Lemma update_extracted_sets (m : ConversationMemory) (ex : ExtractedIntelligence)
  (f : string) :
  keys_present m -> In f targets -> extracted_for f ex <> [] ->
  extracted_flag (update_extracted m ex) f = true.
Proof.
  intros Hk Hf Hex.
  set (mark_if := fun (b : bool) (key : string) (m0 : ConversationMemory) =>
                    if b then mark_extracted m0 key else m0).
  assert (Hkeep : forall b key m0 g,
            extracted_flag m0 g = true -> extracted_flag (mark_if b key m0) g = true).
  { intros [] key m0 g Hg; [apply mark_extracted_flag|]; exact Hg. }
  assert (Hkeys : forall b key m0, keys_present m0 -> keys_present (mark_if b key m0)).
  { intros [] key m0 H0; [apply mark_extracted_keys|]; exact H0. }
  assert (Hset : forall key m0 (l : list string),
            l <> [] -> In key targets -> keys_present m0 ->
            extracted_flag (mark_if (truthy l) key m0) key = true).
  { intros key m0 [|x l] Hl Hkey H0; [congruence|]. cbn.
    apply mark_extracted_sets, H0, Hkey. }
  change (update_extracted m ex)
    with (mark_if (truthy (phishingLinks ex)) "link"
            (mark_if (truthy (phoneNumbers ex)) "phone"
               (mark_if (truthy (bankAccounts ex)) "bank"
                  (mark_if (truthy (upiIds ex)) "upi" m)))).
  cbn in Hf. destruct Hf as [<- | [<- | [<- | [<- | []]]]]; cbn in Hex.
  - do 3 apply Hkeep. apply Hset; [exact Hex | cbn; auto | exact Hk].
  - do 2 apply Hkeep. apply Hset; [exact Hex | cbn; auto | auto].
  - apply Hkeep. apply Hset; [exact Hex | cbn; auto | auto].
  - apply Hset; [exact Hex | cbn; auto | auto].
Qed.

Lemma record_attempt_flag (m : ConversationMemory) (key f : string) :
  extracted_flag (record_extraction_attempt m key) f = extracted_flag m f.
Proof.
  unfold record_extraction_attempt.
  destruct (extraction_attempts m !! key); reflexivity.
Qed.

Lemma record_attempt_keys (m : ConversationMemory) (key : string) :
  keys_present m -> keys_present (record_extraction_attempt m key).
Proof.
  intros Hk f Hf. destruct (Hk f Hf) as [Ha He].
  unfold record_extraction_attempt.
  destruct (extraction_attempts m !! key) eqn:E; [|split; assumption].
  cbn. split; [|exact He].
  destruct (decide (key = f)) as [->|Hne].
  - rewrite lookup_insert_eq. eauto.
  - rewrite lookup_insert_ne; assumption.
Qed.

(** The memory after a call, by the branch taken. *)
Lemma generate_response_memory (a : AutonomousAgent) (ms : list Message)
  (ex : ExtractedIntelligence) (pick : nat) :
  match snd (fst (generate_response a ms ex pick)) with
  | ExtractionQuestion f =>
      In f targets /\
      extracted_flag (update_extracted (memory a) ex) f = false /\
      memory (fst (fst (generate_response a ms ex pick))) =
        record_extraction_attempt (update_extracted (memory a) ex) f
  | _ =>
      memory (fst (fst (generate_response a ms ex pick))) =
        update_extracted (memory a) ex \/
      (memory (fst (fst (generate_response a ms ex pick))) = memory a /\
       (last_scammer_msg ms = None \/ last_scammer_msg ms = Some EmptyString))
  end.
Proof.
  unfold generate_response.
  destruct (last_scammer_msg ms) as [[|c msg]|]; cbn [fst snd];
    try (right; split; [reflexivity | auto]).
  destruct (_determine_strategy _ _ _);
    try (destruct (extracted_flag _ _) eqn:Hflag; cbn [negb]);
    cbn [fst snd memory with_memory with_turn_count] in *;
    try (left; reflexivity);
    (split; [unfold targets; cbn [In]; auto 6 | split; [exact Hflag | reflexivity]]).
Qed.

Lemma generate_response_keys (a : AutonomousAgent) (ms : list Message)
  (ex : ExtractedIntelligence) (pick : nat) :
  keys_present (memory a) ->
  keys_present (memory (fst (fst (generate_response a ms ex pick)))).
Proof.
  intros Hk. pose proof (generate_response_memory a ms ex pick) as Hm.
  destruct (snd (fst (generate_response a ms ex pick)));
    try (destruct Hm as [-> | [-> _]]; [apply update_extracted_keys|]; exact Hk).
  destruct Hm as (_ & _ & ->). apply record_attempt_keys, update_extracted_keys, Hk.
Qed.

Lemma generate_response_flag (a : AutonomousAgent) (ms : list Message)
  (ex : ExtractedIntelligence) (pick : nat) (f : string) :
  extracted_flag (memory a) f = true ->
  extracted_flag (memory (fst (fst (generate_response a ms ex pick)))) f = true /\
  asks f (snd (fst (generate_response a ms ex pick))) = false.
Proof.
  intros Hf. pose proof (generate_response_memory a ms ex pick) as Hm.
  pose proof (update_extracted_flag (memory a) ex f Hf) as Hu.
  destruct (snd (fst (generate_response a ms ex pick))) as [g| | | | |];
    try (split; [destruct Hm as [-> | [-> _]]; assumption | reflexivity]).
  destruct Hm as (_ & Hg & ->). split.
  - rewrite record_attempt_flag. exact Hu.
  - cbn. destruct (String.eqb_spec g f) as [->|]; [congruence|reflexivity].
Qed.

(** The attempt counters after a call, by the branch taken. *)
Lemma generate_response_attempts (a : AutonomousAgent) (ms : list Message)
  (ex : ExtractedIntelligence) (pick : nat) :
  keys_present (memory a) ->
  match snd (fst (generate_response a ms ex pick)) with
  | ExtractionQuestion g =>
      In g targets /\
      (attempts_of (memory a) g < 2)%nat /\
      forall f : string,
        attempts_of (memory (fst (fst (generate_response a ms ex pick)))) f =
          if String.eqb g f then S (attempts_of (memory a) f) else attempts_of (memory a) f
  | _ =>
      forall f : string,
        attempts_of (memory (fst (fst (generate_response a ms ex pick)))) f =
          attempts_of (memory a) f
  end.
Proof.
  intros Hk. pose proof (generate_response_memory a ms ex pick) as Hm.
  pose proof (generate_response_step a ms ex pick) as Hs. cbv zeta in Hs.
  destruct Hs as (_ & _ & Hlt & _).
  destruct (snd (fst (generate_response a ms ex pick))) as [g| | | | |];
    try (intros f; destruct Hm as [-> | [-> _]];
         [apply update_extracted_attempts | reflexivity]).
  destruct Hm as (Hg & _ & ->). split; [exact Hg|].
  split; [apply (Hlt g eq_refl)|].
  intros f. rewrite attempts_of_record.
  destruct (update_extracted_keys (memory a) ex Hk g Hg) as [[n Hn] _].
  rewrite Hn.
  assert (Hng : attempts_of (update_extracted (memory a) ex) g = n)
    by (unfold attempts_of; rewrite Hn; reflexivity).
  rewrite update_extracted_attempts in Hng.
  destruct (decide (g = f)) as [->|Hne].
  - rewrite String.eqb_refl. congruence.
  - destruct (String.eqb_spec g f); [contradiction|]. apply update_extracted_attempts.
Qed.

Lemma new_memory_keys : keys_present new_memory.
Proof.
  intros f Hf. cbn in Hf.
  destruct Hf as [<- | [<- | [<- | [<- | []]]]]; split; vm_compute; eauto.
Qed.

Lemma field_budget (inputs : list AgentInput) :
  forall (a : AutonomousAgent) (f : string),
    keys_present (memory a) -> (attempts_of (memory a) f <= 2)%nat ->
    (count_kind (asks f) (agent_run a inputs) + attempts_of (memory a) f <= 2)%nat.
Proof.
  induction inputs as [|[[ms ex] pick] later IH]; intros a f Hk Hle; [cbn; lia|].
  cbn [agent_run]. unfold count_kind. cbn [List.filter fst].
  pose proof (generate_response_attempts a ms ex pick Hk) as Hatt.
  pose proof (generate_response_keys a ms ex pick Hk) as Hk'.
  specialize (IH (fst (fst (generate_response a ms ex pick))) f Hk').
  unfold count_kind in IH.
  destruct (snd (fst (generate_response a ms ex pick))) as [g| | | | |];
    cbn [asks]; try (rewrite (Hatt f) in IH; apply IH; exact Hle).
  destruct Hatt as (_ & Hlt & Hatt). rewrite (Hatt f) in IH.
  destruct (String.eqb_spec g f) as [Heq|Hne].
  - subst g. cbn [List.length]. specialize (IH ltac:(lia)). lia.
  - apply IH. exact Hle.
Qed.

Lemma total_budget (inputs : list AgentInput) :
  forall a : AutonomousAgent,
    keys_present (memory a) ->
    (forall f : string, attempts_of (memory a) f <= 2)%nat ->
    (count_kind is_question (agent_run a inputs) + total_attempts (memory a) <= 8)%nat.
Proof.
  induction inputs as [|[[ms ex] pick] later IH]; intros a Hk Hle.
  { cbn. unfold total_attempts. cbn.
    pose proof (Hle "upi"). pose proof (Hle "bank"). pose proof (Hle "phone").
    pose proof (Hle "link"). lia. }
  cbn [agent_run]. unfold count_kind. cbn [List.filter fst].
  pose proof (generate_response_attempts a ms ex pick Hk) as Hatt.
  pose proof (generate_response_keys a ms ex pick Hk) as Hk'.
  specialize (IH (fst (fst (generate_response a ms ex pick))) Hk').
  unfold count_kind in IH.
  destruct (snd (fst (generate_response a ms ex pick))) as [g| | | | |];
    cbn [is_question];
    try (assert (Ht : total_attempts
                        (memory (fst (fst (generate_response a ms ex pick))))
                      = total_attempts (memory a))
           by (unfold total_attempts; cbn; rewrite !Hatt; reflexivity);
         rewrite Ht in IH; apply IH; intros f; rewrite Hatt; apply Hle).
  destruct Hatt as (Hg & Hlt & Hatt).
  assert (Hle' : forall f : string,
            (attempts_of (memory (fst (fst (generate_response a ms ex pick)))) f <= 2)%nat).
  { intros f. rewrite Hatt. destruct (String.eqb_spec g f) as [->|]; [lia|apply Hle]. }
  specialize (IH Hle'). cbn [List.length].
  assert (Ht : total_attempts (memory (fst (fst (generate_response a ms ex pick))))
               = S (total_attempts (memory a))).
  { unfold total_attempts. cbn [targets List.map list_sum]. rewrite !Hatt.
    cbn in Hg. destruct Hg as [<- | [<- | [<- | [<- | []]]]]; cbn; lia. }
  lia.
Qed.

(** An agent asks at most two extraction questions per target and at most
    eight in its life, whatever it is sent. *)
Theorem question_budget (session_id : string) (t : ScamType) (pick : nat) (now : Z)
  (inputs : list AgentInput) :
  let run := agent_run (create_agent session_id t pick now) inputs in
  (count_kind is_question run <= 8)%nat /\
  (forall f : string, count_kind (asks f) run <= 2)%nat.
Proof.
  cbn zeta. split.
  - pose proof (total_budget inputs (create_agent session_id t pick now)
                  new_memory_keys) as Hb.
    assert (H0 : forall f : string,
              (attempts_of (memory (create_agent session_id t pick now)) f <= 2)%nat).
    { intros f. pose proof (reachable_attempts_le_turns _
                              (reachable_new session_id t pick now) f) as Hr.
      cbn [turn_count create_agent] in Hr. lia. }
    specialize (Hb H0). lia.
  - intros f.
    pose proof (field_budget inputs (create_agent session_id t pick now) f
                  new_memory_keys) as Hb.
    pose proof (reachable_attempts_le_turns _
                  (reachable_new session_id t pick now) f) as Hr.
    cbn [turn_count create_agent] in Hr. specialize (Hb ltac:(lia)). lia.
Qed.

Lemma reachable_keys (a : AutonomousAgent) : reachable a -> keys_present (memory a).
Proof.
  induction 1 as [sid t pick now | a ms ex pick Hr IH].
  - exact new_memory_keys.
  - apply generate_response_keys. exact IH.
Qed.

Lemma flag_blocks_questions (inputs : list AgentInput) :
  forall (a : AutonomousAgent) (f : string),
    extracted_flag (memory a) f = true ->
    List.Forall (fun r => asks f (fst r) = false) (agent_run a inputs).
Proof.
  induction inputs as [|[[ms ex] pick] later IH]; intros a f Hf; [constructor|].
  cbn [agent_run]. destruct (generate_response_flag a ms ex pick f Hf) as [Hf' Hask].
  constructor; [exact Hask|]. apply IH. exact Hf'.
Qed.

(** Once a call with a scammer message has shown the agent a value for a
    target, neither that call nor any later call asks for that target, even
    if later calls pass an intelligence record without it. *)
Theorem seen_field_is_not_asked_again (a : AutonomousAgent) (f : string)
  (ms : list Message) (ex : ExtractedIntelligence) (pick : nat) :
  reachable a -> In f targets ->
  extracted_for f ex <> [] ->
  (exists (c : ascii) (rest : string), last_scammer_msg ms = Some (String c rest)) ->
  asks f (snd (fst (generate_response a ms ex pick))) = false /\
  forall inputs : list AgentInput,
    List.Forall (fun r => asks f (fst r) = false)
      (agent_run (fst (fst (generate_response a ms ex pick))) inputs).
Proof.
  intros Hr Hf Hex (c & rest & Hlast).
  pose proof (update_extracted_sets (memory a) ex f (reachable_keys a Hr) Hf Hex) as Hu.
  pose proof (generate_response_memory a ms ex pick) as Hm.
  assert (Hflag : extracted_flag (memory (fst (fst (generate_response a ms ex pick)))) f
                  = true /\
                  asks f (snd (fst (generate_response a ms ex pick))) = false).
  { destruct (snd (fst (generate_response a ms ex pick))) as [g| | | | |];
      try (split; [|reflexivity];
           destruct Hm as [-> | [_ [Hn | Hn]]]; [exact Hu | congruence | congruence]).
    destruct Hm as (_ & Hg & ->). split; [rewrite record_attempt_flag; exact Hu|].
    cbn. destruct (String.eqb_spec g f) as [Heq|Hne]; [congruence | reflexivity]. }
  split; [apply Hflag|].
  intros inputs. apply flag_blocks_questions. apply Hflag.
Qed.

End StrategyRuns.

(** ** The turn limit and the topic window *)

Lemma all_replies_nonempty :
  forallb (fun s => negb (String.eqb s EmptyString))
    (other_texts ++ flat_map question_texts targets) = true.
Proof. vm_compute. reflexivity. Qed.

Lemma reply_nonempty (a : AutonomousAgent) (ms : list Message)
  (ex : ExtractedIntelligence) (pick : nat) :
  In (persona a) PERSONAS_values ->
  snd (generate_response a ms ex pick) <> EmptyString.
Proof.
  intros Hp. pose proof (generate_response_text a ms ex pick Hp) as Ht.
  pose proof all_replies_nonempty as Hall.
  rewrite forallb_forall in Hall.
  assert (Hin : In (snd (generate_response a ms ex pick))
                  (other_texts ++ flat_map question_texts targets)).
  { apply in_or_app.
    destruct (snd (fst (generate_response a ms ex pick))) as [g| | | | |];
      try (left; exact Ht).
    right. apply in_flat_map. exists g. exact Ht. }
  apply Hall in Hin. intros Heq. rewrite Heq in Hin. discriminate.
Qed.

Section TurnLimit.
Context `{Platform}.

Lemma agent_after_turn_count (inputs : list AgentInput) :
  forall a : AutonomousAgent,
    turn_count (agent_after a inputs) = (turn_count a + List.length inputs)%nat.
Proof.
  induction inputs as [|[[ms ex] pick] later IH]; intros a; cbn [agent_after List.length];
    [lia|].
  rewrite IH. destruct (generate_response_step a ms ex pick) as (Htc & _).
  cbv zeta in Htc. rewrite Htc. lia.
Qed.

Lemma agent_run_nonempty (inputs : list AgentInput) :
  forall a : AutonomousAgent,
    In (persona a) PERSONAS_values ->
    List.length (agent_run a inputs) = List.length inputs /\
    List.Forall (fun r => snd r <> EmptyString) (agent_run a inputs).
Proof.
  induction inputs as [|[[ms ex] pick] later IH]; intros a Hp; cbn [agent_run List.length];
    [split; [reflexivity|constructor]|].
  destruct (IH (fst (fst (generate_response a ms ex pick)))) as [Hl Hf].
  { rewrite generate_response_persona. exact Hp. }
  split; [rewrite Hl; reflexivity|].
  constructor; [|exact Hf]. cbn [snd]. apply reply_nonempty, Hp.
Qed.

(** [turn_count] counts the calls of [generate_response];
    [should_continue] turns false at [MAX_CONVERSATION_TURNS] calls; and the
    agent goes on producing a non-empty reply on every call, before and
    after. *)
Theorem agent_replies_past_turn_limit (session_id : string) (t : ScamType)
  (pick : nat) (now : Z) (inputs : list AgentInput) :
  let a0 := create_agent session_id t pick now in
  turn_count (agent_after a0 inputs) = List.length inputs /\
  should_continue (agent_after a0 inputs) =
    (List.length inputs <? MAX_CONVERSATION_TURNS settings)%nat /\
  List.length (agent_run a0 inputs) = List.length inputs /\
  List.Forall (fun r => snd r <> EmptyString) (agent_run a0 inputs).
Proof.
  cbn zeta.
  assert (Htc : turn_count (agent_after (create_agent session_id t pick now) inputs)
                = List.length inputs)
    by (rewrite agent_after_turn_count; reflexivity).
  split; [exact Htc|]. split.
  - unfold should_continue. rewrite Htc.
    destruct (Nat.leb_spec (MAX_CONVERSATION_TURNS settings) (List.length inputs)),
      (Nat.ltb_spec (List.length inputs) (MAX_CONVERSATION_TURNS settings));
      cbn; try reflexivity; lia.
  - apply agent_run_nonempty. apply reachable_persona, reachable_new.
Qed.

End TurnLimit.

(** *** The topic window *)
Lemma last_n_app_last_n {A : Type} (n : nat) (l r : list A) :
  last_n n (last_n n l ++ r) = last_n n (l ++ r).
Proof.
  unfold last_n. set (k := (List.length l - n)%nat).
  set (j := (List.length l - k + List.length r - n)%nat).
  assert (E1 : (List.length (skipn k l ++ r) - n)%nat = j)
    by (rewrite List.length_app, List.length_skipn; reflexivity).
  assert (E2 : (List.length (l ++ r) - n)%nat = (j + k)%nat)
    by (rewrite List.length_app; unfold j, k; lia).
  rewrite E1, E2, <- List.skipn_skipn, (List.skipn_app k l r).
  replace (k - List.length l)%nat with 0%nat by (unfold k; lia).
  reflexivity.
Qed.

Lemma add_topic_window (m : ConversationMemory) (topic : string) :
  last_topics (add_topic m topic) = last_n 5 (last_topics m ++ [topic]).
Proof.
  unfold add_topic, last_n.
  destruct (Nat.ltb_spec 5 (List.length (last_topics m ++ [topic]))); cbn [last_topics with_last_topics];
    [reflexivity|].
  replace (List.length (last_topics m ++ [topic]) - 5)%nat with 0%nat by lia.
  reflexivity.
Qed.

Lemma last_n_idem {A : Type} (n : nat) (l : list A) : last_n n (last_n n l) = last_n n l.
Proof.
  pose proof (last_n_app_last_n n l []) as Hl. rewrite !app_nil_r in Hl. exact Hl.
Qed.

Lemma add_topics_window (ts : list string) :
  forall m : ConversationMemory,
    last_n 5 (last_topics (fold_left add_topic ts m)) = last_n 5 (last_topics m ++ ts).
Proof.
  induction ts as [|t ts IH]; intros m; cbn [fold_left].
  - rewrite app_nil_r. reflexivity.
  - rewrite IH, add_topic_window, last_n_app_last_n, <- app_assoc. reflexivity.
Qed.

Lemma unique_go_spec (xs seen : list string) :
  List.NoDup (unique_go seen xs) /\
  forall x : string, In x (unique_go seen xs) <-> In x xs /\ ~ In x seen.
Proof.
  revert seen. induction xs as [|y r IH]; intros seen; cbn [unique_go].
  { split; [constructor|]. intros x. cbn. tauto. }
  destruct (Py.mem y seen) eqn:Hmem.
  - apply mem_In in Hmem. destruct (IH seen) as [Hnd Hin]. split; [exact Hnd|].
    intros x. rewrite Hin. cbn. split; [tauto|].
    intros [[<-|Hx] Hns]; [contradiction|tauto].
  - assert (Hny : ~ In y seen).
    { intros Hy. apply mem_In in Hy. congruence. }
    destruct (IH (y :: seen)) as [Hnd Hin]. split.
    + constructor; [|exact Hnd]. rewrite Hin. cbn. tauto.
    + intros x. cbn. rewrite Hin. cbn.
      destruct (string_dec y x) as [->|Hne]; tauto.
Qed.

Lemma get_repeated_topics_filter (m : ConversationMemory) :
  get_repeated_topics m =
    List.filter (fun t => (1 <? occurrences t (last_topics m))%nat)
      (unique (last_topics m)).
Proof.
  unfold get_repeated_topics, Counter, occurrences.
  induction (unique (last_topics m)) as [|t r IH]; [reflexivity|].
  cbn [List.map List.filter snd].
  destruct (1 <? _)%nat; cbn [List.map fst]; rewrite IH; reflexivity.
Qed.

Lemma filter_split_length {A : Type} (p : A -> bool) (l : list A) :
  List.length l =
    (List.length (List.filter p l) + List.length (List.filter (fun x => negb (p x)) l))%nat.
Proof.
  induction l as [|x l IH]; [reflexivity|].
  cbn [List.filter]. destruct (p x); cbn [negb List.length]; lia.
Qed.

Lemma occurrences_without (t u : string) (xs : list string) :
  t <> u ->
  occurrences u (List.filter (fun x => negb (String.eqb t x)) xs) = occurrences u xs.
Proof.
  intros Hne. unfold occurrences. induction xs as [|x xs IH]; [reflexivity|].
  cbn [List.filter].
  destruct (String.eqb_spec t x) as [<-|Htx]; cbn [negb].
  - destruct (String.eqb_spec u t) as [->|]; [congruence|]. exact IH.
  - cbn [List.filter]. destruct (String.eqb u x); cbn [List.length]; rewrite IH; reflexivity.
Qed.

(** Distinct topics that each occur twice take two places each. *)
Lemma repeated_take_two_places (ts : list string) :
  forall xs : list string,
    List.NoDup ts ->
    (forall t : string, In t ts -> 2 <= occurrences t xs)%nat ->
    (2 * List.length ts <= List.length xs)%nat.
Proof.
  induction ts as [|t ts IH]; intros xs Hnd Hocc; [cbn; lia|].
  inversion Hnd as [|? ? Hnt Hnd']; subst.
  specialize (IH (List.filter (fun x => negb (String.eqb t x)) xs) Hnd').
  assert (Hrest : forall u : string, In u ts ->
            (2 <= occurrences u (List.filter (fun x => negb (String.eqb t x)) xs))%nat).
  { intros u Hu. rewrite occurrences_without.
    - apply Hocc. right. exact Hu.
    - intros ->. contradiction. }
  specialize (IH Hrest).
  pose proof (filter_split_length (String.eqb t) xs) as Hsplit.
  pose proof (Hocc t (or_introl eq_refl)) as Ht. unfold occurrences in Ht.
  cbn [List.length]. lia.
Qed.

Lemma last_n_length {A : Type} (n : nat) (l : list A) : (List.length (last_n n l) <= n)%nat.
Proof. unfold last_n. rewrite List.length_skipn. lia. Qed.

Lemma add_topics_length (ts : list string) (m : ConversationMemory) :
  (List.length (last_topics m) <= 5)%nat ->
  (List.length (last_topics (fold_left add_topic ts m)) <= 5)%nat.
Proof.
  revert m. induction ts as [|t ts IH]; intros m Hm; cbn [fold_left]; [exact Hm|].
  apply IH. rewrite add_topic_window. apply last_n_length.
Qed.

(** After any sequence of [add_topic] the memory holds the last five
    topics in order; [get_repeated_topics] lists, once each, the topics that
    occur at least twice among them, so at most two. *)
Theorem topic_window_keeps_last_five (ts : list string) :
  let m := fold_left add_topic ts new_memory in
  last_topics m = last_n 5 ts /\
  List.NoDup (get_repeated_topics m) /\
  (forall t : string,
     In t (get_repeated_topics m) <-> (2 <= occurrences t (last_topics m))%nat) /\
  (List.length (get_repeated_topics m) <= 2)%nat.
Proof.
  cbn zeta. set (m := fold_left add_topic ts new_memory).
  assert (Hlen : (List.length (last_topics m) <= 5)%nat)
    by (apply add_topics_length; cbn; lia).
  assert (Hwin : last_topics m = last_n 5 ts).
  { pose proof (add_topics_window ts new_memory) as Hw. fold m in Hw.
    cbn [last_topics new_memory app] in Hw. rewrite <- Hw.
    unfold last_n. replace (List.length (last_topics m) - 5)%nat with 0%nat by lia.
    reflexivity. }
  destruct (unique_go_spec (last_topics m) []) as [Hnd Hin].
  assert (Hmem : forall t : string,
            In t (get_repeated_topics m) <-> (2 <= occurrences t (last_topics m))%nat).
  { intros t. rewrite get_repeated_topics_filter, filter_In.
    unfold unique. rewrite Hin. split.
    - intros [_ Hlt]. apply Nat.ltb_lt in Hlt. lia.
    - intros Hocc. split; [|apply Nat.ltb_lt; lia].
      split; [|intros []].
      unfold occurrences in Hocc.
      destruct (List.filter (String.eqb t) (last_topics m)) as [|x r] eqn:Hf;
        [cbn in Hocc; lia|].
      assert (Hx : In x (List.filter (String.eqb t) (last_topics m)))
        by (rewrite Hf; left; reflexivity).
      apply filter_In in Hx. destruct Hx as [Hx Hxt].
      apply String.eqb_eq in Hxt. subst x. exact Hx. }
  assert (Hnd' : List.NoDup (get_repeated_topics m)).
  { rewrite get_repeated_topics_filter. apply List.NoDup_filter. exact Hnd. }
  split; [exact Hwin|]. split; [exact Hnd'|]. split; [exact Hmem|].
  pose proof (repeated_take_two_places (get_repeated_topics m) (last_topics m) Hnd'
                (fun t Ht => proj1 (Hmem t) Ht)) as Htwo.
  lia.
Qed.

(** ** The summary of the intelligence *)

Lemma digit_char_isdigit (n : nat) : Py.isdigit (digit_char n) = true.
Proof.
  unfold digit_char, Py.isdigit, Py.in_range.
  pose proof (Nat.mod_upper_bound n 10 ltac:(lia)) as Hlt.
  rewrite nat_ascii_embedding by lia.
  apply andb_true_intro. split; apply Nat.leb_le; lia.
Qed.

Lemma str_of_nat_go_digit (fuel n : nat) (acc : string) :
  (0 < fuel)%nat \/ starts_with_digit acc ->
  starts_with_digit (str_of_nat_go fuel n acc).
Proof.
  revert n acc. induction fuel as [|f IH]; intros n acc Hstart; cbn [str_of_nat_go].
  - destruct Hstart as [Hf|Hacc]; [lia|exact Hacc].
  - assert (Hacc' : starts_with_digit (String (digit_char n) acc)).
    { exists (digit_char n), acc. split; [reflexivity|apply digit_char_isdigit]. }
    destruct (n <? 10)%nat; [exact Hacc'|]. apply IH. right. exact Hacc'.
Qed.

Lemma str_of_nat_digit (n : nat) : starts_with_digit (str_of_nat n).
Proof. apply str_of_nat_go_digit. left. lia. Qed.

Lemma join_starts_with_digit (sep : string) (n : nat) (label : string)
  (rest : list string) :
  starts_with_digit (Py.join sep ((str_of_nat n +:+ label) :: rest)).
Proof.
  destruct (str_of_nat_digit n) as (c & r & Heq & Hc).
  unfold Py.join. cbn [String.concat]. rewrite Heq.
  destruct rest; rewrite !string_app_cons; eexists _, _; split; try reflexivity; exact Hc.
Qed.

(** [get_summary] answers ["No actionable intelligence"] exactly when the
    bank accounts, UPI ids, links and phone numbers are all empty: IFSC codes
    are not counted, although [has_intelligence] counts them. *)
Theorem summary_counts_four_lists (i : ExtractedIntelligence) :
  (get_summary i = "No actionable intelligence" <->
   bankAccounts i = [] /\ upiIds i = [] /\ phishingLinks i = [] /\ phoneNumbers i = []) /\
  (get_summary i <> "No actionable intelligence" -> has_intelligence i = true) /\
  (has_intelligence i = true -> get_summary i = "No actionable intelligence" ->
   ifscCodes i <> []).
Proof.
  assert (Hiff : get_summary i = "No actionable intelligence" <->
                 bankAccounts i = [] /\ upiIds i = [] /\ phishingLinks i = [] /\
                 phoneNumbers i = []).
  { split.
    - intros Hs. unfold get_summary in Hs.
      destruct (bankAccounts i) as [|b bs], (upiIds i) as [|u us],
        (phishingLinks i) as [|l ls], (phoneNumbers i) as [|p ps];
        cbn [truthy app] in Hs; try (repeat split; reflexivity); exfalso;
        match type of Hs with
        | Py.join ?sep ((str_of_nat ?n +:+ ?label) :: ?rest) = _ =>
            destruct (join_starts_with_digit sep n label rest) as (c & r & Heq & Hc);
            rewrite Heq in Hs; injection Hs as Hc' _; rewrite Hc' in Hc; discriminate Hc
        end.
    - intros (Hb & Hu & Hl & Hp). unfold get_summary. rewrite Hb, Hu, Hl, Hp. reflexivity. }
  split; [exact Hiff|]. split.
  - intros Hne. apply has_intelligence_spec.
    destruct (bankAccounts i) eqn:Hb; [|left; discriminate].
    destruct (upiIds i) eqn:Hu; [|right; right; left; discriminate].
    destruct (phishingLinks i) eqn:Hl; [|right; right; right; left; discriminate].
    destruct (phoneNumbers i) eqn:Hp; [|right; right; right; right; discriminate].
    exfalso. apply Hne. apply Hiff. repeat split; reflexivity.
  - intros Hhas Hs. apply Hiff in Hs. destruct Hs as (Hb & Hu & Hl & Hp).
    apply has_intelligence_spec in Hhas.
    destruct Hhas as [?|[?|[?|[?|?]]]]; try contradiction. assumption.
Qed.

(** ** Turns of the coordinator *)

Section Turns.
Context `{Platform}.

#[local] Open Scope Q_scope.

Lemma Qle_bool_Qeq (t a b : Q) : a == b -> Qle_bool t a = Qle_bool t b.
Proof.
  intros Hab. destruct (Qle_bool t a) eqn:Ha, (Qle_bool t b) eqn:Hb; try reflexivity.
  - apply Qle_bool_iff in Ha. rewrite Hab in Ha. apply Qle_bool_iff in Ha. congruence.
  - apply Qle_bool_iff in Hb. rewrite <- Hab in Hb. apply Qle_bool_iff in Hb. congruence.
Qed.

(** On exact scores the second test of the hand-off condition never
    decides. *)
Lemma handoff_condition (ms : list Message) :
  scamDetected (detect_scam ms)
  && Qle_bool (SCAM_DETECTION_THRESHOLD settings) (confidenceScore (detect_scam ms))
  = scamDetected (detect_scam ms).
Proof.
  pose proof (detect_cases ms) as Hd.
  destruct (matched_categories ms) as [|e rest].
  - rewrite Hd. reflexivity.
  - rewrite Hd. cbn [scamDetected confidenceScore].
    rewrite (Qle_bool_Qeq _ _ _ (round2_is_centi _ (confidence_is_centi _ _))).
    apply andb_diag.
Qed.

#[local] Close Scope Q_scope.

Lemma incoming_session_messages (w : World) (request : IncomingRequest) (env : TurnEnv) :
  messages (incoming_session w request env) =
    prior_messages w (req_sessionId request) ++ [req_message request]
    ++ fresh_history w request.
Proof.
  unfold incoming_session, fresh_history, prior_messages, add_history.
  destruct (get_session (db w) (req_sessionId request)) as [row|];
    destruct (req_conversationHistory request) as [|h hs];
    cbn [truthy with_messages messages new_session];
    try (rewrite <- app_assoc); try reflexivity;
    cbn [List.filter]; rewrite ?app_nil_r; reflexivity.
Qed.

Lemma steps_hand_off (w : World) (request : IncomingRequest) (env : TurnEnv) :
  let s0 := incoming_session w request env in
  let p := steps_1_to_4 w request env s0 in
  let r :=
    generate_response (agent_before w request env) (messages s0)
      (merge_intelligence (extractedIntelligence s0) (extract_intelligence (messages s0)))
      (reply_pick env) in
  p_detection p = detect_scam (messages s0) /\
  totalMessagesExchanged (engagementMetrics (p_session p))
    = List.length (messages (p_session p)) /\
  numberOfTurns (engagementMetrics (p_session p))
    = count_sender scammer (messages (p_session p)) /\
  if scamDetected (detect_scam (messages s0))
  then
    p_agents p = <[req_sessionId request := fst (fst r)]> (active_agents w) /\
    p_reply p = snd r /\
    messages (p_session p) = messages s0 ++ [MkMessage agent (snd r) None]
  else
    p_agents p = active_agents w /\
    p_reply p = neutral_reply /\
    messages (p_session p) = messages s0.
Proof.
  cbv zeta. unfold steps_1_to_4, agent_before.
  set (s0 := incoming_session w request env).
  rewrite handoff_condition.
  destruct (scamDetected (detect_scam (messages s0))).
  - cbn [with_detection with_intelligence messages extractedIntelligence].
    destruct (generate_response _ _ _ _) as [[a k] reply].
    cbn. repeat split; reflexivity.
  - cbn. repeat split; reflexivity.
Qed.

Lemma prepare_steps (w : World) (request : IncomingRequest) (env : TurnEnv)
  (p : Prepared) :
  prepare w request env = Some p ->
  p = steps_1_to_4 w request env (incoming_session w request env).
Proof.
  unfold prepare.
  destruct (req_metadata request), rejects_undeclared_fields; congruence.
Qed.

Lemma deliver_shape (w : World) (session_id : string) (p : Prepared) (env : TurnEnv) :
  active_agents (world_after (deliver w session_id p env)) = p_agents p /\
  outcome (deliver w session_id p env) = Responded (MkAgentResponse success (p_reply p)) /\
  exists s : SessionState,
    session_after (deliver w session_id p env) = Some s /\
    messages s = messages (p_session p) /\
    engagementMetrics s = engagementMetrics (p_session p) /\
    sessionId s = sessionId (p_session p) /\
    detectionResult s = detectionResult (p_session p).
Proof.
  unfold deliver. destruct (should_send_callback p).
  - destruct (save_session _ _) as [d1 b1]. unfold send_guvi_callback.
    destruct (match post_status env with Some code => (code =? 200)%nat | None => false end).
    + unfold mark_callback_sent. destruct (save_session _ _).
      cbn. repeat split. eexists. split; [reflexivity|].
      destruct (p_agents p !! session_id); cbn; repeat split; reflexivity.
    + destruct (save_session _ _).
      cbn. repeat split. eexists. split; [reflexivity|].
      destruct (p_agents p !! session_id); cbn; repeat split; reflexivity.
  - destruct (save_session _ _). cbn. repeat split. eexists. split; [reflexivity|].
    cbn; repeat split; reflexivity.
Qed.

(** With the default detection threshold 0.6 the agent is engaged exactly
    when the classifier reports a scam: the second test of the hand-off
    condition, on the rounded score, does not decide. When it is engaged the
    agent's reply is the reply of the turn and is appended to the transcript;
    otherwise the reply is the neutral sentence and neither [active_agents]
    nor the transcript changes. *)
Theorem agent_engaged_iff_detected (w : World) (request : IncomingRequest)
  (env : TurnEnv) (p : Prepared) :
  (SCAM_DETECTION_THRESHOLD settings == 6 # 10)%Q ->
  prepare w request env = Some p ->
  let s0 := incoming_session w request env in
  let r :=
    generate_response (agent_before w request env) (messages s0)
      (extractedIntelligence (p_session p)) (reply_pick env) in
  scamDetected (p_detection p) && Qle_bool (SCAM_DETECTION_THRESHOLD settings)
                                    (confidenceScore (p_detection p))
    = scamDetected (p_detection p) /\
  if scamDetected (p_detection p)
  then
    p_agents p = <[req_sessionId request := fst (fst r)]> (active_agents w) /\
    p_reply p = snd r /\
    messages (p_session p) = messages s0 ++ [MkMessage agent (p_reply p) None]
  else
    p_agents p = active_agents w /\
    p_reply p = neutral_reply /\
    messages (p_session p) = messages s0.
Proof.
  intros _ Hp. cbv zeta.
  destruct (prepare_spec _ _ _ _ Hp) as (_ & _ & Hex & _).
  apply prepare_steps in Hp.
  destruct (steps_hand_off w request env) as (Hd & _ & _ & Hbranch).
  cbv zeta in Hd, Hbranch. rewrite <- Hp in Hd, Hbranch.
  rewrite Hd, Hex. split; [apply handoff_condition|].
  destruct (scamDetected (detect_scam (messages (incoming_session w request env)))).
  - destruct Hbranch as (Ha & Hr & Hm).
    split; [exact Ha | split; [exact Hr | rewrite Hr; exact Hm]].
  - exact Hbranch.
Qed.

Lemma generate_response_identity (a : AutonomousAgent) (ms : list Message)
  (ex : ExtractedIntelligence) (pick : nat) :
  agent_session_id (fst (fst (generate_response a ms ex pick))) = agent_session_id a /\
  scam_type (fst (fst (generate_response a ms ex pick))) = scam_type a /\
  persona (fst (fst (generate_response a ms ex pick))) = persona a /\
  start_time (fst (fst (generate_response a ms ex pick))) = start_time a.
Proof.
  unfold generate_response.
  destruct (last_scammer_msg ms) as [[|c msg]|]; cbn; try (repeat split; reflexivity).
  destruct (_determine_strategy _ _ _);
    try (destruct (negb (extracted_flag _ _)));
    cbn; repeat split; reflexivity.
Qed.

(** What a turn leaves in [active_agents]. *)
Lemma turn_agents (w : World) (request : IncomingRequest) (env : TurnEnv) :
  active_agents (world_after (scam_detection w request env)) = active_agents w \/
  exists (ms : list Message) (ex : ExtractedIntelligence),
    active_agents (world_after (scam_detection w request env)) =
      <[req_sessionId request :=
          fst (fst (generate_response (agent_before w request env) ms ex (reply_pick env)))]>
        (active_agents w).
Proof.
  unfold scam_detection. destruct (negb _); [left; reflexivity|].
  destruct (prepare w request env) as [p|] eqn:Hp; [|left; reflexivity].
  destruct (deliver_shape w (req_sessionId request) p env) as (-> & _).
  apply prepare_steps in Hp.
  destruct (steps_hand_off w request env) as (_ & _ & _ & Hbranch).
  cbv zeta in Hbranch. rewrite <- Hp in Hbranch.
  destruct (scamDetected _).
  - right. destruct Hbranch as (-> & _). eauto.
  - left. apply Hbranch.
Qed.

(** A turn leaves the agents of other sessions alone, and an agent that is
    registered for the session is kept: same persona, scam type and start
    time, with at most one more turn counted. *)
Theorem turn_touches_one_agent (w : World) (request : IncomingRequest) (env : TurnEnv) :
  let r := scam_detection w request env in
  (forall other : string,
     other <> req_sessionId request ->
     active_agents (world_after r) !! other = active_agents w !! other) /\
  (forall a : AutonomousAgent,
     active_agents w !! req_sessionId request = Some a ->
     exists a' : AutonomousAgent,
       active_agents (world_after r) !! req_sessionId request = Some a' /\
       agent_session_id a' = agent_session_id a /\
       scam_type a' = scam_type a /\
       persona a' = persona a /\
       start_time a' = start_time a /\
       (turn_count a <= turn_count a' <= S (turn_count a))%nat).
Proof.
  cbv zeta. destruct (turn_agents w request env) as [-> | (ms & ex & ->)].
  - split; [reflexivity|]. intros a Ha. exists a. repeat split; try assumption; lia.
  - split.
    + intros other Hne. apply lookup_insert_ne. congruence.
    + intros a Ha. rewrite lookup_insert_eq. eexists. split; [reflexivity|].
      unfold agent_before. rewrite Ha.
      destruct (generate_response_identity a ms ex (reply_pick env)) as (? & ? & ? & ?).
      destruct (generate_response_step a ms ex (reply_pick env)) as (Htc & _).
      cbv zeta in Htc. rewrite Htc. repeat split; try assumption; lia.
Qed.

Lemma agent_before_persona (w : World) (request : IncomingRequest) (env : TurnEnv) :
  personas_known w -> In (persona (agent_before w request env)) PERSONAS_values.
Proof.
  intros Hw. unfold agent_before.
  destruct (active_agents w !! req_sessionId request) as [a|] eqn:Ha.
  - exact (Hw _ _ Ha).
  - apply reachable_persona, reachable_new.
Qed.

Lemma turn_personas_known (w : World) (request : IncomingRequest) (env : TurnEnv) :
  personas_known w -> personas_known (world_after (scam_detection w request env)).
Proof.
  intros Hw. destruct (turn_agents w request env) as [Heq | (ms & ex & Heq)];
    intros sid a; rewrite Heq; [apply Hw|].
  destruct (decide (req_sessionId request = sid)) as [<-|Hne].
  - rewrite lookup_insert_eq. intros [= <-].
    rewrite generate_response_persona. apply agent_before_persona, Hw.
  - rewrite lookup_insert_ne by exact Hne. apply Hw.
Qed.

Lemma turn_answers_something (w : World) (request : IncomingRequest) (env : TurnEnv) :
  personas_known w -> answers_something (scam_detection w request env).
Proof.
  intros Hw. unfold answers_something, scam_detection.
  destruct (negb _); [exact I|].
  destruct (prepare w request env) as [p|] eqn:Hp; [|cbn; discriminate].
  destruct (deliver_shape w (req_sessionId request) p env) as (_ & -> & _).
  cbn [reply]. apply prepare_steps in Hp.
  destruct (steps_hand_off w request env) as (_ & _ & _ & Hbranch).
  cbv zeta in Hbranch. rewrite <- Hp in Hbranch.
  destruct (scamDetected _).
  - destruct Hbranch as (_ & -> & _). apply reply_nonempty, agent_before_persona, Hw.
  - destruct Hbranch as (_ & -> & _). discriminate.
Qed.

Lemma run_answers_something (turns : list (IncomingRequest * TurnEnv)) :
  forall w : World,
    personas_known w -> List.Forall answers_something (run_turns w turns).
Proof.
  induction turns as [|[request env] later IH]; intros w Hw; cbn [run_turns];
    [constructor|].
  constructor; [apply turn_answers_something, Hw|].
  apply IH, turn_personas_known, Hw.
Qed.

(** From a fresh process every turn is refused or answered with a
    non-empty reply, and every request gets its result. *)
Theorem every_turn_answers_something (turns : list (IncomingRequest * TurnEnv)) :
  List.Forall answers_something (run_turns empty_world turns) /\
  List.length (run_turns empty_world turns) = List.length turns.
Proof.
  split.
  - apply run_answers_something. intros sid a Ha. cbn in Ha.
    rewrite lookup_empty in Ha. discriminate.
  - generalize empty_world. induction turns as [|[request env] later IH]; intros w;
      cbn [run_turns List.length]; [reflexivity|]. rewrite IH. reflexivity.
Qed.

Lemma count_sender_le (who : Sender) (ms : list Message) :
  (count_sender who ms <= List.length ms)%nat.
Proof. unfold count_sender. apply List.filter_length_le. Qed.

(** Every payload that a turn posts carries the session id, reports
    [scamDetected = true], holds at least one actionable identifier and counts
    at least [MIN_TURNS_BEFORE_CALLBACK] messages. With the default detection
    threshold 0.6 the agent of the session is registered when the payload is
    built, and the payload carries the notes generated by that agent. In step
    5 itself, for any state handed to it, the notes are those generated by the
    registered agent, and the notes stored on the session when no agent is
    registered. *)
Theorem posted_payload_facts (w : World) (request : IncomingRequest) (env : TurnEnv) :
  let r := scam_detection w request env in
  List.Forall
    (fun pl =>
       cb_sessionId pl = sessionId (incoming_session w request env) /\
       cb_scamDetected pl = true /\
       has_intelligence (cb_extractedIntelligence pl) = true /\
       (MIN_TURNS_BEFORE_CALLBACK settings <= cb_totalMessagesExchanged pl)%nat /\
       ((SCAM_DETECTION_THRESHOLD settings == 6 # 10)%Q ->
        exists a : AutonomousAgent,
          active_agents (world_after r) !! req_sessionId request = Some a /\
          cb_agentNotes pl = generate_agent_notes a (cb_extractedIntelligence pl)))
    (posted r) /\
  (forall (session_id : string) (p : Prepared),
     List.Forall
       (fun pl =>
          cb_agentNotes pl =
            match p_agents p !! session_id with
            | Some a => generate_agent_notes a (extractedIntelligence (p_session p))
            | None => agentNotes (p_session p)
            end)
       (posted (deliver w session_id p env))).
Proof.
  cbv zeta. split.
  2:{ intros session_id p. rewrite deliver_posted.
      destruct (should_send_callback p); constructor; [|constructor].
      destruct (p_agents p !! session_id); reflexivity. }
  unfold scam_detection. destruct (negb _); [constructor|].
  destruct (prepare w request env) as [p|] eqn:Hp; [|constructor].
  destruct (deliver_shape w (req_sessionId request) p env) as (Hagents & _).
  rewrite Hagents, deliver_posted.
  destruct (should_send_callback p) eqn:Hsend; [|constructor].
  destruct (prepare_spec _ _ _ _ Hp) as (Hdet & Hres & _ & _ & Hid & Hn & _).
  apply prepare_steps in Hp.
  destruct (steps_hand_off w request env) as (_ & Htotal & _ & Hbranch).
  cbv zeta in Htotal, Hbranch. rewrite <- Hp in Htotal, Hbranch.
  unfold should_send_callback in Hsend.
  apply andb_prop in Hsend. destruct Hsend as [Hsend Hintel].
  apply andb_prop in Hsend. destruct Hsend as [Hsend _].
  apply andb_prop in Hsend. destruct Hsend as [Hscam Hmin].
  apply Nat.leb_le in Hmin.
  rewrite Hdet in Hscam. rewrite Hscam in Hbranch.
  destruct Hbranch as (Ha & _ & _).
  assert (Hlook : exists a : AutonomousAgent, p_agents p !! req_sessionId request = Some a).
  { rewrite Ha, lookup_insert_eq. eauto. }
  destruct Hlook as [a Hlook]. rewrite Hlook.
  constructor; [|constructor].
  unfold callback_payload. cbn.
  rewrite Hres, Hdet, Hscam.
  split; [exact Hid|]. split; [reflexivity|]. split; [exact Hintel|].
  split.
  - rewrite Htotal. rewrite Hn in Hmin.
    pose proof (count_sender_le scammer (messages (p_session p))). lia.
  - intros _. exists a. split; reflexivity.
Qed.

Lemma last_scammer_msg_app (ms later : list Message) :
  last_scammer_msg (ms ++ later) =
    match last_scammer_msg later with
    | Some t => Some t
    | None => last_scammer_msg ms
    end.
Proof.
  unfold last_scammer_msg. rewrite List.rev_app_distr, List.filter_app.
  destruct (List.filter _ (List.rev later)); reflexivity.
Qed.

(** The transcript at the end of a turn: the messages of the row, then the
    current message, then the history that was not there, then the agent's
    reply if the agent was engaged; the metrics count these messages. *)
Theorem transcript_after_turn (w : World) (request : IncomingRequest) (env : TurnEnv)
  (s : SessionState) :
  session_after (scam_detection w request env) = Some s ->
  let base :=
    prior_messages w (req_sessionId request) ++ [req_message request]
    ++ fresh_history w request in
  (messages s = base \/
   exists reply_text : string,
     messages s = base ++ [MkMessage agent reply_text None] /\
     outcome (scam_detection w request env)
       = Responded (MkAgentResponse success reply_text)) /\
  totalMessagesExchanged (engagementMetrics s) = List.length (messages s) /\
  numberOfTurns (engagementMetrics s) = get_scammer_message_count s.
Proof.
  cbv zeta. unfold scam_detection. destruct (negb _); [discriminate|].
  destruct (prepare w request env) as [p|] eqn:Hp; [|discriminate].
  destruct (deliver_shape w (req_sessionId request) p env)
    as (_ & Hout & s' & Hs' & Hmsgs & Hmet & _).
  rewrite Hs', Hout. intros [= <-]. rewrite Hmsgs, Hmet.
  apply prepare_steps in Hp.
  destruct (steps_hand_off w request env) as (_ & Htotal & Hturns & Hbranch).
  cbv zeta in Htotal, Hturns, Hbranch. rewrite <- Hp in Htotal, Hturns, Hbranch.
  rewrite incoming_session_messages in Hbranch.
  split; [|split; [exact Htotal|]].
  - destruct (scamDetected _).
    + right. destruct Hbranch as (_ & Hr & Hm). exists (p_reply p).
      rewrite Hm, Hr. split; reflexivity.
    + left. apply Hbranch.
  - unfold get_scammer_message_count. rewrite Hmsgs. exact Hturns.
Qed.

(** History is appended after the current message, so the message the
    agent reads as the last scammer message is the last scammer message of
    the appended history when there is one, and the current message only
    otherwise. *)
Theorem history_outranks_current_message (w : World) (request : IncomingRequest)
  (env : TurnEnv) :
  last_scammer_msg (messages (incoming_session w request env)) =
    match last_scammer_msg (fresh_history w request) with
    | Some t => Some t
    | None =>
        match sender (req_message request) with
        | scammer => Some (Py.lower (text (req_message request)))
        | _ => last_scammer_msg (prior_messages w (req_sessionId request))
        end
    end.
Proof.
  rewrite incoming_session_messages, app_assoc, last_scammer_msg_app.
  destruct (last_scammer_msg (fresh_history w request)); [reflexivity|].
  rewrite last_scammer_msg_app. unfold last_scammer_msg at 1. cbn.
  destruct (sender (req_message request)); reflexivity.
Qed.

End Turns.

(** ** The session table and the session endpoints *)

(** [mark_callback_sent] reports success whether or not the row exists,
    creates no row, sets the flag of the row and nothing else, leaves the
    other rows alone, and is idempotent. *)
Theorem mark_callback_sent_frame (d : Database) (session_id : string) :
  let d' := fst (mark_callback_sent d session_id) in
  snd (mark_callback_sent d session_id) = true /\
  (get_session d session_id = None -> d' = d) /\
  (forall row : SessionState,
     get_session d session_id = Some row ->
     get_session d' session_id = Some (set_callbackSent row true)) /\
  (forall other : string,
     other <> session_id -> get_session d' other = get_session d other) /\
  fst (mark_callback_sent d' session_id) = d'.
Proof.
  cbv zeta. unfold mark_callback_sent, get_session. cbn [fst snd].
  split; [reflexivity|]. split; [|split; [|split]].
  - intros Hnone. apply map_eq. intros k. rewrite lookup_alter.
    case_decide; [subst; rewrite Hnone|]; reflexivity.
  - intros row Hrow. rewrite lookup_alter. case_decide; [|congruence].
    rewrite Hrow. reflexivity.
  - intros other Hne. rewrite lookup_alter. case_decide; [congruence|reflexivity].
  - apply map_eq. intros k. destruct (decide (session_id = k)) as [->|Hne].
    + rewrite !lookup_alter_eq. destruct (d !! k) as [row|]; reflexivity.
    + rewrite !lookup_alter_ne by exact Hne. reflexivity.
Qed.

(** [save_session] either fails and leaves the table as it is (the session
    carries a detection result), or stores the session under its id so that
    [get_session] returns it, with the creation time of the row that was
    already there; other rows are left alone. *)
Theorem save_then_get (d : Database) (s : SessionState) :
  let d' := fst (save_session d s) in
  match detectionResult s with
  | Some _ => save_session d s = (d, false)
  | None =>
      snd (save_session d s) = true /\
      (exists row : SessionState,
         get_session d' (sessionId s) = Some row /\
         createdAt row =
           match get_session d (sessionId s) with
           | Some old => createdAt old
           | None => createdAt s
           end /\
         s = MkSessionState (sessionId row) (createdAt s) (updatedAt row) (messages row)
               (detectionResult row) (extractedIntelligence row)
               (engagementMetrics row) (isActive row) (callbackSent row)
               (agentNotes row)) /\
      (forall other : string,
         other <> sessionId s -> get_session d' other = get_session d other)
  end.
Proof.
  cbv zeta. unfold save_session, get_session.
  destruct s as [sid c u ms det ex met act sent notes]. cbn [detectionResult sessionId].
  destruct det as [r|]; [reflexivity|].
  destruct (d !! sid) as [old|] eqn:Hold; cbn [fst snd].
  - split; [reflexivity|]. split.
    + eexists. split; [apply lookup_insert_eq|]. cbn. split; reflexivity.
    + intros other Hne. apply lookup_insert_ne. congruence.
  - split; [reflexivity|]. split.
    + eexists. split; [apply lookup_insert_eq|]. cbn. split; reflexivity.
    + intros other Hne. apply lookup_insert_ne. congruence.
Qed.

Lemma agent_notes_start (a : AutonomousAgent) (ex : ExtractedIntelligence) :
  exists rest : string,
    generate_agent_notes a ex = String "S"%char rest.
Proof.
  unfold generate_agent_notes.
  match goal with
  | |- context [Py.join " " ([?x] ++ (if ?b1 then _ else _) ++ (if ?b2 then _ else _) ++ _)] =>
      destruct b1, b2
  end;
    cbn [app]; unfold Py.join at 1; cbn [String.concat];
    rewrite !string_app_cons; eexists; reflexivity.
Qed.

Section Endpoints.
Context `{Platform}.

(** [force_callback] on a stored session posts once whatever the latch and
    the readiness condition say, with non-empty notes; a 200 sets the flag of
    the row and nothing else, any other outcome leaves the process as it
    was. *)
Theorem force_callback_ignores_readiness (w : World) (session_id key : string)
  (post : option nat) (row : SessionState) :
  verify_api_key key = true ->
  get_session (db w) session_id = Some row ->
  let r := force_callback w session_id key post in
  (exists pl : GUVICallbackPayload,
     f_posted r = [pl] /\
     cb_sessionId pl = sessionId row /\
     cb_extractedIntelligence pl = extractedIntelligence row /\
     cb_totalMessagesExchanged pl = totalMessagesExchanged (engagementMetrics row) /\
     cb_agentNotes pl <> EmptyString /\
     (agentNotes row <> EmptyString -> cb_agentNotes pl = agentNotes row)) /\
  active_agents (f_world r) = active_agents w /\
  (post = Some 200%nat ->
   f_answer r = Http200 success /\
   get_session (db (f_world r)) session_id = Some (set_callbackSent row true)) /\
  (post <> Some 200%nat -> f_answer r = Http200 error /\ f_world r = w).
Proof.
  intros Hkey Hrow. cbv zeta. unfold force_callback. rewrite Hkey, Hrow. cbn [negb].
  set (session :=
         if String.eqb (agentNotes row) EmptyString
         then match active_agents w !! session_id with
              | Some the_agent =>
                  with_notes row (generate_agent_notes the_agent (extractedIntelligence row))
              | None =>
                  with_notes row
                    ("Scam detected: " +:+
                     match detectionResult row with
                     | Some d => ScamType_value (scamType d)
                     | None => "unknown"
                     end)
              end
         else row).
  assert (Hsession :
            sessionId session = sessionId row /\
            extractedIntelligence session = extractedIntelligence row /\
            engagementMetrics session = engagementMetrics row /\
            agentNotes session <> EmptyString /\
            (agentNotes row <> EmptyString -> agentNotes session = agentNotes row)).
  { unfold session. destruct (String.eqb_spec (agentNotes row) EmptyString) as [He|Hne].
    - destruct (active_agents w !! session_id) as [a|];
        cbn [agentNotes with_notes sessionId extractedIntelligence engagementMetrics];
        (repeat split; try reflexivity; [|congruence]).
      + destruct (agent_notes_start a (extractedIntelligence row)) as [rest ->].
        discriminate.
      + rewrite string_app_cons. discriminate.
    - repeat split; try reflexivity; exact Hne. }
  destruct Hsession as (Hid & Hex & Hmet & Hnotes & Hkeep).
  unfold send_guvi_callback, mark_callback_sent.
  destruct post as [code|]; [destruct (Nat.eqb_spec code 200) as [->|Hcode]|];
    cbn [f_posted f_world f_answer active_agents db].
  - split; [|split; [reflexivity|split]].
    + eexists. split; [reflexivity|]. unfold callback_payload. cbn.
      rewrite Hmet. repeat split; assumption.
    + intros _. split; [reflexivity|]. unfold get_session in *.
      rewrite lookup_alter_eq, Hrow. reflexivity.
    + intros Habs. congruence.
  - split; [|split; [reflexivity|split]].
    + eexists. split; [reflexivity|]. unfold callback_payload. cbn.
      rewrite Hmet. repeat split; assumption.
    + intros [= ->]. congruence.
    + intros _. split; reflexivity.
  - split; [|split; [reflexivity|split]].
    + eexists. split; [reflexivity|]. unfold callback_payload. cbn.
      rewrite Hmet. repeat split; assumption.
    + discriminate.
    + intros _. split; reflexivity.
Qed.

Lemma end_of_run_table (turns : list (IncomingRequest * TurnEnv)) :
  forall w : World, db w = ∅ -> db (end_of_run w turns) = ∅.
Proof.
  induction turns as [|[request env] later IH]; intros w Hw; cbn [end_of_run];
    [exact Hw|].
  apply IH, session_table_stays_empty, Hw.
Qed.

(** After any run of turns from an empty session table, both session
    endpoints answer 404 to an authenticated request for any session id, and
    [force_callback] posts nothing. *)
Theorem endpoints_never_find_a_session (w : World)
  (turns : list (IncomingRequest * TurnEnv)) (session_id key : string)
  (post : option nat) :
  db w = ∅ ->
  let w' := end_of_run w turns in
  get_session_state w' session_id key
    = (if verify_api_key key then Http404 else Http401) /\
  force_callback w' session_id key post
    = MkForceResult w' (if verify_api_key key then Http404 else Http401) [].
Proof.
  intros Hw. cbv zeta. pose proof (end_of_run_table turns w Hw) as Hdb.
  unfold get_session_state, force_callback, get_session. rewrite Hdb, lookup_empty.
  destruct (verify_api_key key); split; reflexivity.
Qed.

(** [quick_check] on the joined texts of a transcript agrees with [detect]
    on the transcript, and [extract_from_text] on the joined scammer texts
    with [extract]. *)
Theorem convenience_entry_points_agree (detector0 : ScamDetector)
  (extractor0 : IntelligenceExtractor) (ms : list Message) :
  quick_check detector0 (Py.join " " (List.map text ms))
    = (scamDetected (detect detector0 ms), confidenceScore (detect detector0 ms)) /\
  extract_from_text extractor0
    (Py.join " "
       (List.map text (List.filter (fun m => Sender_eqb (sender m) scammer) ms)))
    = extract extractor0 ms.
Proof.
  split.
  - unfold quick_check.
    rewrite (detect_same_texts detector0
               [MkMessage scammer (Py.join " " (List.map text ms)) None]
               [MkMessage user (Py.join " " (List.map text ms)) None]) by reflexivity.
    unfold detect. cbn [List.map text]. 
    change (Py.join " " [Py.join " " (List.map text ms)])
      with (Py.join " " (List.map text ms)).
    destruct (scan_categories detector0 _) as [ind cm].
    destruct (negb (truthy cm)); reflexivity.
  - unfold extract_from_text, extract. cbn [List.filter sender Sender_eqb List.map text].
    reflexivity.
Qed.

End Endpoints.

Section StoredSessions.
Context `{Platform}.

Lemma saved_row_has_no_detection (d : Database) (s : SessionState) :
  snd (save_session d s) = true ->
  exists row : SessionState,
    get_session (fst (save_session d s)) (sessionId s) = Some row /\
    detectionResult row = None.
Proof.
  unfold save_session, get_session.
  destruct (detectionResult s) as [r|] eqn:Hdet; [discriminate|].
  destruct (d !! sessionId s) as [old|]; cbn [fst snd]; intros _;
    rewrite lookup_insert_eq; eexists; (split; [reflexivity|]);
    [reflexivity | exact Hdet].
Qed.

(** A row that [save_session] wrote carries no detection result, so the two
    session endpoints report it as not a scam: [get_session_state] answers
    [scamDetected = false], no type and score 0, and [force_callback] posts
    [scamDetected = false]. *)
Theorem stored_sessions_report_no_scam (d : Database) (s : SessionState)
  (agents : gmap string AutonomousAgent) (key : string) (post : option nat) :
  snd (save_session d s) = true ->
  verify_api_key key = true ->
  let w := MkWorld (fst (save_session d s)) agents in
  (exists view : SessionView,
     get_session_state w (sessionId s) key = Http200 view /\
     v_scamDetected view = false /\
     v_scamType view = None /\
     v_confidenceScore view = 0%Q) /\
  (exists pl : GUVICallbackPayload,
     f_posted (force_callback w (sessionId s) key post) = [pl] /\
     cb_scamDetected pl = false).
Proof.
  intros Hsaved Hkey. cbv zeta.
  destruct (saved_row_has_no_detection d s Hsaved) as (row & Hrow & Hdet).
  split.
  - unfold get_session_state. cbn [db]. rewrite Hkey, Hrow, Hdet. cbn [negb].
    eexists. split; [reflexivity|]. cbn. repeat split; reflexivity.
  - unfold force_callback. cbn [db active_agents]. rewrite Hkey, Hrow. cbn [negb].
    unfold send_guvi_callback, mark_callback_sent.
    assert (Hpayload : forall session : SessionState,
              detectionResult session = None ->
              cb_scamDetected (callback_payload session) = false).
    { intros session Hnone. unfold callback_payload. cbn. rewrite Hnone. reflexivity. }
    destruct (String.eqb (agentNotes row) EmptyString);
      [destruct (agents !! sessionId s)|];
      (destruct post as [code|]; [destruct (code =? 200)%nat|]);
      cbn [f_posted]; eexists; (split; [reflexivity|]);
      apply Hpayload; exact Hdet.
Qed.

End StoredSessions.

(** ** Merging and replaying *)

Lemma merge_field_known (acc new : list string) :
  (forall x : string, In x new -> In x acc) -> merge_field acc new = acc.
Proof.
  unfold merge_field. induction new as [|x new IH]; intros Hin; [reflexivity|].
  cbn [fold_left]. unfold append_new at 2.
  assert (Hx : Py.mem x acc = true) by (apply mem_In, Hin; left; reflexivity).
  rewrite Hx. apply IH. intros y Hy. apply Hin. right. exact Hy.
Qed.

Lemma merge_field_idem (acc new : list string) :
  merge_field (merge_field acc new) new = merge_field acc new.
Proof. apply merge_field_known. intros x Hx. apply merge_field_adds, Hx. Qed.

(** Merging the same extraction a second time changes nothing, and a merge
    only appends to the lists it is given. *)
Theorem merging_again_changes_nothing (acc extracted_intel : ExtractedIntelligence) :
  merge_intelligence (merge_intelligence acc extracted_intel) extracted_intel
    = merge_intelligence acc extracted_intel /\
  List.Forall2 (fun old new => exists added : list string, new = old ++ added)
    (intelligence_fields acc)
    (intelligence_fields (merge_intelligence acc extracted_intel)).
Proof.
  split.
  - unfold merge_intelligence.
    cbn [upiIds bankAccounts ifscCodes phishingLinks phoneNumbers suspiciousKeywords].
    rewrite !merge_field_idem. reflexivity.
  - unfold intelligence_fields, merge_intelligence.
    cbn [upiIds bankAccounts ifscCodes phishingLinks phoneNumbers suspiciousKeywords].
    repeat constructor;
      match goal with
      | |- exists added, merge_field ?a ?n = _ =>
          destruct (merge_field_appends a n) as (added & -> & _); exists added; reflexivity
      end.
Qed.

Lemma same_key_refl (m : Message) : same_key m m = true.
Proof.
  unfold same_key. rewrite String.eqb_refl. destruct (sender m); reflexivity.
Qed.

Lemma filter_none {A : Type} (p : A -> bool) (l : list A) :
  (forall x : A, In x l -> p x = false) -> List.filter p l = [].
Proof.
  induction l as [|x l IH]; intros Hp; [reflexivity|].
  cbn [List.filter]. rewrite (Hp x (or_introl eq_refl)).
  apply IH. intros y Hy. apply Hp. right. exact Hy.
Qed.

(** [add_history] appends the history messages whose (sender, text) pair
    is not in the session; afterwards every pair of the history is there, so
    replaying the same history adds nothing. *)
Theorem history_replay_adds_nothing (ms history : list Message) :
  add_history (add_history ms history) history = add_history ms history /\
  (exists added : list Message,
     add_history ms history = ms ++ added /\
     forall m : Message, In m added <-> In m history /\ existsb (same_key m) ms = false) /\
  (forall m : Message,
     In m history -> existsb (same_key m) (add_history ms history) = true).
Proof.
  assert (Hcover : forall m : Message,
            In m history -> existsb (same_key m) (add_history ms history) = true).
  { intros m Hm. unfold add_history. rewrite existsb_app.
    destruct (existsb (same_key m) ms) eqn:Hk; [reflexivity|]. cbn [orb].
    apply existsb_exists. exists m. split; [|apply same_key_refl].
    apply filter_In. split; [exact Hm|]. rewrite Hk. reflexivity. }
  split; [|split; [|exact Hcover]].
  - unfold add_history at 1. rewrite filter_none; [apply app_nil_r|].
    intros m Hm. rewrite (Hcover m Hm). reflexivity.
  - eexists. split; [reflexivity|]. intros m. rewrite filter_In.
    rewrite negb_true_iff. reflexivity.
Qed.

(** * Worked scenarios on the concrete platform *)

Module Scenarios.

#[local] Existing Instance py_platform.
Import Inputs.

(** Every pattern of the two catalogues is within the syntax that module
    [Re] parses. *)
Lemma catalogue_compiles :
  forallb
    (fun p => match Re.compile p with Some _ => true | None => false end)
    (flat_map snd SCAM_PATTERNS
     ++ flat_map (fun e => regex (snd e)) EXTRACTION_PATTERNS) = true.
Proof. vm_compute. reflexivity. Qed.

(** Scenario A of the specification. *)
Example scenario_A :
  let r :=
    detect_scam
      [MkMessage scammer
         "Your account will be blocked today. Click here to verify: http://sbi-verify-fake.com"
         None] in
  scamDetected r = true /\ scamType r = BANK_FRAUD /\
  Qle_bool (6 # 10) (confidenceScore r) = true /\
  phishingLinks
    (extract_intelligence
       [MkMessage scammer
          "Your account will be blocked today. Click here to verify: http://sbi-verify-fake.com"
          None]) = ["http://sbi-verify-fake.com"].
Proof. vm_compute. repeat split. Qed.

(** Scenario B of the specification. *)
Example scenario_B :
  scamType (detect_scam [MkMessage scammer "Send Rs 5000 to my UPI id refund@phonepe" None])
    = UPI_FRAUD /\
  upiIds (extract_intelligence
            [MkMessage scammer "Send Rs 5000 to my UPI id refund@phonepe" None])
    = ["refund@phonepe"].
Proof. vm_compute. repeat split. Qed.

(** Scenario E of the specification, with the country code of the code. *)
Example scenario_E :
  phoneNumbers
    (extract_intelligence
       [MkMessage scammer "call 9876543210 or +91 9123456789 or phone: 919000000001 " None])
  = ["+919123456789"; "+919876543210"; "+919000000001"].
Proof. vm_compute. reflexivity. Qed.

(** C1, at a failing input. Two identical turns of one session whose POSTs
    both succeed: the first turn posts and sets [callbackSent] on its session;
    no row is written, so the second turn starts from a new session and posts
    again. *)
Theorem callback_posted_again_after_success :
  let results := run_turns empty_world [(request_upi, env_ok); (request_upi, env_ok)] in
  List.map (fun r => List.length (posted r)) results = [1%nat; 1%nat] /\
  List.map (fun r => option_map callbackSent (session_after r)) results
    = [Some true; Some true] /\
  List.map (fun r => get_session (db (world_after r)) "sess-1") results
    = [None; None] /\
  List.map (fun r => List.map cb_sessionId (posted r)) results
    = [["sess-1"]; ["sess-1"]].
Proof.
  vm_compute. repeat split.
Qed.

(** C3, at a failing input. The first turn accumulates a UPI id; the second
    turn of the same session, which brings no identifier, ends with an empty
    list: the value accumulated by the previous turn is gone. *)
Theorem accumulated_upi_id_lost :
  let results :=
    run_turns empty_world [(request_upi, env_ok); (request_plain, env_ok)] in
  List.map
    (fun r => option_map (fun s => upiIds (extractedIntelligence s)) (session_after r))
    results
  = [Some ["refund@phonepe"]; Some []].
Proof.
  vm_compute. reflexivity.
Qed.

(** C6, at concrete inputs: one text, with and without a timestamp,
    classified in a process that iterates a set in insertion order and in a
    process that iterates it in the reverse order. *)
Lemma classifier_deterministic_witness :
  List.map text transcript_blocked = List.map text transcript_blocked_stamped /\
  @detect py_platform detector transcript_blocked
    = @detect py_platform detector transcript_blocked_stamped /\
  scamDetected (@detect py_platform detector transcript_blocked)
    = scamDetected (@detect py_platform_reversed detector transcript_blocked_stamped) /\
  confidenceScore (@detect py_platform detector transcript_blocked)
    = confidenceScore (@detect py_platform_reversed detector transcript_blocked_stamped) /\
  scamType (@detect py_platform detector transcript_blocked)
    = scamType (@detect py_platform_reversed detector transcript_blocked_stamped) /\
  reasoning (@detect py_platform detector transcript_blocked)
    = reasoning (@detect py_platform_reversed detector transcript_blocked_stamped).
Proof.
  split; [reflexivity|].
  destruct (classifier_deterministic py_platform py_platform_reversed detector
              transcript_blocked transcript_blocked_stamped)
    as ((Hs & Hc & Ht & Hr) & Hsame & _).
  - reflexivity.
  - intros p t. reflexivity.
  - intros xs. apply Permutation_refl.
  - intros xs. symmetry. apply Permutation_rev.
  - reflexivity.
  - split; [exact Hsame|]. split; [exact Hs|]. split; [exact Hc|].
    split; [exact Ht | exact Hr].
Defined.

(** C6, against the claim as stated: the same transcript classified in two
    processes that iterate a set in different orders gets two different lists
    of indicators; with more than ten candidates the two lists do not even
    hold the same rules. *)
Lemma indicators_differ_between_processes :
  indicators (@detect_scam py_platform transcript_blocked)
    = ["blocked\s*(today|now|immediately)"; "will\s*be\s*blocked"] /\
  indicators (@detect_scam py_platform_reversed transcript_blocked)
    = ["will\s*be\s*blocked"; "blocked\s*(today|now|immediately)"] /\
  In "urgent" (indicators (@detect_scam py_platform transcript_twelve_rules)) /\
  (In "urgent" (indicators (@detect_scam py_platform_reversed transcript_twelve_rules))
   -> False).
Proof.
  split; [vm_compute; reflexivity|].
  split; [vm_compute; reflexivity|].
  split; [vm_compute; left; reflexivity|].
  vm_compute. intros Hin.
  repeat (destruct Hin as [Hin|Hin]; [discriminate Hin|]). exact Hin.
Qed.




(** C7, against the claim as stated: the specification's normalisation for a
    configured country code 44 gives [+44...]; the code has no such setting
    and gives [+91...]. *)
Lemma phone_country_code_is_fixed :
  normalized_for_country_code "44" "7911123456" = Some "+447911123456" /\
  normalized "7911123456" = Some "+917911123456" /\
  _extract_phone_numbers extractor "call 7911123456 now" = ["+917911123456"].
Proof.
  vm_compute. repeat split.
Qed.

(** C8, against the claim as stated: after two questions for the UPI id the
    counter of that field is 2, and the next reply to the same message is a
    question for the bank account, not a stalling or cooperative reply. *)
Lemma capped_field_falls_to_another_question :
  let said := [MkMessage scammer "Pay by UPI or bank transfer" None] in
  let a0 := create_agent "sess-1" UPI_FRAUD 0 0 in
  let a1 := fst (fst (generate_response a0 said empty_intelligence 0)) in
  let a2 := fst (fst (generate_response a1 said empty_intelligence 0)) in
  attempts_of (memory a2) "upi" = 2%nat /\
  _determine_strategy (with_turn_count a2 3) "pay by upi or bank transfer"
    empty_intelligence = extract_bank /\
  List.map fst
    (agent_run a0
       [ (said, empty_intelligence, 0%nat); (said, empty_intelligence, 0%nat);
         (said, empty_intelligence, 0%nat) ])
  = [ExtractionQuestion "upi"; ExtractionQuestion "upi"; ExtractionQuestion "bank"].
Proof.
  vm_compute. repeat split.
Qed.

(** The latch is lost for every platform; here on the concrete one. *)
Lemma callback_repeats_after_success_witness :
  (exists s1 : SessionState,
     session_after (scam_detection empty_world request_upi env_ok) = Some s1 /\
     callbackSent s1 = true) /\
  get_session (db (world_after (scam_detection empty_world request_upi env_ok)))
    (req_sessionId request_upi) = None /\
  posted
    (scam_detection (world_after (scam_detection empty_world request_upi env_ok))
       request_upi env_late) <> [].
Proof.
  apply callback_repeats_after_success.
  - reflexivity.
  - reflexivity.
  - reflexivity.
  - vm_compute. discriminate.
Defined.

(** Within a turn that starts from a stored row, the accumulated lists grow:
    the stored UPI id is kept and the new one is appended. *)
Lemma turn_accumulates_witness :
  exists s : SessionState,
    session_after (scam_detection world_with_row request_upi env_ok) = Some s /\
    upiIds (extractedIntelligence s) = ["old@ybl"; "refund@phonepe"] /\
    accumulates
      (extractedIntelligence (incoming_session world_with_row request_upi env_ok))
      (extractedIntelligence s).
Proof.
  destruct (session_after (scam_detection world_with_row request_upi env_ok))
    as [s |] eqn:Hs; [| vm_compute in Hs; discriminate Hs].
  exists s. split; [reflexivity |]. split.
  - vm_compute in Hs. injection Hs as <-. reflexivity.
  - apply (turn_accumulates world_with_row request_upi env_ok s Hs).
    vm_compute. repeat constructor; intros Hin; repeat destruct Hin as [Hin | Hin];
      try discriminate Hin; try contradiction.
Defined.

(** A request with metadata on the concrete platform. *)
Lemma request_with_metadata_fails_witness :
  scam_detection empty_world request_with_metadata env_ok =
    MkTurnResult empty_world (Responded (MkAgentResponse error error_reply)) [] None.
Proof.
  apply (request_with_metadata_fails empty_world request_with_metadata env_ok
           (MkMetadata (Some "SMS") (Some "English") (Some "IN")));
    reflexivity.
Defined.

(** ** Instances of the further properties *)

(** A message that matches the category of fake offers and no other. *)
Lemma one_category_stays_below_half_witness :
  List.length
    (matched_categories [MkMessage scammer "You are the winner of our lottery" None])
    = 1%nat /\
  (confidenceScore
     (detect_scam [MkMessage scammer "You are the winner of our lottery" None])
   <= 1 # 2)%Q /\
  scamDetected
    (detect_scam [MkMessage scammer "You are the winner of our lottery" None]) = false.
Proof.
  split; [vm_compute; reflexivity |].
  destruct (one_category_stays_below_half
              [MkMessage scammer "You are the winner of our lottery" None])
    as [Hle Hnot].
  - vm_compute. reflexivity.
  - split; [exact Hle |]. apply Hnot. vm_compute. reflexivity.
Defined.

Lemma indicators_are_matching_patterns_witness :
  indicators (detect_scam [MkMessage scammer "Your account will be blocked today" None])
    = ["blocked\s*(today|now|immediately)"; "will\s*be\s*blocked"] /\
  List.Forall
    (fun i =>
       exists (category : string) (patterns : list string),
         In (category, patterns) SCAM_PATTERNS /\ In i patterns /\
         re_search i
           (all_text_of [MkMessage scammer "Your account will be blocked today" None])
         = true)
    (indicators
       (detect_scam [MkMessage scammer "Your account will be blocked today" None])).
Proof.
  split; [vm_compute; reflexivity |].
  apply (indicators_are_matching_patterns
           [MkMessage scammer "Your account will be blocked today" None]).
  intros xs x Hx. exact Hx.
Defined.

(** An agent that is shown a UPI id while the scammer talks about UPI. *)
Lemma seen_field_is_not_asked_again_witness :
  asks "upi"
    (snd (fst (generate_response (create_agent "sess-1" UPI_FRAUD 0 0)
                 [MkMessage scammer "Pay by UPI" None]
                 (MkExtractedIntelligence [] [] ["refund@phonepe"] [] [] []) 0)))
    = false /\
  forall inputs : list AgentInput,
    List.Forall (fun r => asks "upi" (fst r) = false)
      (agent_run
         (fst (fst (generate_response (create_agent "sess-1" UPI_FRAUD 0 0)
                      [MkMessage scammer "Pay by UPI" None]
                      (MkExtractedIntelligence [] [] ["refund@phonepe"] [] [] []) 0)))
         inputs).
Proof.
  apply seen_field_is_not_asked_again.
  - apply reachable_new.
  - vm_compute. auto.
  - vm_compute. discriminate.
  - eexists _, _. vm_compute. reflexivity.
Defined.

Lemma agent_engaged_iff_detected_witness :
  (SCAM_DETECTION_THRESHOLD settings == 6 # 10)%Q /\
  exists p : Prepared,
    prepare empty_world request_upi env_ok = Some p /\
    scamDetected (p_detection p) = true /\
    messages (p_session p) =
      messages (incoming_session empty_world request_upi env_ok)
      ++ [MkMessage agent (p_reply p) None].
Proof.
  split; [reflexivity|].
  exists (steps_1_to_4 empty_world request_upi env_ok
            (incoming_session empty_world request_upi env_ok)).
  assert (Hp : prepare empty_world request_upi env_ok
               = Some (steps_1_to_4 empty_world request_upi env_ok
                         (incoming_session empty_world request_upi env_ok)))
    by reflexivity.
  assert (Hd : scamDetected
                 (p_detection
                    (steps_1_to_4 empty_world request_upi env_ok
                       (incoming_session empty_world request_upi env_ok))) = true)
    by (vm_compute; reflexivity).
  assert (Ht : (SCAM_DETECTION_THRESHOLD settings == 6 # 10)%Q) by reflexivity.
  destruct (agent_engaged_iff_detected empty_world request_upi env_ok _ Ht Hp)
    as [_ Hb].
  rewrite Hd in Hb. split; [exact Hp |]. split; [exact Hd | apply Hb].
Defined.

(** A stored transcript, the current message, two history messages and the
    reply, in this order. *)
Lemma transcript_after_turn_witness :
  exists s : SessionState,
    session_after (scam_detection world_with_row request_upi env_ok) = Some s /\
    List.map sender (messages s) = [scammer; scammer; scammer; scammer; agent] /\
    List.map text (firstn 4 (messages s)) =
      [ "pay to old@ybl";
        "Urgent: send money to my UPI id refund@phonepe immediately";
        "Hello";
        "Your account will be blocked today" ] /\
    totalMessagesExchanged (engagementMetrics s) = 5%nat /\
    numberOfTurns (engagementMetrics s) = get_scammer_message_count s.
Proof.
  eexists. split; [vm_compute; reflexivity |].
  split; [reflexivity |]. split; [reflexivity |]. split; [reflexivity |].
  apply (transcript_after_turn world_with_row request_upi env_ok).
  vm_compute. reflexivity.
Defined.

(** A stored session whose latch is set and that is not ready. *)
Lemma force_callback_ignores_readiness_witness :
  List.length
    (f_posted
       (force_callback
          (MkWorld (<["sess-1" := set_callbackSent stored_session true]> ∅) ∅)
          "sess-1" api_key (Some 200%nat))) = 1%nat /\
  f_answer
    (force_callback
       (MkWorld (<["sess-1" := set_callbackSent stored_session true]> ∅) ∅)
       "sess-1" api_key (Some 200%nat)) = Http200 success.
Proof.
  destruct (force_callback_ignores_readiness
              (MkWorld (<["sess-1" := set_callbackSent stored_session true]> ∅) ∅)
              "sess-1" api_key (Some 200%nat) (set_callbackSent stored_session true))
    as ((pl & Hpl & _) & _ & Hok & _).
  - vm_compute. reflexivity.
  - vm_compute. reflexivity.
  - cbv zeta in Hpl, Hok. rewrite Hpl. split; [reflexivity |].
    apply Hok. reflexivity.
Defined.

Lemma endpoints_never_find_a_session_witness :
  get_session_state
    (end_of_run empty_world [(request_upi, env_ok); (request_plain, env_late)])
    "sess-1" api_key = Http404 /\
  force_callback
    (end_of_run empty_world [(request_upi, env_ok); (request_plain, env_late)])
    "sess-1" api_key (Some 200%nat)
  = MkForceResult
      (end_of_run empty_world [(request_upi, env_ok); (request_plain, env_late)])
      Http404 [].
Proof.
  destruct (endpoints_never_find_a_session empty_world
              [(request_upi, env_ok); (request_plain, env_late)]
              "sess-1" api_key (Some 200%nat) eq_refl) as [Hstate Hforce].
  cbv zeta in Hstate, Hforce.
  change (verify_api_key api_key) with true in Hstate, Hforce.
  split; [exact Hstate | exact Hforce].
Defined.

Lemma keywords_occur_in_text_witness :
  _extract_suspicious_keywords extractor "URGENT: verify now or act now"
    = ["urgent"; "verify now"; "act now"] /\
  List.Forall
    (fun keyword =>
       (In keyword (scam_keywords extractor) \/ In keyword urgent_phrases) /\
       Py.contains (Py.lower keyword) (Py.lower "URGENT: verify now or act now") = true)
    (_extract_suspicious_keywords extractor "URGENT: verify now or act now").
Proof.
  split; [vm_compute; reflexivity |].
  apply (keywords_occur_in_text extractor "URGENT: verify now or act now").
  intros xs x Hx. exact Hx.
Defined.

(** The stored session of the scenarios, written to an empty table. *)
Lemma stored_sessions_report_no_scam_witness :
  (exists view : SessionView,
     get_session_state (MkWorld (fst (save_session ∅ stored_session)) ∅)
       (sessionId stored_session) api_key = Http200 view /\
     v_scamDetected view = false /\
     v_scamType view = None /\
     v_confidenceScore view = 0%Q) /\
  (exists pl : GUVICallbackPayload,
     f_posted
       (force_callback (MkWorld (fst (save_session ∅ stored_session)) ∅)
          (sessionId stored_session) api_key (Some 200%nat)) = [pl] /\
     cb_scamDetected pl = false).
Proof.
  apply (stored_sessions_report_no_scam ∅ stored_session ∅ api_key (Some 200%nat)).
  - reflexivity.
  - reflexivity.
Defined.

End Scenarios.
